(** * vscode-theme-converter: the colour resolution engine

    A shallow embedding of [src/base.ts] (colour values, the per-variant
    registry, [registerColor] and the table of its calls, the transform
    constructors, [rgba], [executeTransform], [resolveColorValue]), of
    the theme overlay built by the two converters ([providers/docgen.ts],
    [providers/kate.ts]) with their [getColor], of the text styles of
    [providers/kate.ts] and [matchScope] of [utils.ts], and of the type
    fallback and the include merge of [theme-finder.ts], followed by the
    properties of the specification that are settled against it and by
    further properties of the code.

    Conventions of the embedding.
    - A JavaScript [number] is an exact rational ([Q]); the rounding of
      IEEE doubles is not modelled, so the amount handed to [lighten] or
      [darken] and the channels they compute can differ from the code's
      in the last place.  The properties below state no value that
      depends on this arithmetic, but for closed examples.  The two
      non-finite values that the code can produce (a division by zero in
      the prominence arithmetic) are kept as [NaN] and [Inf].
    - A plain object used as a dictionary is a [gmap string _] of its own
      properties.  The lookups [theme[id]] of the resolver also see the
      properties the theme inherits from [Object.prototype].
    - [undefined] as a resolved colour is [None].
    - A call that can throw or recurse without bound returns an
      [option Outcome]: [None] when the call budget (fuel) is exhausted,
      [Some (Throw e)] for an exception, [Some (Ret r)] for a normal
      return. *)

From Stdlib Require Import Ascii String QArith Qround Qminmax Qabs Lqa.
From stdpp Require Import base strings gmap list.

Local Open Scope Q_scope.

(** ** JavaScript numbers *)

Module Js.

(** [Math.round]: the nearest integer, halves rounded up. *)
Definition mathRound (x : Q) : Z := Qfloor (x + (1 # 2)).

(** [parseInt(x, 10)] of a number: the digits before the decimal point
    (for [1e-6 <= |x| < 1e21], where [String(x)] has no exponent). *)
Definition parseInt (x : Q) : Z := Z.quot (Qnum x) (Zpos (Qden x)).

(** [x % m] for [m > 0] and [x >= 0]. *)
Definition rem (x m : Q) : Q := x - m * inject_Z (Qfloor (x / m)).

(** A number that may be non-finite. *)
Inductive number :=
| Fin (q : Q)
| NaN
| Inf (negative : bool).

(** [x / y] in IEEE arithmetic on finite operands. *)
Definition div (x y : Q) : number :=
  if Qeq_bool y 0 then
    if Qeq_bool x 0 then NaN
    else Inf (if Qlt_le_dec x 0 then true else false)
  else Fin (x / y).

Definition ltb (x y : Q) : bool := if Qlt_le_dec x y then true else false.
Definition leb (x y : Q) : bool := if Qlt_le_dec y x then false else true.

End Js.

(** ** tinycolor2

    [base.ts] imports the library [tinycolor2], which is not part of the
    repository.  This module models the calls [base.ts] makes on it:
    the constructor on a string, [setAlpha], [lighten], [darken],
    [getLuminance] and [toHexString].

    The string parser covers the hexadecimal notations ([#rgb], [#rgba],
    [#rrggbb], [#rrggbbaa], the [#] optional); any other string is
    taken as unparsable and yields opaque black with the validity flag
    off.  The library also trims white space and reads named colours
    and the functional notations ([rgb(...)], [hsl(...)], [hsv(...)]),
    anywhere in the string: these are outside the model, and the
    properties that depend on a parsed colour are stated for
    hexadecimal colours.

    [Math.pow], used by [getLuminance] with the exponent 2.4, takes
    irrational values; it stays a parameter of the model. *)

Module TinyColor.
Section Model.

Variable Math_pow : Q -> Q -> Q.

Record Instance := mkInstance {
  _r : Q;
  _g : Q;
  _b : Q;
  _a : Q;
  _ok : bool
  }.

(** *** Utilities *)

Definition hexDigit (c : ascii) : option Z :=
  let n := Z.of_nat (nat_of_ascii c) in
  if (48 <=? n)%Z && (n <=? 57)%Z then Some (n - 48)%Z
  else if (97 <=? n)%Z && (n <=? 102)%Z then Some (n - 87)%Z
  else if (65 <=? n)%Z && (n <=? 70)%Z then Some (n - 55)%Z
  else None.

(** [parseIntFromHex] on a two-digit string. *)
Definition parseIntFromHex (hi lo : ascii) : option Z :=
  match hexDigit hi, hexDigit lo with
  | Some h, Some l => Some (16 * h + l)%Z
  | _, _ => None
  end.

Definition convertHexToDecimal (hi lo : ascii) : option Q :=
  match parseIntFromHex hi lo with
  | Some n => Some (inject_Z n / 255)
  | None => None
  end.

Definition clamp01 (val : Q) : Q := Qmin 1 (Qmax 0 val).

(** [boundAlpha]: a value outside [0, 1] becomes 1. *)
Definition boundAlpha (a : Q) : Q :=
  if Js.ltb a 0 || Js.ltb 1 a then 1 else a.

(** A CSS unit as the library passes it around: a number, or the string
    of a number followed by a percent sign. *)
Inductive CssUnit :=
  | Number (n : Q)
  | Percent (n : Q).

(** [convertToPercentage]: a number at most 1 becomes the string
    [(n * 100) + "%"]. *)
Definition convertToPercentage (n : Q) : CssUnit :=
  if Js.leb n 1 then Percent (n * 100) else Number n.

(** [bound01(n, max)]: bring [n] into [0, 1].  A percentage is first
    cut to [parseInt(n * max) / 100]. *)
Definition bound01 (n : CssUnit) (max : Q) : Q :=
  let v := match n with Number v => v | Percent v => v end in
  let v := Qmin max (Qmax 0 v) in
  let v := match n with
           | Number _ => v
           | Percent _ => inject_Z (Js.parseInt (v * max)) / 100
           end in
  if Js.ltb (Qabs (v - max)) (1 # 1000000) then 1
  else Js.rem v max / max.

Definition toHexDigit (n : Z) : ascii :=
  if (n <? 10)%Z then ascii_of_nat (Z.to_nat (48 + n))
  else ascii_of_nat (Z.to_nat (87 + n)).

(** [pad2(n.toString(16))] for an integer [0 <= n <= 255]. *)
Definition pad2hex (n : Z) : string :=
  String (toHexDigit (n / 16)) (String (toHexDigit (n mod 16)) EmptyString).

(** *** Conversions *)

Definition rgbToRgb (r g b : Q) : Q * Q * Q :=
  (bound01 (Number r) 255 * 255,
   bound01 (Number g) 255 * 255,
   bound01 (Number b) 255 * 255).

Definition rgbToHsl (r g b : Q) : Q * Q * Q :=
  let r := bound01 (Number r) 255 in
  let g := bound01 (Number g) 255 in
  let b := bound01 (Number b) 255 in
  let max := Qmax r (Qmax g b) in
  let min := Qmin r (Qmin g b) in
  let l := (max + min) / 2 in
  if Qeq_bool max min then (0, 0, l)
  else
    let d := max - min in
    let s := if Js.ltb (1 # 2) l then d / (2 - max - min)
             else d / (max + min) in
    let h :=
      if Qeq_bool max r then (g - b) / d + (if Js.ltb g b then 6 else 0)
      else if Qeq_bool max g then (b - r) / d + 2
      else (r - g) / d + 4 in
    (h / 6, s, l).

Definition hue2rgb (p q t : Q) : Q :=
  let t := if Js.ltb t 0 then t + 1 else t in
  let t := if Js.ltb 1 t then t - 1 else t in
  if Js.ltb t (1 # 6) then p + (q - p) * 6 * t
  else if Js.ltb t (1 # 2) then q
  else if Js.ltb t (2 # 3) then p + (q - p) * ((2 # 3) - t) * 6
  else p.

Definition hslToRgb (h : Q) (s l : CssUnit) : Q * Q * Q :=
  let h := bound01 (Number h) 360 in
  let s := bound01 s 100 in
  let l := bound01 l 100 in
  if Qeq_bool s 0 then (l * 255, l * 255, l * 255)
  else
    let q := if Js.ltb l (1 # 2) then l * (1 + s) else l + s - l * s in
    let p := 2 * l - q in
    (hue2rgb p q (h + (1 # 3)) * 255,
     hue2rgb p q h * 255,
     hue2rgb p q (h - (1 # 3)) * 255).

Definition rgbToHex (r g b : Q) : string :=
  pad2hex (Js.mathRound r) +:+ pad2hex (Js.mathRound g)
    +:+ pad2hex (Js.mathRound b).

(** *** Construction *)

(** The constructor's last step: channels are clamped to [0, 255] by
    [inputToRGB], the alpha is bounded, and a channel below 1 is
    rounded. *)
Definition construct (ok : bool) (rgb : Q * Q * Q) (a : Q) : Instance :=
  let '(r, g, b) := rgb in
  let fix1 (c : Q) :=
    let c := Qmin 255 (Qmax c 0) in
    if Js.ltb c 1 then inject_Z (Js.mathRound c) else c in
  mkInstance (fix1 r) (fix1 g) (fix1 b) (boundAlpha a) ok.

(** [stringInputToObject] on the hexadecimal notations: the channels
    and, for the notations that carry one, the alpha. *)
Definition stringInputToObject (color : string) : option (Z * Z * Z * option Q) :=
  let digits := match color with
                | String "#"%char rest => rest
                | _ => color
                end in
  match list_ascii_of_string digits with
  | [r1; r2; g1; g2; b1; b2; a1; a2] =>
      match parseIntFromHex r1 r2, parseIntFromHex g1 g2,
            parseIntFromHex b1 b2, convertHexToDecimal a1 a2 with
      | Some r, Some g, Some b, Some a => Some (r, g, b, Some a)
      | _, _, _, _ => None
      end
  | [r1; r2; g1; g2; b1; b2] =>
      match parseIntFromHex r1 r2, parseIntFromHex g1 g2,
            parseIntFromHex b1 b2 with
      | Some r, Some g, Some b => Some (r, g, b, None)
      | _, _, _ => None
      end
  | [r; g; b; a] =>
      match parseIntFromHex r r, parseIntFromHex g g,
            parseIntFromHex b b, convertHexToDecimal a a with
      | Some r, Some g, Some b, Some a => Some (r, g, b, Some a)
      | _, _, _, _ => None
      end
  | [r; g; b] =>
      match parseIntFromHex r r, parseIntFromHex g g,
            parseIntFromHex b b with
      | Some r, Some g, Some b => Some (r, g, b, None)
      | _, _, _ => None
      end
  | _ => None
  end.

(** [tinycolor2(color)] for a string. *)
Definition tinycolor2 (color : string) : Instance :=
  match stringInputToObject color with
  | Some (r, g, b, a) =>
      construct true (rgbToRgb (inject_Z r) (inject_Z g) (inject_Z b))
        (match a with Some a => a | None => 1 end)
  | None => construct false (0, 0, 0) 1
  end.

(** [tinycolor2({h, s, l, a})]. *)
Definition fromHsl (h s l a : Q) : Instance :=
  construct true
    (hslToRgb h (convertToPercentage s) (convertToPercentage l)) a.

(** *** Methods *)

Definition setAlpha (c : Instance) (value : Q) : Instance :=
  mkInstance (_r c) (_g c) (_b c) (boundAlpha value) (_ok c).

(** [toHsl()]: hue in degrees. *)
Definition toHsl (c : Instance) : Q * Q * Q * Q :=
  let '(h, s, l) := rgbToHsl (_r c) (_g c) (_b c) in
  (h * 360, s, l, _a c).

Definition toHexString (c : Instance) : string :=
  String "#"%char (rgbToHex (_r c) (_g c) (_b c)).

(** One channel of the relative luminance (WCAG 2.0). *)
Definition linearize (c : Q) : Q :=
  let srgb := inject_Z (Js.mathRound c) / 255 in
  if Js.leb srgb (3928 # 100000) then srgb / (1292 # 100)
  else Math_pow ((srgb + (55 # 1000)) / (1055 # 1000)) (24 # 10).

Definition getLuminance (c : Instance) : Q :=
  (2126 # 10000) * linearize (_r c) + (7152 # 10000) * linearize (_g c)
    + (722 # 10000) * linearize (_b c).

(** The lightness after [hsl.l += delta / 100; clamp01(hsl.l)], where
    [amount] is [amount === 0 ? 0 : (amount || 10)] and [delta] is
    [amount] ([lighten]) or its opposite ([darken]). *)
Definition shiftLightness (l : Q) (amount : Js.number) (up : bool) : Q :=
  match amount with
  | Js.Fin q => clamp01 (if up then l + q / 100 else l - q / 100)
  | Js.NaN => clamp01 (if up then l + 10 / 100 else l - 10 / 100)
  | Js.Inf neg => if xorb up neg then 1 else 0
  end.

(** [_applyModification]: the receiver takes the channels of the new
    colour and its alpha, and keeps its own validity flag. *)
Definition applyModification (c new : Instance) : Instance :=
  mkInstance (_r new) (_g new) (_b new) (boundAlpha (_a new)) (_ok c).

Definition lighten (c : Instance) (amount : Js.number) : Instance :=
  let '(h, s, l, a) := toHsl c in
  applyModification c (fromHsl h s (shiftLightness l amount true) a).

Definition darken (c : Instance) (amount : Js.number) : Instance :=
  let '(h, s, l, a) := toHsl c in
  applyModification c (fromHsl h s (shiftLightness l amount false) a).

End Model.
End TinyColor.

(** ** base.ts: the colour value model *)

Definition ColorIdentifier := string.

(** [type ColorValue = string | ColorIdentifier | ColorTransform]: a
    string (a literal or an identifier, told apart only when resolved)
    or a transform object. *)
Inductive ColorValue :=
| CString (s : string)
| CTransform (t : ColorTransform)
with ColorTransform :=
| Darken (value : ColorValue) (factor : Q)
| Lighten (value : ColorValue) (factor : Q)
| Transparent (value : ColorValue) (factor : Q)
| OneOf (values : list ColorValue)
| LessProminent (value background : ColorValue) (factor transparency : Q)
| IfDefinedThenElse (if_ : ColorIdentifier) (then_ else_ : ColorValue).

(** The keys of [ColorDefaults] and of [schemes]. *)
Inductive Variant := Light | Dark | HcDark | HcLight.

Global Instance Variant_eq_dec : EqDecision Variant.
Proof. solve_decision. Defined.

(** An object with one property per variant. *)
Record PerVariant (A : Type) := mkPerVariant {
  light : A;
  dark : A;
  hcDark : A;
  hcLight : A
}.
Arguments mkPerVariant {A} _ _ _ _.
Arguments light {A} _.
Arguments dark {A} _.
Arguments hcDark {A} _.
Arguments hcLight {A} _.

(** [o[key]] *)
Definition getKey {A} (key : Variant) (o : PerVariant A) : A :=
  match key with
  | Light => light o
  | Dark => dark o
  | HcDark => hcDark o
  | HcLight => hcLight o
  end.

(** [o[key] = a] *)
Definition setKey {A} (key : Variant) (a : A) (o : PerVariant A) : PerVariant A :=
  match key with
  | Light => mkPerVariant a (dark o) (hcDark o) (hcLight o)
  | Dark => mkPerVariant (light o) a (hcDark o) (hcLight o)
  | HcDark => mkPerVariant (light o) (dark o) a (hcLight o)
  | HcLight => mkPerVariant (light o) (dark o) (hcDark o) a
  end.

(** [interface ColorDefaults]: per variant a colour value or [null]
    ([None]; a property left out of the literal behaves the same, the
    loop of [registerColor] never sees it). *)
Definition ColorDefaults := PerVariant (option ColorValue).

(** [schemes]: the registry, one table per variant. *)
Definition Schemes := PerVariant (gmap string ColorValue).

Definition emptySchemes : Schemes := mkPerVariant ∅ ∅ ∅ ∅.

(** [!value] for a [ColorValue | null]: [null] and the empty string are
    falsy, every other string and every transform object is truthy. *)
Definition falsyValue (value : option ColorValue) : bool :=
  match value with
  | None => true
  | Some (CString EmptyString) => true
  | Some _ => false
  end.

(** The body of the loop of [registerColor] for one key. *)
Definition registerKey (id : string) (defaults : ColorDefaults)
    (schemes : Schemes) (key : Variant) : Schemes :=
  match getKey key defaults with
  | Some value =>
      if falsyValue (Some value) then schemes
      else setKey key (<[id := value]> (getKey key schemes)) schemes
  | None => schemes
  end.

(** [registerColor(id, defaults, description)]: the registry is threaded
    through; the description plays no part. *)
Definition registerColor (id : string) (defaults : option ColorDefaults)
    (schemes : Schemes) : ColorIdentifier * Schemes :=
  match defaults with
  | None => (id, schemes)
  | Some defaults =>
      (id, foldl (registerKey id defaults) schemes [Light; Dark; HcDark; HcLight])
  end.

(** ** base.ts: the resolver *)

(** The [theme] argument of the resolver (typed [any]): its own
    properties, read by [theme[id]], and its method [defines] when it has
    one.  A plain object has none: whatever its property [defines] holds
    (nothing, or a colour value), it is not a function.  The object
    inherits from [Object.prototype], as an object literal does. *)
Record Theme := mkTheme {
  entries : gmap string ColorValue;
  defines : option (ColorIdentifier -> bool)
}.

(** What [resolveColorValue] may be handed: a colour value, [null], and
    what [theme[id]] yields when [id] is no own property of the theme:
    [undefined], the object [Object.prototype] (for [__proto__]) or one of
    the functions [Object.prototype] holds. *)
Inductive Arg :=
| null
| undefined
| value (v : ColorValue)
| objectPrototype
| inheritedFunction.

(** The properties of [Object.prototype] that hold a function. *)
Definition prototypeFunctions : list string :=
  ["constructor"; "__defineGetter__"; "__defineSetter__"; "hasOwnProperty";
   "__lookupGetter__"; "__lookupSetter__"; "isPrototypeOf";
   "propertyIsEnumerable"; "toString"; "valueOf"; "toLocaleString"].

(** [theme[colorValue]]: an own property first, then the properties
    inherited from [Object.prototype]; [__proto__] is the accessor that
    returns the prototype itself. *)
Definition themeGet (theme : Theme) (id : string) : Arg :=
  match entries theme !! id with
  | Some v => value v
  | None =>
      if String.eqb id "__proto__" then objectPrototype
      else if existsb (String.eqb id) prototypeFunctions then inheritedFunction
      else undefined
  end.

Inductive Exception :=
| TypeError                 (* theme.defines is not a function *)
| Error (message : string). (* throw new Error(message) *)

(** The objects [executeTransform] is called with: a colour transform,
    or [Object.prototype], which has no property [op]. *)
Inductive TransformObject :=
| Transform (t : ColorTransform)
| ObjectPrototype.

Coercion Transform : ColorTransform >-> TransformObject.

Inductive Outcome :=
| Ret (color : option string)
| Throw (e : Exception).

(** [colorValue[0] === "#"] *)
Definition startsWithHash (s : string) : bool :=
  match s with
  | String "#"%char _ => true
  | _ => false
  end.

(** The truthiness of a resolved colour: [undefined] and the empty string
    are falsy. *)
Definition truthy (color : option string) : option string :=
  match color with
  | Some (String c s) => Some (String c s)
  | _ => None
  end.

(** [const color = <call>; if (!color) return undefined; return k color] *)
Definition withColor (call : option Outcome) (k : string -> option Outcome)
    : option Outcome :=
  match call with
  | None => None
  | Some (Throw e) => Some (Throw e)
  | Some (Ret color) =>
      match truthy color with
      | Some c => k c
      | None => Some (Ret None)
      end
  end.

(** The loop of the [OneOf] case. *)
Fixpoint oneOfLoop (resolve : ColorValue -> option Outcome)
    (values : list ColorValue) : option Outcome :=
  match values with
  | [] => Some (Ret None)
  | candidate :: rest =>
      match resolve candidate with
      | None => None
      | Some (Throw e) => Some (Throw e)
      | Some (Ret color) =>
          match truthy color with
          | Some c => Some (Ret (Some c))
          | None => oneOfLoop resolve rest
          end
      end
  end.

Section Resolver.

Variable Math_pow : Q -> Q -> Q.

Local Abbreviation getLuminance := (TinyColor.getLuminance Math_pow).

(** [Color.fromHex(color).transparent(factor)] *)
Definition Color_fromHex_transparent (color : string) (factor : Q) : string :=
  TinyColor.toHexString (TinyColor.setAlpha (TinyColor.tinycolor2 color) factor).

(** [factor ? factor : 0.5] *)
Definition defaultFactor (factor : Q) : Q :=
  if Qeq_bool factor 0 then 1 # 2 else factor.

(** [Color.getLighterColor(of, relative, factor)] *)
Definition getLighterColor (of_ relative : TinyColor.Instance) (factor : Q)
    : TinyColor.Instance :=
  if Js.ltb (getLuminance relative) (getLuminance of_) then of_
  else
    let factor := defaultFactor factor in
    let lum1 := getLuminance of_ in
    let lum2 := getLuminance relative in
    TinyColor.lighten of_ (Js.div (factor * (lum2 - lum1)) lum2).

(** [Color.getDarkerColor(of, relative, factor)] *)
Definition getDarkerColor (of_ relative : TinyColor.Instance) (factor : Q)
    : TinyColor.Instance :=
  if Js.ltb (getLuminance of_) (getLuminance relative) then of_
  else
    let factor := defaultFactor factor in
    let lum1 := getLuminance of_ in
    let lum2 := getLuminance relative in
    TinyColor.darken of_ (Js.div (factor * (lum1 - lum2)) lum1).

(** [resolveColorValue] and [executeTransform].  Each call takes one
    unit of [fuel].  A function is neither [null], a string nor an
    object: [resolveColorValue] returns [undefined] for it.  The
    [default] case of the [switch] is reached with an object that is no
    colour transform. *)
Fixpoint resolveColorValue (fuel : nat) (colorValue : Arg) (theme : Theme)
    {struct fuel} : option Outcome :=
  match fuel with
  | O => None
  | S fuel =>
      match colorValue with
      | null => Some (Ret None)
      | value (CString s) =>
          if startsWithHash s then Some (Ret (Some s))
          else resolveColorValue fuel (themeGet theme s) theme
      | value (CTransform t) => executeTransform fuel (Transform t) theme
      | objectPrototype => executeTransform fuel ObjectPrototype theme
      | undefined => Some (Ret None)
      | inheritedFunction => Some (Ret None)
      end
  end
with executeTransform (fuel : nat) (transform : TransformObject) (theme : Theme)
    {struct fuel} : option Outcome :=
  match fuel with
  | O => None
  | S fuel =>
      match transform with
      | Transform (Darken v factor) =>
          withColor (resolveColorValue fuel (value v) theme) (fun color =>
            Some (Ret (Some (TinyColor.toHexString
              (TinyColor.darken (TinyColor.tinycolor2 color) (Js.Fin factor))))))
      | Transform (Lighten v factor) =>
          withColor (resolveColorValue fuel (value v) theme) (fun color =>
            Some (Ret (Some (TinyColor.toHexString
              (TinyColor.lighten (TinyColor.tinycolor2 color) (Js.Fin factor))))))
      | Transform (Transparent v factor) =>
          withColor (resolveColorValue fuel (value v) theme) (fun color =>
            Some (Ret (Some (TinyColor.toHexString
              (TinyColor.setAlpha (TinyColor.tinycolor2 color) factor)))))
      | Transform (OneOf values) =>
          oneOfLoop (fun candidate => resolveColorValue fuel (value candidate) theme)
            values
      | Transform (IfDefinedThenElse if_ then_ else_) =>
          match defines theme with
          | None => Some (Throw TypeError)
          | Some theme_defines =>
              resolveColorValue fuel
                (value (if theme_defines if_ then then_ else else_)) theme
          end
      | Transform (LessProminent v background factor transparency) =>
          withColor (resolveColorValue fuel (value v) theme) (fun from =>
            match resolveColorValue fuel (value background) theme with
            | None => None
            | Some (Throw e) => Some (Throw e)
            | Some (Ret backgroundColor) =>
                match truthy backgroundColor with
                | None =>
                    Some (Ret (Some (TinyColor.toHexString
                      (TinyColor.setAlpha (TinyColor.tinycolor2 from)
                         (factor * transparency)))))
                | Some backgroundColor =>
                    let tFrom := TinyColor.tinycolor2 from in
                    let tBg := TinyColor.tinycolor2 backgroundColor in
                    if Js.ltb (getLuminance tFrom) (getLuminance tBg)
                    then Some (Ret (Some (TinyColor.toHexString
                           (TinyColor.setAlpha (getLighterColor tFrom tBg factor)
                              transparency))))
                    else Some (Ret (Some (TinyColor.toHexString
                           (TinyColor.setAlpha (getDarkerColor tFrom tBg factor)
                              transparency))))
                end
            end)
      | ObjectPrototype => Some (Throw (Error "Invalid transform"))
      end
  end.

End Resolver.

(** ** types.ts: [VSCodeTheme] *)

Inductive Scope :=
| ScopeString (s : string)
| ScopeArray (l : list string).

Inductive FontStyle := Bold | Italic | Underline.

Record Settings := mkSettings {
  foreground : option string;
  bold : bool;
  italic : bool;
  underline : bool;
  fontStyle : option FontStyle
}.

Record TokenColor := mkTokenColor {
  scope : Scope;
  settings : Settings
}.

(** A theme as parsed from its JSON file: [type] and [include] may be
    missing. *)
Record VSCodeTheme := mkVSCodeTheme {
  type_ : option Variant;
  name : string;
  colors : gmap string string;
  include : option string;
  tokenColors : list TokenColor
}.

(** [{ ...a, ...b }]: the own properties of [a], then those of [b], a
    later one replacing an earlier one of the same name. *)
Definition spread {A} (a b : gmap string A) : gmap string A := b ∪ a.

(** ** providers/docgen.ts and providers/kate.ts: the theme overlay *)

(** [schemes[theme.type || "light"]] *)
Definition baseTheme (schemes : Schemes) (theme : VSCodeTheme)
    : gmap string ColorValue :=
  getKey (default Light (type_ theme)) schemes.

(** [const themeColors = { ...baseTheme, ...theme.colors }] *)
Definition themeColors (schemes : Schemes) (theme : VSCodeTheme)
    : gmap string ColorValue :=
  spread (baseTheme schemes theme) (CString <$> colors theme).

(** The object both converters hand to the resolver: a plain object. *)
Definition plainObject (props : gmap string ColorValue) : Theme :=
  mkTheme props None.

(** [getColor(id)] of [docgen.ts]. *)
Definition getColor (Math_pow : Q -> Q -> Q) (fuel : nat) (schemes : Schemes)
    (theme : VSCodeTheme) (id : string) : option Outcome :=
  resolveColorValue Math_pow fuel (value (CString id))
    (plainObject (themeColors schemes theme)).

(** ** theme-finder.ts: the include merge of [downloadTheme] *)

(** The two assignments made when [vscodeTheme.include] is set. *)
Definition mergeIncluded (vscodeTheme includedTheme : VSCodeTheme) : VSCodeTheme :=
  mkVSCodeTheme (type_ vscodeTheme) (name vscodeTheme)
    (spread (colors includedTheme) (colors vscodeTheme))
    (include vscodeTheme)
    (tokenColors vscodeTheme ++ tokenColors includedTheme).

(** One round of the loop over [contributes.themes], after the theme file
    is parsed: the type falls back on the manifest's [uiTheme], then the
    included theme, read from the package by [readTheme], is merged in.
    An empty [include] string is falsy. *)
Definition collectTheme (readTheme : string -> VSCodeTheme) (uiTheme : string)
    (vscodeTheme : VSCodeTheme) : VSCodeTheme :=
  let vscodeTheme :=
    match type_ vscodeTheme, uiTheme with
    | None, String _ _ =>
        mkVSCodeTheme
          (Some (if String.eqb uiTheme "vs-dark" then Dark else Light))
          (name vscodeTheme) (colors vscodeTheme) (include vscodeTheme)
          (tokenColors vscodeTheme)
    | _, _ => vscodeTheme
    end in
  match include vscodeTheme with
  | Some (String c path) => mergeIncluded vscodeTheme (readTheme (String c path))
  | _ => vscodeTheme
  end.

(** ** base.ts: [rgba] *)

(** [rgba(r, g, b, a)]: [tinycolor2] reads the four numbers back from
    the string [rgba (r, g, b, a)] (decimal numerals), scales the
    channels as for any RGB input and bounds the alpha; the colour is
    printed by [toHexString]. *)
Definition rgba (r g b a : Q) : string :=
  TinyColor.toHexString (TinyColor.construct true (TinyColor.rgbToRgb r g b) a).

(** ** providers/docgen.ts: selectors *)

Definition isDigit (c : ascii) : bool :=
  let n := nat_of_ascii c in (48 <=? n)%nat && (n <=? 57)%nat.

Definition startsWithDigit (s : string) : bool :=
  match s with
  | String d _ => isDigit d
  | EmptyString => false
  end.

(** [scope.replace(/\.(\d+)/g, "_$1")]: every dot directly followed by
    a digit becomes an underscore, the digits stay. *)
Fixpoint replaceDotDigits (scope : string) : string :=
  match scope with
  | EmptyString => EmptyString
  | String c rest =>
      String (if Ascii.eqb c "." && startsWithDigit rest then "_"%char else c)
        (replaceDotDigits rest)
  end.

(** A dot directly followed by a digit occurs in the string. *)
Fixpoint hasDotDigit (s : string) : bool :=
  match s with
  | EmptyString => false
  | String c rest => (Ascii.eqb c "." && startsWithDigit rest) || hasDotDigit rest
  end.

(** [theme.type || "light"] as the string it is. *)
Definition typeName (theme : VSCodeTheme) : string :=
  match default Light (type_ theme) with
  | Light => "light"
  | Dark => "dark"
  | HcDark => "hcDark"
  | HcLight => "hcLight"
  end.

(** [strings.join(sep)] *)
Fixpoint join (sep : string) (strings : list string) : string :=
  match strings with
  | [] => EmptyString
  | [s] => s
  | s :: rest => s +:+ sep +:+ join sep rest
  end.

(** The selector of one token rule in [codeblockCss]. *)
Definition selectorOf (theme : VSCodeTheme) (color : TokenColor) : string :=
  let scopes :=
    match scope color with
    | ScopeString s => [s]
    | ScopeArray l => l
    end in
  join ","
    (map (fun scope => "html." +:+ typeName theme +:+ " pre ." +:+ replaceDotDigits scope)
       scopes).


(** ** base.ts: the transform constructors *)

Definition darken (colorValue : ColorValue) (factor : Q) : ColorTransform :=
  Darken colorValue factor.

Definition lighten (colorValue : ColorValue) (factor : Q) : ColorTransform :=
  Lighten colorValue factor.

Definition transparent (colorValue : ColorValue) (factor : Q) : ColorTransform :=
  Transparent colorValue factor.

(** [oneOf(...colorValues)] *)
Definition oneOf (colorValues : list ColorValue) : ColorTransform :=
  OneOf colorValues.

Definition ifDefinedThenElse (ifArg : ColorIdentifier) (thenArg elseArg : ColorValue)
    : ColorTransform :=
  IfDefinedThenElse ifArg thenArg elseArg.

Definition lessProminent (colorValue backgroundColorValue : ColorValue)
    (factor transparency : Q) : ColorTransform :=
  LessProminent colorValue backgroundColorValue factor transparency.

(** ** base.ts: the registry

    The 429 calls of [registerColor] that [base.ts] makes when it is
    loaded, in source order, each with its identifier and its defaults
    (the description is left out).  A constant bound to a call stands for
    the identifier the call returns; the other constants ([errorDefault],
    [currentBaseColor], [headerTransparency], ...) stand for their
    values.  A default computed by [tinycolor2] when the file is loaded is
    written as the computation: [Color.fromHex(c).transparent(f)] as
    [Color_fromHex_transparent c f], and
    [tinycolor2("rgba (r, g, b, a)").toHexString()] as [rgba r g b a]
    (alpha 1 for the [rgb (r, g, b)] notation).  The string
    ["rgba (111, 195, 223)"], with three numbers, matches none of the
    notations of [tinycolor2] and is handed to the model as it is. *)

Module Registry.

Definition registrations : list (string * option ColorDefaults) := [
  ("foreground",
   Some {|
     dark := Some (CString "#CCCCCC");
     light := Some (CString "#616161");
     hcDark := Some (CString "#FFFFFF");
     hcLight := Some (CString "#292929") |});
  ("disabledForeground",
   Some {|
     dark := Some (CString "#CCCCCC80");
     light := Some (CString "#61616180");
     hcDark := Some (CString "#A5A5A5");
     hcLight := Some (CString "#7F7F7F") |});
  ("errorForeground",
   Some {|
     dark := Some (CString "#F48771");
     light := Some (CString "#A1260D");
     hcDark := Some (CString "#F48771");
     hcLight := Some (CString "#B5200D") |});
  ("descriptionForeground",
   Some {|
     light := Some (CString "#717171");
     dark := Some (CTransform (transparent (CString "foreground") (7 # 10)));
     hcDark := Some (CTransform (transparent (CString "foreground")
         (7 # 10)));
     hcLight := Some (CTransform (transparent (CString "foreground")
         (7 # 10))) |});
  ("icon.foreground",
   Some {|
     dark := Some (CString "#C5C5C5");
     light := Some (CString "#424242");
     hcDark := Some (CString "#FFFFFF");
     hcLight := Some (CString "#292929") |});
  ("focusBorder",
   Some {|
     dark := Some (CString "#007FD4");
     light := Some (CString "#0090F1");
     hcDark := Some (CString "#F38518");
     hcLight := Some (CString "#0F4A85") |});
  ("contrastBorder",
   Some {|
     light := None;
     dark := None;
     hcDark := Some (CString "#6FC3DF");
     hcLight := Some (CString "#0F4A85") |});
  ("contrastActiveBorder",
   Some {|
     light := None;
     dark := None;
     hcDark := Some (CString "focusBorder");
     hcLight := Some (CString "focusBorder") |});
  ("selection.background",
   Some {|
     light := None;
     dark := None;
     hcDark := None;
     hcLight := None |});
  ("/*text*/Separator.foreground",
   Some {|
     light := Some (CString "#0000002e");
     dark := Some (CString "#ffffff2e");
     hcDark := Some (CString "#000000");
     hcLight := Some (CString "#292929") |});
  ("textLink.foreground",
   Some {|
     light := Some (CString "#006AB1");
     dark := Some (CString "#3794FF");
     hcDark := Some (CString "#3794FF");
     hcLight := Some (CString "#0F4A85") |});
  ("textLink.activeForeground",
   Some {|
     light := Some (CString "#006AB1");
     dark := Some (CString "#3794FF");
     hcDark := Some (CString "#3794FF");
     hcLight := Some (CString "#0F4A85") |});
  ("textPreformat.foreground",
   Some {|
     light := Some (CString "#A31515");
     dark := Some (CString "#D7BA7D");
     hcDark := Some (CString "#D7BA7D");
     hcLight := Some (CString "#292929") |});
  ("textBlockQuote.background",
   Some {|
     light := Some (CString "#7f7f7f1a");
     dark := Some (CString "#7f7f7f1a");
     hcDark := None;
     hcLight := Some (CString "#F2F2F2") |});
  ("textBlockQuote.border",
   Some {|
     light := Some (CString "#007acc80");
     dark := Some (CString "#007acc80");
     hcDark := Some (CString "#ffffff");
     hcLight := Some (CString "#292929") |});
  ("textCodeBlock.background",
   Some {|
     light := Some (CString "#dcdcdc66");
     dark := Some (CString "#0a0a0a66");
     hcDark := Some (CString "#000000");
     hcLight := Some (CString "#F2F2F2") |});
  ("widget.shadow",
   Some {|
     dark := Some (CTransform (transparent (CString "#000000") (36 # 100)));
     light := Some (CTransform (transparent (CString "#000000") (16 # 100)));
     hcDark := None;
     hcLight := None |});
  ("widget.border",
   Some {|
     dark := None;
     light := None;
     hcDark := Some (CString "contrastBorder");
     hcLight := Some (CString "contrastBorder") |});
  ("input.background",
   Some {|
     dark := Some (CString "#3C3C3C");
     light := Some (CString "#ffffff");
     hcDark := Some (CString "#000000");
     hcLight := Some (CString "#ffffff") |});
  ("input.foreground",
   Some {|
     dark := Some (CString "foreground");
     light := Some (CString "foreground");
     hcDark := Some (CString "foreground");
     hcLight := Some (CString "foreground") |});
  ("input.border",
   Some {|
     dark := None;
     light := None;
     hcDark := Some (CString "contrastBorder");
     hcLight := Some (CString "contrastBorder") |});
  ("inputOption.activeBorder",
   Some {|
     dark := Some (CString "#007ACC00");
     light := Some (CString "#007ACC00");
     hcDark := Some (CString "contrastBorder");
     hcLight := Some (CString "contrastBorder") |});
  ("inputOption.hoverBackground",
   Some {|
     dark := Some (CString "#5a5d5e80");
     light := Some (CString "#b8b8b850");
     hcDark := None;
     hcLight := None |});
  ("inputOption.activeBackground",
   Some {|
     dark := Some (CTransform (transparent (CString "focusBorder") (4 # 10)));
     light := Some (CTransform (transparent (CString "focusBorder")
         (2 # 10)));
     hcDark := Some (CString "#00000000");
     hcLight := Some (CString "#00000000") |});
  ("inputOption.activeForeground",
   Some {|
     dark := Some (CString "#ffffff");
     light := Some (CString "#000000");
     hcDark := Some (CString "foreground");
     hcLight := Some (CString "foreground") |});
  ("input.placeholderForeground",
   Some {|
     light := Some (CTransform (transparent (CString "foreground") (5 # 10)));
     dark := Some (CTransform (transparent (CString "foreground") (5 # 10)));
     hcDark := Some (CTransform (transparent (CString "foreground")
         (7 # 10)));
     hcLight := Some (CTransform (transparent (CString "foreground")
         (7 # 10))) |});
  ("inputValidation.infoBackground",
   Some {|
     dark := Some (CString "#063B49");
     light := Some (CString "#D6ECF2");
     hcDark := Some (CString "#000000");
     hcLight := Some (CString "#ffffff") |});
  ("inputValidation.infoForeground",
   Some {|
     dark := None;
     light := None;
     hcDark := None;
     hcLight := Some (CString "foreground") |});
  ("inputValidation.infoBorder",
   Some {|
     dark := Some (CString "#007acc");
     light := Some (CString "#007acc");
     hcDark := Some (CString "contrastBorder");
     hcLight := Some (CString "contrastBorder") |});
  ("inputValidation.warningBackground",
   Some {|
     dark := Some (CString "#352A05");
     light := Some (CString "#F6F5D2");
     hcDark := Some (CString "#000000");
     hcLight := Some (CString "#ffffff") |});
  ("inputValidation.warningForeground",
   Some {|
     dark := None;
     light := None;
     hcDark := None;
     hcLight := Some (CString "foreground") |});
  ("inputValidation.warningBorder",
   Some {|
     dark := Some (CString "#B89500");
     light := Some (CString "#B89500");
     hcDark := Some (CString "contrastBorder");
     hcLight := Some (CString "contrastBorder") |});
  ("inputValidation.errorBackground",
   Some {|
     dark := Some (CString "#5A1D1D");
     light := Some (CString "#F2DEDE");
     hcDark := Some (CString "#000000");
     hcLight := Some (CString "#ffffff") |});
  ("inputValidation.errorForeground",
   Some {|
     dark := None;
     light := None;
     hcDark := None;
     hcLight := Some (CString "foreground") |});
  ("inputValidation.errorBorder",
   Some {|
     dark := Some (CString "#BE1100");
     light := Some (CString "#BE1100");
     hcDark := Some (CString "contrastBorder");
     hcLight := Some (CString "contrastBorder") |});
  ("dropdown.background",
   Some {|
     dark := Some (CString "#3C3C3C");
     light := Some (CString "#ffffff");
     hcDark := Some (CString "#000000");
     hcLight := Some (CString "#ffffff") |});
  ("dropdown.listBackground",
   Some {|
     dark := None;
     light := None;
     hcDark := Some (CString "#000000");
     hcLight := Some (CString "#ffffff") |});
  ("dropdown.foreground",
   Some {|
     dark := Some (CString "#F0F0F0");
     light := None;
     hcDark := Some (CString "#ffffff");
     hcLight := Some (CString "foreground") |});
  ("dropdown.border",
   Some {|
     dark := Some (CString "dropdown.background");
     light := Some (CString "#CECECE");
     hcDark := Some (CString "contrastBorder");
     hcLight := Some (CString "contrastBorder") |});
  ("button.foreground",
   Some {|
     dark := Some (CString "#ffffff");
     light := Some (CString "#ffffff");
     hcDark := Some (CString "#ffffff");
     hcLight := Some (CString "#ffffff") |});
  ("button.separator",
   Some {|
     dark := Some (CTransform (transparent (CString "button.foreground")
         (4 # 10)));
     light := Some (CTransform (transparent (CString "button.foreground")
         (4 # 10)));
     hcDark := Some (CTransform (transparent (CString "button.foreground")
         (4 # 10)));
     hcLight := Some (CTransform (transparent (CString "button.foreground")
         (4 # 10))) |});
  ("button.background",
   Some {|
     dark := Some (CString "#0E639C");
     light := Some (CString "#007ACC");
     hcDark := None;
     hcLight := Some (CString "#0F4A85") |});
  ("button.hoverBackground",
   Some {|
     dark := Some (CTransform (lighten (CString "button.background")
         (2 # 10)));
     light := Some (CTransform (darken (CString "button.background")
         (2 # 10)));
     hcDark := Some (CString "button.background");
     hcLight := Some (CString "button.background") |});
  ("button.border",
   Some {|
     dark := Some (CString "contrastBorder");
     light := Some (CString "contrastBorder");
     hcDark := Some (CString "contrastBorder");
     hcLight := Some (CString "contrastBorder") |});
  ("button.secondaryForeground",
   Some {|
     dark := Some (CString "#ffffff");
     light := Some (CString "#ffffff");
     hcDark := Some (CString "#ffffff");
     hcLight := Some (CString "foreground") |});
  ("button.secondaryBackground",
   Some {|
     dark := Some (CString "#3A3D41");
     light := Some (CString "#5F6A79");
     hcDark := None;
     hcLight := Some (CString "#ffffff") |});
  ("button.secondaryHoverBackground",
   Some {|
     dark := Some (CTransform (lighten (CString "button.secondaryBackground")
         (2 # 10)));
     light := Some (CTransform (darken (CString "button.secondaryBackground")
         (2 # 10)));
     hcDark := None;
     hcLight := None |});
  ("badge.background",
   Some {|
     dark := Some (CString "#4D4D4D");
     light := Some (CString "#C4C4C4");
     hcDark := Some (CString "#000000");
     hcLight := Some (CString "#0F4A85") |});
  ("badge.foreground",
   Some {|
     dark := Some (CString "#ffffff");
     light := Some (CString "#333");
     hcDark := Some (CString "#ffffff");
     hcLight := Some (CString "#ffffff") |});
  ("scrollbar.shadow",
   Some {|
     dark := Some (CString "#000000");
     light := Some (CString "#DDDDDD");
     hcDark := None;
     hcLight := None |});
  ("scrollbarSlider.background",
   Some {|
     dark := Some (CString (Color_fromHex_transparent "#797979" (4 # 10)));
     light := Some (CString (Color_fromHex_transparent "#646464" (4 # 10)));
     hcDark := Some (CTransform (transparent (CString "contrastBorder")
         (6 # 10)));
     hcLight := Some (CTransform (transparent (CString "contrastBorder")
         (4 # 10))) |});
  ("scrollbarSlider.hoverBackground",
   Some {|
     dark := Some (CString (Color_fromHex_transparent "#646464" (7 # 10)));
     light := Some (CString (Color_fromHex_transparent "#646464" (7 # 10)));
     hcDark := Some (CTransform (transparent (CString "contrastBorder")
         (8 # 10)));
     hcLight := Some (CTransform (transparent (CString "contrastBorder")
         (8 # 10))) |});
  ("scrollbarSlider.activeBackground",
   Some {|
     dark := Some (CString (Color_fromHex_transparent "#BFBFBF" (4 # 10)));
     light := Some (CString (Color_fromHex_transparent "#000000" (6 # 10)));
     hcDark := Some (CString "contrastBorder");
     hcLight := Some (CString "contrastBorder") |});
  ("progressBar.background",
   Some {|
     dark := Some (CString "#0E70C0");
     light := Some (CString "#0E70C0");
     hcDark := Some (CString "contrastBorder");
     hcLight := Some (CString "contrastBorder") |});
  ("editorError.background",
   Some {|
     dark := None;
     light := None;
     hcDark := None;
     hcLight := None |});
  ("editorError.foreground",
   Some {|
     dark := Some (CString "#F14C4C");
     light := Some (CString "#E51400");
     hcDark := Some (CString "#F48771");
     hcLight := Some (CString "#B5200D") |});
  ("editorError.border",
   Some {|
     dark := None;
     light := None;
     hcDark := Some (CString (Color_fromHex_transparent "#E47777" (8 # 10)));
     hcLight := Some (CString "#B5200D") |});
  ("editorWarning.background",
   Some {|
     dark := None;
     light := None;
     hcDark := None;
     hcLight := None |});
  ("editorWarning.foreground",
   Some {|
     dark := Some (CString "#CCA700");
     light := Some (CString "#BF8803");
     hcDark := Some (CString "#FFD37");
     hcLight := Some (CString "#895503") |});
  ("editorWarning.border",
   Some {|
     dark := None;
     light := None;
     hcDark := Some (CString (Color_fromHex_transparent "#FFCC00" (8 # 10)));
     hcLight := Some (CString "#") |});
  ("editorInfo.background",
   Some {|
     dark := None;
     light := None;
     hcDark := None;
     hcLight := None |});
  ("editorInfo.foreground",
   Some {|
     dark := Some (CString "#3794FF");
     light := Some (CString "#1a85ff");
     hcDark := Some (CString "#3794FF");
     hcLight := Some (CString "#1a85ff") |});
  ("editorInfo.border",
   Some {|
     dark := None;
     light := None;
     hcDark := Some (CString (Color_fromHex_transparent "#3794FF" (8 # 10)));
     hcLight := Some (CString "#292929") |});
  ("editorHint.foreground",
   Some {|
     dark := Some (CString (Color_fromHex_transparent "#eeeeee" (7 # 10)));
     light := Some (CString "#6c6c6c");
     hcDark := None;
     hcLight := None |});
  ("editorHint.border",
   Some {|
     dark := None;
     light := None;
     hcDark := Some (CString (Color_fromHex_transparent "#eeeeee" (8 # 10)));
     hcLight := Some (CString "#292929") |});
  ("sash.hoverBorder",
   Some {|
     dark := Some (CString "focusBorder");
     light := Some (CString "focusBorder");
     hcDark := Some (CString "focusBorder");
     hcLight := Some (CString "focusBorder") |});
  ("editor.background",
   Some {|
     light := Some (CString "#ffffff");
     dark := Some (CString "#1E1E1E");
     hcDark := Some (CString "#000000");
     hcLight := Some (CString "#ffffff") |});
  ("editor.foreground",
   Some {|
     light := Some (CString "#333333");
     dark := Some (CString "#BBBBBB");
     hcDark := Some (CString "#ffffff");
     hcLight := Some (CString "foreground") |});
  ("editorStickyScroll.background",
   Some {|
     light := Some (CString "editor.background");
     dark := Some (CString "editor.background");
     hcDark := Some (CString "editor.background");
     hcLight := Some (CString "editor.background") |});
  ("editorStickyScrollHover.background",
   Some {|
     dark := Some (CString "#2A2D2E");
     light := Some (CString "#F0F0F0");
     hcDark := None;
     hcLight := Some (CString (Color_fromHex_transparent "#0F4A85" (1 # 10)))
         |});
  ("editorWidget.background",
   Some {|
     dark := Some (CString "#252526");
     light := Some (CString "#F3F3F3");
     hcDark := Some (CString "#0C141F");
     hcLight := Some (CString "#ffffff") |});
  ("editorWidget.foreground",
   Some {|
     dark := Some (CString "foreground");
     light := Some (CString "foreground");
     hcDark := Some (CString "foreground");
     hcLight := Some (CString "foreground") |});
  ("editorWidget.border",
   Some {|
     dark := Some (CString "#454545");
     light := Some (CString "#C8C8C8");
     hcDark := Some (CString "contrastBorder");
     hcLight := Some (CString "contrastBorder") |});
  ("editorWidget.resizeBorder",
   Some {|
     light := None;
     dark := None;
     hcDark := None;
     hcLight := None |});
  ("quickInput.background",
   Some {|
     dark := Some (CString "editorWidget.background");
     light := Some (CString "editorWidget.background");
     hcDark := Some (CString "editorWidget.background");
     hcLight := Some (CString "editorWidget.background") |});
  ("quickInput.foreground",
   Some {|
     dark := Some (CString "editorWidget.foreground");
     light := Some (CString "editorWidget.foreground");
     hcDark := Some (CString "editorWidget.foreground");
     hcLight := Some (CString "editorWidget.foreground") |});
  ("quickInputTitle.background",
   Some {|
     dark := Some (CString (rgba 255 255 255 (105 # 1000)));
     light := Some (CString (rgba 0 0 0 (6 # 100)));
     hcDark := Some (CString "#000000");
     hcLight := Some (CString "#ffffff") |});
  ("pickerGroup.foreground",
   Some {|
     dark := Some (CString "#3794FF");
     light := Some (CString "#0066BF");
     hcDark := Some (CString "#ffffff");
     hcLight := Some (CString "#0F4A85") |});
  ("pickerGroup.border",
   Some {|
     dark := Some (CString "#3F3F46");
     light := Some (CString "#CCCEDB");
     hcDark := Some (CString "#ffffff");
     hcLight := Some (CString "#0F4A85") |});
  ("keybindingLabel.background",
   Some {|
     dark := Some (CString (rgba 128 128 128 (17 # 100)));
     light := Some (CString (rgba 221 221 221 (4 # 10)));
     hcDark := Some (CString "#00000000");
     hcLight := Some (CString "#00000000") |});
  ("keybindingLabel.foreground",
   Some {|
     dark := Some (CString "#CCCCCC");
     light := Some (CString "#555555");
     hcDark := Some (CString "#ffffff");
     hcLight := Some (CString "foreground") |});
  ("keybindingLabel.border",
   Some {|
     dark := Some (CString (rgba 51 51 51 (6 # 10)));
     light := Some (CString (rgba 204 204 204 (4 # 10)));
     hcDark := Some (CString (rgba 111 195 223 1));
     hcLight := Some (CString "contrastBorder") |});
  ("keybindingLabel.bottomBorder",
   Some {|
     dark := Some (CString (rgba 68 68 68 (6 # 10)));
     light := Some (CString (rgba 187 187 187 (4 # 10)));
     hcDark := Some (CString (TinyColor.toHexString (TinyColor.tinycolor2
         "rgba (111, 195, 223)")));
     hcLight := Some (CString "foreground") |});
  ("editor.selectionBackground",
   Some {|
     light := Some (CString "#ADD6FF");
     dark := Some (CString "#264F78");
     hcDark := Some (CString "#f3f518");
     hcLight := Some (CString "#0F4A85") |});
  ("editor.selectionForeground",
   Some {|
     light := None;
     dark := None;
     hcDark := Some (CString "#000000");
     hcLight := Some (CString "#ffffff") |});
  ("editor.inactiveSelectionBackground",
   Some {|
     light := Some (CTransform (transparent
         (CString "editor.selectionBackground") (5 # 10)));
     dark := Some (CTransform (transparent
         (CString "editor.selectionBackground") (5 # 10)));
     hcDark := Some (CTransform (transparent
         (CString "editor.selectionBackground") (7 # 10)));
     hcLight := Some (CTransform (transparent
         (CString "editor.selectionBackground") (5 # 10))) |});
  ("editor.selectionHighlightBackground",
   Some {|
     light := Some (CTransform (lessProminent
         (CString "editor.selectionBackground") (CString "editor.background")
         (3 # 10) (6 # 10)));
     dark := Some (CTransform (lessProminent
         (CString "editor.selectionBackground") (CString "editor.background")
         (3 # 10) (6 # 10)));
     hcDark := None;
     hcLight := None |});
  ("editor.selectionHighlightBorder",
   Some {|
     light := None;
     dark := None;
     hcDark := Some (CString "contrastActiveBorder");
     hcLight := Some (CString "contrastActiveBorder") |});
  ("editor.findMatchBackground",
   Some {|
     light := Some (CString "#A8AC94");
     dark := Some (CString "#515C6A");
     hcDark := None;
     hcLight := None |});
  ("editor.findMatchHighlightBackground",
   Some {|
     light := Some (CString "#EA5C0055");
     dark := Some (CString "#EA5C0055");
     hcDark := None;
     hcLight := None |});
  ("editor.findRangeHighlightBackground",
   Some {|
     dark := Some (CString "#3a3d4166");
     light := Some (CString "#b4b4b44d");
     hcDark := None;
     hcLight := None |});
  ("editor.findMatchBorder",
   Some {|
     light := None;
     dark := None;
     hcDark := Some (CString "contrastActiveBorder");
     hcLight := Some (CString "contrastActiveBorder") |});
  ("editor.findMatchHighlightBorder",
   Some {|
     light := None;
     dark := None;
     hcDark := Some (CString "contrastActiveBorder");
     hcLight := Some (CString "contrastActiveBorder") |});
  ("editor.findRangeHighlightBorder",
   Some {|
     dark := None;
     light := None;
     hcDark := Some (CTransform (transparent (CString "contrastActiveBorder")
         (4 # 10)));
     hcLight := Some (CTransform (transparent (CString "contrastActiveBorder")
         (4 # 10))) |});
  ("searchEditor.findMatchBackground",
   Some {|
     light := Some (CTransform (transparent
         (CString "editor.findMatchHighlightBackground") (66 # 100)));
     dark := Some (CTransform (transparent
         (CString "editor.findMatchHighlightBackground") (66 # 100)));
     hcDark := Some (CString "editor.findMatchHighlightBackground");
     hcLight := Some (CString "editor.findMatchHighlightBackground") |});
  ("searchEditor.findMatchBorder",
   Some {|
     light := Some (CTransform (transparent
         (CString "editor.findMatchHighlightBorder") (66 # 100)));
     dark := Some (CTransform (transparent
         (CString "editor.findMatchHighlightBorder") (66 # 100)));
     hcDark := Some (CString "editor.findMatchHighlightBorder");
     hcLight := Some (CString "editor.findMatchHighlightBorder") |});
  ("editor.hoverHighlightBackground",
   Some {|
     light := Some (CString "#ADD6FF26");
     dark := Some (CString "#264f7840");
     hcDark := Some (CString "#ADD6FF26");
     hcLight := None |});
  ("editorHoverWidget.background",
   Some {|
     light := Some (CString "editorWidget.background");
     dark := Some (CString "editorWidget.background");
     hcDark := Some (CString "editorWidget.background");
     hcLight := Some (CString "editorWidget.background") |});
  ("editorHoverWidget.foreground",
   Some {|
     light := Some (CString "editorWidget.foreground");
     dark := Some (CString "editorWidget.foreground");
     hcDark := Some (CString "editorWidget.foreground");
     hcLight := Some (CString "editorWidget.foreground") |});
  ("editorHoverWidget.border",
   Some {|
     light := Some (CString "editorWidget.border");
     dark := Some (CString "editorWidget.border");
     hcDark := Some (CString "editorWidget.border");
     hcLight := Some (CString "editorWidget.border") |});
  ("editorHoverWidget.statusBarBackground",
   Some {|
     dark := Some (CTransform (lighten
         (CString "editorHoverWidget.background") (2 # 10)));
     light := Some (CTransform (darken
         (CString "editorHoverWidget.background") (5 # 100)));
     hcDark := Some (CString "editorWidget.background");
     hcLight := Some (CString "editorWidget.background") |});
  ("editorLink.activeForeground",
   Some {|
     dark := Some (CString "#4E94CE");
     light := Some (CString "#0000ff");
     hcDark := Some (CString "#00ffff");
     hcLight := Some (CString "#292929") |});
  ("editorInlayHint.foreground",
   Some {|
     dark := Some (CString "badge.foreground");
     light := Some (CString "badge.foreground");
     hcDark := Some (CString "#000000");
     hcLight := Some (CString "badge.foreground") |});
  ("editorInlayHint.background",
   Some {|
     dark := Some (CTransform (transparent (CString "badge.background")
         (8 # 10)));
     light := Some (CTransform (transparent (CString "badge.background")
         (6 # 10)));
     hcDark := Some (CString "#f38518");
     hcLight := Some (CString "badge.background") |});
  ("editorInlayHint.typeForeground",
   Some {|
     dark := Some (CString "editorInlayHint.foreground");
     light := Some (CString "editorInlayHint.foreground");
     hcDark := Some (CString "editorInlayHint.foreground");
     hcLight := Some (CString "editorInlayHint.foreground") |});
  ("editorInlayHint.typeBackground",
   Some {|
     dark := Some (CString "editorInlayHint.background");
     light := Some (CString "editorInlayHint.background");
     hcDark := Some (CString "editorInlayHint.background");
     hcLight := Some (CString "editorInlayHint.background") |});
  ("editorInlayHint.parameterForeground",
   Some {|
     dark := Some (CString "editorInlayHint.foreground");
     light := Some (CString "editorInlayHint.foreground");
     hcDark := Some (CString "editorInlayHint.foreground");
     hcLight := Some (CString "editorInlayHint.foreground") |});
  ("editorInlayHint.parameterBackground",
   Some {|
     dark := Some (CString "editorInlayHint.background");
     light := Some (CString "editorInlayHint.background");
     hcDark := Some (CString "editorInlayHint.background");
     hcLight := Some (CString "editorInlayHint.background") |});
  ("editorLightBulb.foreground",
   Some {|
     dark := Some (CString "#FFCC00");
     light := Some (CString "#DDB100");
     hcDark := Some (CString "#FFCC00");
     hcLight := Some (CString "#007ACC") |});
  ("editorLightBulbAutoFix.foreground",
   Some {|
     dark := Some (CString "#75BEFF");
     light := Some (CString "#007ACC");
     hcDark := Some (CString "#75BEFF");
     hcLight := Some (CString "#007ACC") |});
  ("diffEditor.insertedTextBackground",
   Some {|
     dark := Some (CString "#9ccc2c33");
     light := Some (CString "#9ccc2c40");
     hcDark := None;
     hcLight := None |});
  ("diffEditor.removedTextBackground",
   Some {|
     dark := Some (CString "#ff000033");
     light := Some (CString "#ff000033");
     hcDark := None;
     hcLight := None |});
  ("diffEditor.insertedLineBackground",
   Some {|
     dark := Some (CString (rgba 155 185 85 (2 # 10)));
     light := Some (CString (rgba 155 185 85 (2 # 10)));
     hcDark := None;
     hcLight := None |});
  ("diffEditor.removedLineBackground",
   Some {|
     dark := Some (CString (rgba 255 0 0 (2 # 10)));
     light := Some (CString (rgba 255 0 0 (2 # 10)));
     hcDark := None;
     hcLight := None |});
  ("diffEditorGutter.insertedLineBackground",
   Some {|
     dark := None;
     light := None;
     hcDark := None;
     hcLight := None |});
  ("diffEditorGutter.removedLineBackground",
   Some {|
     dark := None;
     light := None;
     hcDark := None;
     hcLight := None |});
  ("diffEditorOverview.insertedForeground",
   Some {|
     dark := None;
     light := None;
     hcDark := None;
     hcLight := None |});
  ("diffEditorOverview.removedForeground",
   Some {|
     dark := None;
     light := None;
     hcDark := None;
     hcLight := None |});
  ("diffEditor.insertedTextBorder",
   Some {|
     dark := None;
     light := None;
     hcDark := Some (CString "#33ff2eff");
     hcLight := Some (CString "#374E06") |});
  ("diffEditor.removedTextBorder",
   Some {|
     dark := None;
     light := None;
     hcDark := Some (CString "#FF008F");
     hcLight := Some (CString "#AD0707") |});
  ("diffEditor.border",
   Some {|
     dark := None;
     light := None;
     hcDark := Some (CString "contrastBorder");
     hcLight := Some (CString "contrastBorder") |});
  ("diffEditor.diagonalFill",
   Some {|
     dark := Some (CString "#cccccc33");
     light := Some (CString "#22222233");
     hcDark := None;
     hcLight := None |});
  ("list.focusBackground",
   Some {|
     dark := None;
     light := None;
     hcDark := None;
     hcLight := None |});
  ("list.focusForeground",
   Some {|
     dark := None;
     light := None;
     hcDark := None;
     hcLight := None |});
  ("list.focusOutline",
   Some {|
     dark := Some (CString "focusBorder");
     light := Some (CString "focusBorder");
     hcDark := Some (CString "contrastActiveBorder");
     hcLight := Some (CString "contrastActiveBorder") |});
  ("list.focusAndSelectionOutline",
   Some {|
     dark := None;
     light := None;
     hcDark := None;
     hcLight := None |});
  ("list.activeSelectionBackground",
   Some {|
     dark := Some (CString "#04395E");
     light := Some (CString "#0060C0");
     hcDark := None;
     hcLight := Some (CString (Color_fromHex_transparent "#0F4A85" (1 # 10)))
         |});
  ("list.activeSelectionForeground",
   Some {|
     dark := Some (CString "#ffffff");
     light := Some (CString "#ffffff");
     hcDark := None;
     hcLight := None |});
  ("list.activeSelectionIconForeground",
   Some {|
     dark := None;
     light := None;
     hcDark := None;
     hcLight := None |});
  ("list.inactiveSelectionBackground",
   Some {|
     dark := Some (CString "#37373D");
     light := Some (CString "#E4E6F1");
     hcDark := None;
     hcLight := Some (CString (Color_fromHex_transparent "#0F4A85" (1 # 10)))
         |});
  ("list.inactiveSelectionForeground",
   Some {|
     dark := None;
     light := None;
     hcDark := None;
     hcLight := None |});
  ("list.inactiveSelectionIconForeground",
   Some {|
     dark := None;
     light := None;
     hcDark := None;
     hcLight := None |});
  ("list.inactiveFocusBackground",
   Some {|
     dark := None;
     light := None;
     hcDark := None;
     hcLight := None |});
  ("list.inactiveFocusOutline",
   Some {|
     dark := None;
     light := None;
     hcDark := None;
     hcLight := None |});
  ("list.hoverBackground",
   Some {|
     dark := Some (CString "#2A2D2E");
     light := Some (CString "#F0F0F0");
     hcDark := None;
     hcLight := Some (CString (Color_fromHex_transparent "#0F4A85" (1 # 10)))
         |});
  ("list.hoverForeground",
   Some {|
     dark := None;
     light := None;
     hcDark := None;
     hcLight := None |});
  ("list.dropBackground",
   Some {|
     dark := Some (CString "#062F4A");
     light := Some (CString "#D6EBFF");
     hcDark := None;
     hcLight := None |});
  ("list.highlightForeground",
   Some {|
     dark := Some (CString "#2AAAFF");
     light := Some (CString "#0066BF");
     hcDark := Some (CString "focusBorder");
     hcLight := Some (CString "focusBorder") |});
  ("list.focusHighlightForeground",
   Some {|
     dark := Some (CString "list.highlightForeground");
     light := Some (CTransform (ifDefinedThenElse
         "list.activeSelectionBackground" (CString "list.highlightForeground")
         (CString "#BBE7FF")));
     hcDark := Some (CString "list.highlightForeground");
     hcLight := Some (CString "list.highlightForeground") |});
  ("list.invalidItemForeground",
   Some {|
     dark := Some (CString "#B89500");
     light := Some (CString "#B89500");
     hcDark := Some (CString "#B89500");
     hcLight := Some (CString "#B5200D") |});
  ("list.errorForeground",
   Some {|
     dark := Some (CString "#F88070");
     light := Some (CString "#B01011");
     hcDark := None;
     hcLight := None |});
  ("list.warningForeground",
   Some {|
     dark := Some (CString "#CCA700");
     light := Some (CString "#855F00");
     hcDark := None;
     hcLight := None |});
  ("listFilterWidget.background",
   Some {|
     light := Some (CTransform (darken (CString "editorWidget.background")
         0));
     dark := Some (CTransform (lighten (CString "editorWidget.background")
         0));
     hcDark := Some (CString "editorWidget.background");
     hcLight := Some (CString "editorWidget.background") |});
  ("listFilterWidget.outline",
   Some {|
     dark := Some (CString "#00000000");
     light := Some (CString "#00000000");
     hcDark := Some (CString "#f38518");
     hcLight := Some (CString "#007ACC") |});
  ("listFilterWidget.noMatchesOutline",
   Some {|
     dark := Some (CString "#BE1100");
     light := Some (CString "#BE1100");
     hcDark := Some (CString "contrastBorder");
     hcLight := Some (CString "contrastBorder") |});
  ("listFilterWidget.shadow",
   Some {|
     dark := Some (CString "widget.shadow");
     light := Some (CString "widget.shadow");
     hcDark := Some (CString "widget.shadow");
     hcLight := Some (CString "widget.shadow") |});
  ("list.filterMatchBackground",
   Some {|
     dark := Some (CString "editor.findMatchHighlightBackground");
     light := Some (CString "editor.findMatchHighlightBackground");
     hcDark := None;
     hcLight := None |});
  ("list.filterMatchBorder",
   Some {|
     dark := Some (CString "editor.findMatchHighlightBorder");
     light := Some (CString "editor.findMatchHighlightBorder");
     hcDark := Some (CString "contrastBorder");
     hcLight := Some (CString "contrastActiveBorder") |});
  ("tree.indentGuidesStroke",
   Some {|
     dark := Some (CString "#585858");
     light := Some (CString "#a9a9a9");
     hcDark := Some (CString "#a9a9a9");
     hcLight := Some (CString "#a5a5a5") |});
  ("tree.tableColumnsBorder",
   Some {|
     dark := Some (CString "#CCCCCC20");
     light := Some (CString "#61616120");
     hcDark := None;
     hcLight := None |});
  ("tree.tableOddRowsBackground",
   Some {|
     dark := Some (CTransform (transparent (CString "foreground") (4 # 100)));
     light := Some (CTransform (transparent (CString "foreground")
         (4 # 100)));
     hcDark := None;
     hcLight := None |});
  ("list.deemphasizedForeground",
   Some {|
     dark := Some (CString "#8C8C8C");
     light := Some (CString "#8E8E90");
     hcDark := Some (CString "#A7A8A9");
     hcLight := Some (CString "#666666") |});
  ("checkbox.background",
   Some {|
     dark := Some (CString "dropdown.background");
     light := Some (CString "dropdown.background");
     hcDark := Some (CString "dropdown.background");
     hcLight := Some (CString "dropdown.background") |});
  ("checkbox.selectBackground",
   Some {|
     dark := Some (CString "editorWidget.background");
     light := Some (CString "editorWidget.background");
     hcDark := Some (CString "editorWidget.background");
     hcLight := Some (CString "editorWidget.background") |});
  ("checkbox.foreground",
   Some {|
     dark := Some (CString "dropdown.foreground");
     light := Some (CString "dropdown.foreground");
     hcDark := Some (CString "dropdown.foreground");
     hcLight := Some (CString "dropdown.foreground") |});
  ("checkbox.border",
   Some {|
     dark := Some (CString "dropdown.border");
     light := Some (CString "dropdown.border");
     hcDark := Some (CString "dropdown.border");
     hcLight := Some (CString "dropdown.border") |});
  ("checkbox.selectBorder",
   Some {|
     dark := Some (CString "editorWidget.background");
     light := Some (CString "editorWidget.background");
     hcDark := Some (CString "editorWidget.background");
     hcLight := Some (CString "editorWidget.background") |});
  ("quickInput.list.focusBackground",
   Some {|
     dark := None;
     light := None;
     hcDark := None;
     hcLight := None |});
  ("quickInputList.focusForeground",
   Some {|
     dark := Some (CString "list.activeSelectionForeground");
     light := Some (CString "list.activeSelectionForeground");
     hcDark := Some (CString "list.activeSelectionForeground");
     hcLight := Some (CString "list.activeSelectionForeground") |});
  ("quickInputList.focusIconForeground",
   Some {|
     dark := Some (CString "list.activeSelectionIconForeground");
     light := Some (CString "list.activeSelectionIconForeground");
     hcDark := Some (CString "list.activeSelectionIconForeground");
     hcLight := Some (CString "list.activeSelectionIconForeground") |});
  ("quickInputList.focusBackground",
   Some {|
     dark := Some (CTransform (oneOf [CString
         "quickInput.list.focusBackground"; CString
         "list.activeSelectionBackground"]));
     light := Some (CTransform (oneOf [CString
         "quickInput.list.focusBackground"; CString
         "list.activeSelectionBackground"]));
     hcDark := None;
     hcLight := None |});
  ("menu.border",
   Some {|
     dark := None;
     light := None;
     hcDark := Some (CString "contrastBorder");
     hcLight := Some (CString "contrastBorder") |});
  ("menu.foreground",
   Some {|
     dark := Some (CString "dropdown.foreground");
     light := Some (CString "foreground");
     hcDark := Some (CString "dropdown.foreground");
     hcLight := Some (CString "dropdown.foreground") |});
  ("menu.background",
   Some {|
     dark := Some (CString "dropdown.background");
     light := Some (CString "dropdown.background");
     hcDark := Some (CString "dropdown.background");
     hcLight := Some (CString "dropdown.background") |});
  ("menu.selectionForeground",
   Some {|
     dark := Some (CString "list.activeSelectionForeground");
     light := Some (CString "list.activeSelectionForeground");
     hcDark := Some (CString "list.activeSelectionForeground");
     hcLight := Some (CString "list.activeSelectionForeground") |});
  ("menu.selectionBackground",
   Some {|
     dark := Some (CString "list.activeSelectionBackground");
     light := Some (CString "list.activeSelectionBackground");
     hcDark := Some (CString "list.activeSelectionBackground");
     hcLight := Some (CString "list.activeSelectionBackground") |});
  ("menu.selectionBorder",
   Some {|
     dark := None;
     light := None;
     hcDark := Some (CString "contrastActiveBorder");
     hcLight := Some (CString "contrastActiveBorder") |});
  ("menu.separatorBackground",
   Some {|
     dark := Some (CString "#606060");
     light := Some (CString "#D4D4D4");
     hcDark := Some (CString "contrastBorder");
     hcLight := Some (CString "contrastBorder") |});
  ("toolbar.hoverBackground",
   Some {|
     dark := Some (CString "#5a5d5e50");
     light := Some (CString "#b8b8b850");
     hcDark := None;
     hcLight := None |});
  ("toolbar.hoverOutline",
   Some {|
     dark := None;
     light := None;
     hcDark := Some (CString "contrastActiveBorder");
     hcLight := Some (CString "contrastActiveBorder") |});
  ("toolbar.activeBackground",
   Some {|
     dark := Some (CTransform (lighten (CString "toolbar.hoverBackground")
         (1 # 10)));
     light := Some (CTransform (darken (CString "toolbar.hoverBackground")
         (1 # 10)));
     hcDark := None;
     hcLight := None |});
  ("editor.snippetTabstopHighlightBackground",
   Some {|
     dark := Some (CString (rgba 124 124 124 (3 # 10)));
     light := Some (CString (rgba 10 50 100 (2 # 10)));
     hcDark := Some (CString (rgba 124 124 124 (3 # 10)));
     hcLight := Some (CString (rgba 10 50 100 (2 # 10))) |});
  ("editor.snippetTabstopHighlightBorder",
   Some {|
     dark := None;
     light := None;
     hcDark := None;
     hcLight := None |});
  ("editor.snippetFinalTabstopHighlightBackground",
   Some {|
     dark := None;
     light := None;
     hcDark := None;
     hcLight := None |});
  ("editor.snippetFinalTabstopHighlightBorder",
   Some {|
     dark := Some (CString "#525252");
     light := Some (CString (rgba 10 50 100 (5 # 10)));
     hcDark := Some (CString "#525252");
     hcLight := Some (CString "#292929") |});
  ("breadcrumb.foreground",
   Some {|
     light := Some (CTransform (transparent (CString "foreground") (8 # 10)));
     dark := Some (CTransform (transparent (CString "foreground") (8 # 10)));
     hcDark := Some (CTransform (transparent (CString "foreground")
         (8 # 10)));
     hcLight := Some (CTransform (transparent (CString "foreground")
         (8 # 10))) |});
  ("breadcrumb.background",
   Some {|
     light := Some (CString "editor.background");
     dark := Some (CString "editor.background");
     hcDark := Some (CString "editor.background");
     hcLight := Some (CString "editor.background") |});
  ("breadcrumb.focusForeground",
   Some {|
     light := Some (CTransform (darken (CString "foreground") (2 # 10)));
     dark := Some (CTransform (lighten (CString "foreground") (1 # 10)));
     hcDark := Some (CTransform (lighten (CString "foreground") (1 # 10)));
     hcLight := Some (CTransform (lighten (CString "foreground") (1 # 10)))
         |});
  ("breadcrumb.activeSelectionForeground",
   Some {|
     light := Some (CTransform (darken (CString "foreground") (2 # 10)));
     dark := Some (CTransform (lighten (CString "foreground") (1 # 10)));
     hcDark := Some (CTransform (lighten (CString "foreground") (1 # 10)));
     hcLight := Some (CTransform (lighten (CString "foreground") (1 # 10)))
         |});
  ("breadcrumbPicker.background",
   Some {|
     light := Some (CString "editorWidget.background");
     dark := Some (CString "editorWidget.background");
     hcDark := Some (CString "editorWidget.background");
     hcLight := Some (CString "editorWidget.background") |});
  ("merge.currentHeaderBackground",
   Some {|
     dark := Some (CString (Color_fromHex_transparent "#40C8AE" (5 # 10)));
     light := Some (CString (Color_fromHex_transparent "#40C8AE" (5 # 10)));
     hcDark := None;
     hcLight := None |});
  ("merge.currentContentBackground",
   Some {|
     dark := Some (CTransform (transparent
         (CString "merge.currentHeaderBackground") (4 # 10)));
     light := Some (CTransform (transparent
         (CString "merge.currentHeaderBackground") (4 # 10)));
     hcDark := Some (CTransform (transparent
         (CString "merge.currentHeaderBackground") (4 # 10)));
     hcLight := Some (CTransform (transparent
         (CString "merge.currentHeaderBackground") (4 # 10))) |});
  ("merge.incomingHeaderBackground",
   Some {|
     dark := Some (CString (Color_fromHex_transparent "#40A6FF" (5 # 10)));
     light := Some (CString (Color_fromHex_transparent "#40A6FF" (5 # 10)));
     hcDark := None;
     hcLight := None |});
  ("merge.incomingContentBackground",
   Some {|
     dark := Some (CTransform (transparent
         (CString "merge.incomingHeaderBackground") (4 # 10)));
     light := Some (CTransform (transparent
         (CString "merge.incomingHeaderBackground") (4 # 10)));
     hcDark := Some (CTransform (transparent
         (CString "merge.incomingHeaderBackground") (4 # 10)));
     hcLight := Some (CTransform (transparent
         (CString "merge.incomingHeaderBackground") (4 # 10))) |});
  ("merge.commonHeaderBackground",
   Some {|
     dark := Some (CString (Color_fromHex_transparent "#606060" (4 # 10)));
     light := Some (CString (Color_fromHex_transparent "#606060" (4 # 10)));
     hcDark := None;
     hcLight := None |});
  ("merge.commonContentBackground",
   Some {|
     dark := Some (CTransform (transparent
         (CString "merge.commonHeaderBackground") (4 # 10)));
     light := Some (CTransform (transparent
         (CString "merge.commonHeaderBackground") (4 # 10)));
     hcDark := Some (CTransform (transparent
         (CString "merge.commonHeaderBackground") (4 # 10)));
     hcLight := Some (CTransform (transparent
         (CString "merge.commonHeaderBackground") (4 # 10))) |});
  ("merge.border",
   Some {|
     dark := None;
     light := None;
     hcDark := Some (CString "#C3DF6F");
     hcLight := Some (CString "#007ACC") |});
  ("editorOverviewRuler.currentContentForeground",
   Some {|
     dark := Some (CTransform (transparent
         (CString "merge.currentHeaderBackground") 1));
     light := Some (CTransform (transparent
         (CString "merge.currentHeaderBackground") 1));
     hcDark := Some (CString "merge.border");
     hcLight := Some (CString "merge.border") |});
  ("editorOverviewRuler.incomingContentForeground",
   Some {|
     dark := Some (CTransform (transparent
         (CString "merge.incomingHeaderBackground") 1));
     light := Some (CTransform (transparent
         (CString "merge.incomingHeaderBackground") 1));
     hcDark := Some (CString "merge.border");
     hcLight := Some (CString "merge.border") |});
  ("editorOverviewRuler.commonContentForeground",
   Some {|
     dark := Some (CTransform (transparent
         (CString "merge.commonHeaderBackground") 1));
     light := Some (CTransform (transparent
         (CString "merge.commonHeaderBackground") 1));
     hcDark := Some (CString "merge.border");
     hcLight := Some (CString "merge.border") |});
  ("editorOverviewRuler.findMatchForeground",
   Some {|
     dark := Some (CString "#d186167e");
     light := Some (CString "#d186167e");
     hcDark := Some (CString "#AB5A00");
     hcLight := Some (CString "") |});
  ("editorOverviewRuler.selectionHighlightForeground",
   Some {|
     dark := Some (CString "#A0A0A0CC");
     light := Some (CString "#A0A0A0CC");
     hcDark := Some (CString "#A0A0A0CC");
     hcLight := Some (CString "#A0A0A0CC") |});
  ("minimap.findMatchHighlight",
   Some {|
     light := Some (CString "#d18616");
     dark := Some (CString "#d18616");
     hcDark := Some (CString "#AB5A00");
     hcLight := Some (CString "#0F4A85") |});
  ("minimap.selectionOccurrenceHighlight",
   Some {|
     light := Some (CString "#c9c9c9");
     dark := Some (CString "#676767");
     hcDark := Some (CString "#ffffff");
     hcLight := Some (CString "#0F4A85") |});
  ("minimap.selectionHighlight",
   Some {|
     light := Some (CString "#ADD6FF");
     dark := Some (CString "#264F78");
     hcDark := Some (CString "#ffffff");
     hcLight := Some (CString "#0F4A85") |});
  ("minimap.errorHighlight",
   Some {|
     dark := Some (CString (rgba 255 18 18 (7 # 10)));
     light := Some (CString (rgba 255 18 18 (7 # 10)));
     hcDark := Some (CString (rgba 255 50 50 1));
     hcLight := Some (CString "#B5200D") |});
  ("minimap.warningHighlight",
   Some {|
     dark := Some (CString "editorWarning.foreground");
     light := Some (CString "editorWarning.foreground");
     hcDark := Some (CString "editorWarning.border");
     hcLight := Some (CString "editorWarning.border") |});
  ("minimap.background",
   Some {|
     dark := None;
     light := None;
     hcDark := None;
     hcLight := None |});
  ("minimap.foregroundOpacity",
   Some {|
     dark := Some (CString "#000000");
     light := Some (CString "#000000");
     hcDark := Some (CString "#000000");
     hcLight := Some (CString "#000000") |});
  ("minimapSlider.background",
   Some {|
     light := Some (CTransform (transparent
         (CString "scrollbarSlider.background") (5 # 10)));
     dark := Some (CTransform (transparent
         (CString "scrollbarSlider.background") (5 # 10)));
     hcDark := Some (CTransform (transparent
         (CString "scrollbarSlider.background") (5 # 10)));
     hcLight := Some (CTransform (transparent
         (CString "scrollbarSlider.background") (5 # 10))) |});
  ("minimapSlider.hoverBackground",
   Some {|
     light := Some (CTransform (transparent
         (CString "scrollbarSlider.hoverBackground") (5 # 10)));
     dark := Some (CTransform (transparent
         (CString "scrollbarSlider.hoverBackground") (5 # 10)));
     hcDark := Some (CTransform (transparent
         (CString "scrollbarSlider.hoverBackground") (5 # 10)));
     hcLight := Some (CTransform (transparent
         (CString "scrollbarSlider.hoverBackground") (5 # 10))) |});
  ("minimapSlider.activeBackground",
   Some {|
     light := Some (CTransform (transparent
         (CString "scrollbarSlider.activeBackground") (5 # 10)));
     dark := Some (CTransform (transparent
         (CString "scrollbarSlider.activeBackground") (5 # 10)));
     hcDark := Some (CTransform (transparent
         (CString "scrollbarSlider.activeBackground") (5 # 10)));
     hcLight := Some (CTransform (transparent
         (CString "scrollbarSlider.activeBackground") (5 # 10))) |});
  ("problemsErrorIcon.foreground",
   Some {|
     dark := Some (CString "editorError.foreground");
     light := Some (CString "editorError.foreground");
     hcDark := Some (CString "editorError.foreground");
     hcLight := Some (CString "editorError.foreground") |});
  ("problemsWarningIcon.foreground",
   Some {|
     dark := Some (CString "editorWarning.foreground");
     light := Some (CString "editorWarning.foreground");
     hcDark := Some (CString "editorWarning.foreground");
     hcLight := Some (CString "editorWarning.foreground") |});
  ("problemsInfoIcon.foreground",
   Some {|
     dark := Some (CString "editorInfo.foreground");
     light := Some (CString "editorInfo.foreground");
     hcDark := Some (CString "editorInfo.foreground");
     hcLight := Some (CString "editorInfo.foreground") |});
  ("charts.foreground",
   Some {|
     dark := Some (CString "foreground");
     light := Some (CString "foreground");
     hcDark := Some (CString "foreground");
     hcLight := Some (CString "foreground") |});
  ("charts.lines",
   Some {|
     dark := Some (CTransform (transparent (CString "foreground") (5 # 10)));
     light := Some (CTransform (transparent (CString "foreground") (5 # 10)));
     hcDark := Some (CTransform (transparent (CString "foreground")
         (5 # 10)));
     hcLight := Some (CTransform (transparent (CString "foreground")
         (5 # 10))) |});
  ("charts.red",
   Some {|
     dark := Some (CString "editorError.foreground");
     light := Some (CString "editorError.foreground");
     hcDark := Some (CString "editorError.foreground");
     hcLight := Some (CString "editorError.foreground") |});
  ("charts.blue",
   Some {|
     dark := Some (CString "editorInfo.foreground");
     light := Some (CString "editorInfo.foreground");
     hcDark := Some (CString "editorInfo.foreground");
     hcLight := Some (CString "editorInfo.foreground") |});
  ("charts.yellow",
   Some {|
     dark := Some (CString "editorWarning.foreground");
     light := Some (CString "editorWarning.foreground");
     hcDark := Some (CString "editorWarning.foreground");
     hcLight := Some (CString "editorWarning.foreground") |});
  ("charts.orange",
   Some {|
     dark := Some (CString "minimap.findMatchHighlight");
     light := Some (CString "minimap.findMatchHighlight");
     hcDark := Some (CString "minimap.findMatchHighlight");
     hcLight := Some (CString "minimap.findMatchHighlight") |});
  ("editor.lineHighlightBackground",
   Some {|
     dark := None;
     light := None;
     hcDark := None;
     hcLight := None |});
  ("editor.lineHighlightBorder",
   Some {|
     dark := Some (CString "#282828");
     light := Some (CString "#eeeeee");
     hcDark := Some (CString "#f38518");
     hcLight := Some (CString "contrastBorder") |});
  ("editor.rangeHighlightBackground",
   Some {|
     dark := Some (CString "#ffffff0b");
     light := Some (CString "#fdff0033");
     hcDark := None;
     hcLight := None |});
  ("editor.rangeHighlightBorder",
   Some {|
     dark := None;
     light := None;
     hcDark := Some (CString "contrastActiveBorder");
     hcLight := Some (CString "contrastActiveBorder") |});
  ("editor.symbolHighlightBackground",
   Some {|
     dark := Some (CString "editor.findMatchHighlightBackground");
     light := Some (CString "editor.findMatchHighlightBackground");
     hcDark := None;
     hcLight := None |});
  ("editor.symbolHighlightBorder",
   Some {|
     dark := None;
     light := None;
     hcDark := Some (CString "contrastActiveBorder");
     hcLight := Some (CString "contrastActiveBorder") |});
  ("editorCursor.foreground",
   Some {|
     dark := Some (CString "#AEAFAD");
     light := Some (CString "#000000");
     hcDark := Some (CString "#ffffff");
     hcLight := Some (CString "#0F4A85") |});
  ("editorCursor.background", None);
  ("editorWhitespace.foreground",
   Some {|
     dark := Some (CString "#e3e4e229");
     light := Some (CString "#33333333");
     hcDark := Some (CString "#e3e4e229");
     hcLight := Some (CString "#CCCCCC") |});
  ("editorIndentGuide.background",
   Some {|
     dark := Some (CString "editorWhitespace.foreground");
     light := Some (CString "editorWhitespace.foreground");
     hcDark := Some (CString "editorWhitespace.foreground");
     hcLight := Some (CString "editorWhitespace.foreground") |});
  ("editorIndentGuide.activeBackground",
   Some {|
     dark := Some (CString "editorWhitespace.foreground");
     light := Some (CString "editorWhitespace.foreground");
     hcDark := Some (CString "editorWhitespace.foreground");
     hcLight := Some (CString "editorWhitespace.foreground") |});
  ("editorLineNumber.foreground",
   Some {|
     dark := Some (CString "#858585");
     light := Some (CString "#237893");
     hcDark := Some (CString "#ffffff");
     hcLight := Some (CString "#292929") |});
  ("editorActiveLineNumber.foreground",
   Some {|
     dark := Some (CString "#c6c6c6");
     light := Some (CString "#0B216F");
     hcDark := Some (CString "contrastActiveBorder");
     hcLight := Some (CString "contrastActiveBorder") |});
  ("editorLineNumber.activeForeground",
   Some {|
     dark := Some (CString "editorActiveLineNumber.foreground");
     light := Some (CString "editorActiveLineNumber.foreground");
     hcDark := Some (CString "editorActiveLineNumber.foreground");
     hcLight := Some (CString "editorActiveLineNumber.foreground") |});
  ("editorRuler.foreground",
   Some {|
     dark := Some (CString "#5A5A5A");
     light := Some (CString "#D3D3D3");
     hcDark := Some (CString "#ffffff");
     hcLight := Some (CString "#292929") |});
  ("editorCodeLens.foreground",
   Some {|
     dark := Some (CString "#999999");
     light := Some (CString "#919191");
     hcDark := Some (CString "#999999");
     hcLight := Some (CString "#292929") |});
  ("editorBracketMatch.background",
   Some {|
     dark := Some (CString "#0064001a");
     light := Some (CString "#0064001a");
     hcDark := Some (CString "#0064001a");
     hcLight := Some (CString "#0000") |});
  ("editorBracketMatch.border",
   Some {|
     dark := Some (CString "#888");
     light := Some (CString "#B9B9B9");
     hcDark := Some (CString "contrastBorder");
     hcLight := Some (CString "contrastBorder") |});
  ("editorOverviewRuler.border",
   Some {|
     dark := Some (CString "#7f7f7f4d");
     light := Some (CString "#7f7f7f4d");
     hcDark := Some (CString "#7f7f7f4d");
     hcLight := Some (CString "#666666") |});
  ("editorOverviewRuler.background", None);
  ("editorGutter.background",
   Some {|
     dark := Some (CString "editor.background");
     light := Some (CString "editor.background");
     hcDark := Some (CString "editor.background");
     hcLight := Some (CString "editor.background") |});
  ("editorUnnecessaryCode.border",
   Some {|
     dark := None;
     light := None;
     hcDark := Some (CString (Color_fromHex_transparent "#fff" (8 # 10)));
     hcLight := Some (CString "contrastBorder") |});
  ("editorUnnecessaryCode.opacity",
   Some {|
     dark := Some (CString (TinyColor.toHexString (TinyColor.tinycolor2
         "#000a")));
     light := Some (CString (TinyColor.toHexString (TinyColor.tinycolor2
         "#0007")));
     hcDark := None;
     hcLight := None |});
  ("editorGhostText.border",
   Some {|
     dark := None;
     light := None;
     hcDark := Some (CString (Color_fromHex_transparent "#fff" (8 # 10)));
     hcLight := Some (CString (Color_fromHex_transparent "#292929" (8 # 10)))
         |});
  ("editorGhostText.foreground",
   Some {|
     dark := Some (CString "#ffffff56");
     light := Some (CString (TinyColor.toHexString (TinyColor.tinycolor2
         "#0007")));
     hcDark := None;
     hcLight := None |});
  ("editorGhostText.background",
   Some {|
     dark := None;
     light := None;
     hcDark := None;
     hcLight := None |});
  ("editorOverviewRuler.rangeHighlightForeground",
   Some {|
     dark := Some (CString (rgba 0 122 204 (6 # 10)));
     light := Some (CString (rgba 0 122 204 (6 # 10)));
     hcDark := Some (CString (rgba 0 122 204 (6 # 10)));
     hcLight := Some (CString (rgba 0 122 204 (6 # 10))) |});
  ("editorOverviewRuler.errorForeground",
   Some {|
     dark := Some (CString (rgba 255 18 18 (7 # 10)));
     light := Some (CString (rgba 255 18 18 (7 # 10)));
     hcDark := Some (CString (rgba 255 50 50 1));
     hcLight := Some (CString "#B5200D") |});
  ("editorOverviewRuler.warningForeground",
   Some {|
     dark := Some (CString "editorWarning.foreground");
     light := Some (CString "editorWarning.foreground");
     hcDark := Some (CString "editorWarning.border");
     hcLight := Some (CString "editorWarning.border") |});
  ("editorOverviewRuler.infoForeground",
   Some {|
     dark := Some (CString "editorInfo.foreground");
     light := Some (CString "editorInfo.foreground");
     hcDark := Some (CString "editorInfo.border");
     hcLight := Some (CString "editorInfo.border") |});
  ("editorBracketHighlight.foreground1",
   Some {|
     dark := Some (CString "#FFD700");
     light := Some (CString "#0431FAFF");
     hcDark := Some (CString "#FFD700");
     hcLight := Some (CString "#0431FAFF") |});
  ("editorBracketHighlight.foreground2",
   Some {|
     dark := Some (CString "#DA70D6");
     light := Some (CString "#319331FF");
     hcDark := Some (CString "#DA70D6");
     hcLight := Some (CString "#319331FF") |});
  ("editorBracketHighlight.foreground3",
   Some {|
     dark := Some (CString "#179FFF");
     light := Some (CString "#7B3814FF");
     hcDark := Some (CString "#87CEFA");
     hcLight := Some (CString "#7B3814FF") |});
  ("editorBracketHighlight.foreground4",
   Some {|
     dark := Some (CString "#00000000");
     light := Some (CString "#00000000");
     hcDark := Some (CString "#00000000");
     hcLight := Some (CString "#00000000") |});
  ("editorBracketHighlight.foreground5",
   Some {|
     dark := Some (CString "#00000000");
     light := Some (CString "#00000000");
     hcDark := Some (CString "#00000000");
     hcLight := Some (CString "#00000000") |});
  ("editorBracketHighlight.foreground6",
   Some {|
     dark := Some (CString "#00000000");
     light := Some (CString "#00000000");
     hcDark := Some (CString "#00000000");
     hcLight := Some (CString "#00000000") |});
  ("editorBracketHighlight.unexpectedBracket.foreground",
   Some {|
     dark := Some (CString (rgba 255 18 18 (8 # 10)));
     light := Some (CString (rgba 255 18 18 (8 # 10)));
     hcDark := Some (CString (rgba 255 50 50 1));
     hcLight := Some (CString "") |});
  ("editorBracketPairGuide.background1",
   Some {|
     dark := Some (CString "#00000000");
     light := Some (CString "#00000000");
     hcDark := Some (CString "#00000000");
     hcLight := Some (CString "#00000000") |});
  ("editorBracketPairGuide.background2",
   Some {|
     dark := Some (CString "#00000000");
     light := Some (CString "#00000000");
     hcDark := Some (CString "#00000000");
     hcLight := Some (CString "#00000000") |});
  ("editorBracketPairGuide.background3",
   Some {|
     dark := Some (CString "#00000000");
     light := Some (CString "#00000000");
     hcDark := Some (CString "#00000000");
     hcLight := Some (CString "#00000000") |});
  ("editorBracketPairGuide.background4",
   Some {|
     dark := Some (CString "#00000000");
     light := Some (CString "#00000000");
     hcDark := Some (CString "#00000000");
     hcLight := Some (CString "#00000000") |});
  ("editorBracketPairGuide.background5",
   Some {|
     dark := Some (CString "#00000000");
     light := Some (CString "#00000000");
     hcDark := Some (CString "#00000000");
     hcLight := Some (CString "#00000000") |});
  ("editorBracketPairGuide.background6",
   Some {|
     dark := Some (CString "#00000000");
     light := Some (CString "#00000000");
     hcDark := Some (CString "#00000000");
     hcLight := Some (CString "#00000000") |});
  ("editorBracketPairGuide.activeBackground1",
   Some {|
     dark := Some (CString "#00000000");
     light := Some (CString "#00000000");
     hcDark := Some (CString "#00000000");
     hcLight := Some (CString "#00000000") |});
  ("editorBracketPairGuide.activeBackground2",
   Some {|
     dark := Some (CString "#00000000");
     light := Some (CString "#00000000");
     hcDark := Some (CString "#00000000");
     hcLight := Some (CString "#00000000") |});
  ("editorBracketPairGuide.activeBackground3",
   Some {|
     dark := Some (CString "#00000000");
     light := Some (CString "#00000000");
     hcDark := Some (CString "#00000000");
     hcLight := Some (CString "#00000000") |});
  ("editorBracketPairGuide.activeBackground4",
   Some {|
     dark := Some (CString "#00000000");
     light := Some (CString "#00000000");
     hcDark := Some (CString "#00000000");
     hcLight := Some (CString "#00000000") |});
  ("editorBracketPairGuide.activeBackground5",
   Some {|
     dark := Some (CString "#00000000");
     light := Some (CString "#00000000");
     hcDark := Some (CString "#00000000");
     hcLight := Some (CString "#00000000") |});
  ("editorBracketPairGuide.activeBackground6",
   Some {|
     dark := Some (CString "#00000000");
     light := Some (CString "#00000000");
     hcDark := Some (CString "#00000000");
     hcLight := Some (CString "#00000000") |});
  ("editorUnicodeHighlight.border",
   Some {|
     dark := Some (CString "#BD9B03");
     light := Some (CString "#CEA33D");
     hcDark := Some (CString "#ff0000");
     hcLight := Some (CString "") |});
  ("editorUnicodeHighlight.background",
   Some {|
     dark := Some (CString "#bd9b0326");
     light := Some (CString "#cea33d14");
     hcDark := Some (CString "#00000000");
     hcLight := Some (CString "") |});
  ("charts.green",
   Some {|
     dark := Some (CString "#89D185");
     light := Some (CString "#388A34");
     hcDark := Some (CString "#89D185");
     hcLight := Some (CString "#374e06") |});
  ("charts.purple",
   Some {|
     dark := Some (CString "#B180D7");
     light := Some (CString "#652D90");
     hcDark := Some (CString "#B180D7");
     hcLight := Some (CString "#652D90") |});
  ("editor.foldBackground",
   Some {|
     light := Some (CTransform (transparent
         (CString "editor.selectionBackground") (3 # 10)));
     dark := Some (CTransform (transparent
         (CString "editor.selectionBackground") (3 # 10)));
     hcDark := None;
     hcLight := None |});
  ("editorGutter.foldingControlForeground",
   Some {|
     dark := Some (CString "icon.foreground");
     light := Some (CString "icon.foreground");
     hcDark := Some (CString "icon.foreground");
     hcLight := Some (CString "icon.foreground") |});
  ("editorGutter.modifiedBackground",
   Some {|
     dark := Some (CString "#1B81A8");
     light := Some (CString "#2090D3");
     hcDark := Some (CString "#1B81A8");
     hcLight := Some (CString "#2090D3") |});
  ("editorGutter.addedBackground",
   Some {|
     dark := Some (CString "#487E02");
     light := Some (CString "#48985D");
     hcDark := Some (CString "#487E02");
     hcLight := Some (CString "#48985D") |});
  ("editorGutter.deletedBackground",
   Some {|
     dark := Some (CString "editorError.foreground");
     light := Some (CString "editorError.foreground");
     hcDark := Some (CString "editorError.foreground");
     hcLight := Some (CString "editorError.foreground") |});
  ("minimapGutter.modifiedBackground",
   Some {|
     dark := Some (CString "editorGutter.modifiedBackground");
     light := Some (CString "editorGutter.modifiedBackground");
     hcDark := Some (CString "editorGutter.modifiedBackground");
     hcLight := Some (CString "editorGutter.modifiedBackground") |});
  ("minimapGutter.addedBackground",
   Some {|
     dark := Some (CString "editorGutter.addedBackground");
     light := Some (CString "editorGutter.addedBackground");
     hcDark := Some (CString "editorGutter.addedBackground");
     hcLight := Some (CString "editorGutter.addedBackground") |});
  ("minimapGutter.deletedBackground",
   Some {|
     dark := Some (CString "editorGutter.deletedBackground");
     light := Some (CString "editorGutter.deletedBackground");
     hcDark := Some (CString "editorGutter.deletedBackground");
     hcLight := Some (CString "editorGutter.deletedBackground") |});
  ("editorOverviewRuler.modifiedForeground",
   Some {|
     dark := Some (CTransform (transparent
         (CString "editorGutter.modifiedBackground") (6 # 10)));
     light := Some (CTransform (transparent
         (CString "editorGutter.modifiedBackground") (6 # 10)));
     hcDark := Some (CTransform (transparent
         (CString "editorGutter.modifiedBackground") (6 # 10)));
     hcLight := Some (CTransform (transparent
         (CString "editorGutter.modifiedBackground") (6 # 10))) |});
  ("editorOverviewRuler.addedForeground",
   Some {|
     dark := Some (CTransform (transparent
         (CString "editorGutter.addedBackground") (6 # 10)));
     light := Some (CTransform (transparent
         (CString "editorGutter.addedBackground") (6 # 10)));
     hcDark := Some (CTransform (transparent
         (CString "editorGutter.addedBackground") (6 # 10)));
     hcLight := Some (CTransform (transparent
         (CString "editorGutter.addedBackground") (6 # 10))) |});
  ("editorOverviewRuler.deletedForeground",
   Some {|
     dark := Some (CTransform (transparent
         (CString "editorGutter.deletedBackground") (6 # 10)));
     light := Some (CTransform (transparent
         (CString "editorGutter.deletedBackground") (6 # 10)));
     hcDark := Some (CTransform (transparent
         (CString "editorGutter.deletedBackground") (6 # 10)));
     hcLight := Some (CTransform (transparent
         (CString "editorGutter.deletedBackground") (6 # 10))) |});
  ("debugTokenExpression.name",
   Some {|
     dark := Some (CString "#c586c0");
     light := Some (CString "#9b46b0");
     hcDark := Some (CString "foreground");
     hcLight := Some (CString "foreground") |});
  ("debugTokenExpression.value",
   Some {|
     dark := Some (CString "#cccccc99");
     light := Some (CString "#6c6c6ccc");
     hcDark := Some (CString "foreground");
     hcLight := Some (CString "foreground") |});
  ("debugTokenExpression.string",
   Some {|
     dark := Some (CString "#ce9178");
     light := Some (CString "#a31515");
     hcDark := Some (CString "#f48771");
     hcLight := Some (CString "#a31515") |});
  ("debugTokenExpression.boolean",
   Some {|
     dark := Some (CString "#4e94ce");
     light := Some (CString "#0000ff");
     hcDark := Some (CString "#75bdfe");
     hcLight := Some (CString "#0000ff") |});
  ("debugTokenExpression.number",
   Some {|
     dark := Some (CString "#b5cea8");
     light := Some (CString "#098658");
     hcDark := Some (CString "#89d185");
     hcLight := Some (CString "#098658") |});
  ("debugTokenExpression.error",
   Some {|
     dark := Some (CString "#f48771");
     light := Some (CString "#e51400");
     hcDark := Some (CString "#f48771");
     hcLight := Some (CString "#e51400") |});
  ("debugView.exceptionLabelForeground",
   Some {|
     dark := Some (CString "foreground");
     light := Some (CString "#FFF");
     hcDark := Some (CString "foreground");
     hcLight := Some (CString "foreground") |});
  ("debugView.exceptionLabelBackground",
   Some {|
     dark := Some (CString "#6C2022");
     light := Some (CString "#A31515");
     hcDark := Some (CString "#6C2022");
     hcLight := Some (CString "#A31515") |});
  ("debugView.stateLabelForeground",
   Some {|
     dark := Some (CString "foreground");
     light := Some (CString "foreground");
     hcDark := Some (CString "foreground");
     hcLight := Some (CString "foreground") |});
  ("debugView.stateLabelBackground",
   Some {|
     dark := Some (CString "#88888844");
     light := Some (CString "#88888844");
     hcDark := Some (CString "#88888844");
     hcLight := Some (CString "#88888844") |});
  ("debugView.valueChangedHighlight",
   Some {|
     dark := Some (CString "#569CD6");
     light := Some (CString "#569CD6");
     hcDark := Some (CString "#569CD6");
     hcLight := Some (CString "#569CD6") |});
  ("debugConsole.infoForeground",
   Some {|
     dark := Some (CString "editorInfo.foreground");
     light := Some (CString "editorInfo.foreground");
     hcDark := Some (CString "foreground");
     hcLight := Some (CString "foreground") |});
  ("debugConsole.warningForeground",
   Some {|
     dark := Some (CString "editorWarning.foreground");
     light := Some (CString "editorWarning.foreground");
     hcDark := Some (CString "#008000");
     hcLight := Some (CString "editorWarning.foreground") |});
  ("debugConsole.errorForeground",
   Some {|
     dark := Some (CString "errorForeground");
     light := Some (CString "errorForeground");
     hcDark := Some (CString "errorForeground");
     hcLight := Some (CString "errorForeground") |});
  ("debugConsole.sourceForeground",
   Some {|
     dark := Some (CString "foreground");
     light := Some (CString "foreground");
     hcDark := Some (CString "foreground");
     hcLight := Some (CString "foreground") |});
  ("debugConsoleInputIcon.foreground",
   Some {|
     dark := Some (CString "foreground");
     light := Some (CString "foreground");
     hcDark := Some (CString "foreground");
     hcLight := Some (CString "foreground") |});
  ("debugIcon.pauseForeground",
   Some {|
     dark := Some (CString "#75BEFF");
     light := Some (CString "#007ACC");
     hcDark := Some (CString "#75BEFF");
     hcLight := Some (CString "#007ACC") |});
  ("debugIcon.stopForeground",
   Some {|
     dark := Some (CString "#F48771");
     light := Some (CString "#A1260D");
     hcDark := Some (CString "#F48771");
     hcLight := Some (CString "#A1260D") |});
  ("debugIcon.disconnectForeground",
   Some {|
     dark := Some (CString "#F48771");
     light := Some (CString "#A1260D");
     hcDark := Some (CString "#F48771");
     hcLight := Some (CString "#A1260D") |});
  ("debugIcon.restartForeground",
   Some {|
     dark := Some (CString "#89D185");
     light := Some (CString "#388A34");
     hcDark := Some (CString "#89D185");
     hcLight := Some (CString "#388A34") |});
  ("debugIcon.stepOverForeground",
   Some {|
     dark := Some (CString "#75BEFF");
     light := Some (CString "#007ACC");
     hcDark := Some (CString "#75BEFF");
     hcLight := Some (CString "#007ACC") |});
  ("debugIcon.stepIntoForeground",
   Some {|
     dark := Some (CString "#75BEFF");
     light := Some (CString "#007ACC");
     hcDark := Some (CString "#75BEFF");
     hcLight := Some (CString "#007ACC") |});
  ("debugIcon.stepOutForeground",
   Some {|
     dark := Some (CString "#75BEFF");
     light := Some (CString "#007ACC");
     hcDark := Some (CString "#75BEFF");
     hcLight := Some (CString "#007ACC") |});
  ("debugIcon.continueForeground",
   Some {|
     dark := Some (CString "#75BEFF");
     light := Some (CString "#007ACC");
     hcDark := Some (CString "#75BEFF");
     hcLight := Some (CString "#007ACC") |});
  ("debugIcon.stepBackForeground",
   Some {|
     dark := Some (CString "#75BEFF");
     light := Some (CString "#007ACC");
     hcDark := Some (CString "#75BEFF");
     hcLight := Some (CString "#007ACC") |});
  ("editorMarkerNavigationError.background",
   Some {|
     dark := Some (CTransform (oneOf [CString "editorError.foreground";
         CString "editorError.border"]));
     light := Some (CTransform (oneOf [CString "editorError.foreground";
         CString "editorError.border"]));
     hcDark := Some (CString "contrastBorder");
     hcLight := Some (CString "contrastBorder") |});
  ("editorMarkerNavigationError.headerBackground",
   Some {|
     dark := Some (CTransform (transparent
         (CString "editorMarkerNavigationError.background") (1 # 10)));
     light := Some (CTransform (transparent
         (CString "editorMarkerNavigationError.background") (1 # 10)));
     hcDark := None;
     hcLight := None |});
  ("editorMarkerNavigationWarning.background",
   Some {|
     dark := Some (CTransform (oneOf [CString "editorWarning.foreground";
         CString "editorWarning.border"]));
     light := Some (CTransform (oneOf [CString "editorWarning.foreground";
         CString "editorWarning.border"]));
     hcDark := Some (CString "contrastBorder");
     hcLight := Some (CString "contrastBorder") |});
  ("editorMarkerNavigationWarning.headerBackground",
   Some {|
     dark := Some (CTransform (transparent
         (CString "editorMarkerNavigationWarning.background") (1 # 10)));
     light := Some (CTransform (transparent
         (CString "editorMarkerNavigationWarning.background") (1 # 10)));
     hcDark := Some (CString "#0C141F");
     hcLight := Some (CTransform (transparent
         (CString "editorMarkerNavigationWarning.background") (2 # 10))) |});
  ("editorMarkerNavigationInfo.background",
   Some {|
     dark := Some (CTransform (oneOf [CString "editorInfo.foreground"; CString
         "editorInfo.border"]));
     light := Some (CTransform (oneOf [CString "editorInfo.foreground";
         CString "editorInfo.border"]));
     hcDark := Some (CString "contrastBorder");
     hcLight := Some (CString "contrastBorder") |});
  ("editorMarkerNavigationInfo.headerBackground",
   Some {|
     dark := Some (CTransform (transparent
         (CString "editorMarkerNavigationInfo.background") (1 # 10)));
     light := Some (CTransform (transparent
         (CString "editorMarkerNavigationInfo.background") (1 # 10)));
     hcDark := None;
     hcLight := None |});
  ("editorMarkerNavigation.background",
   Some {|
     dark := Some (CString "editor.background");
     light := Some (CString "editor.background");
     hcDark := Some (CString "editor.background");
     hcLight := Some (CString "editor.background") |});
  ("debugIcon.breakpointForeground",
   Some {|
     dark := Some (CString "#E51400");
     light := Some (CString "#E51400");
     hcDark := Some (CString "#E51400");
     hcLight := Some (CString "#E51400") |});
  ("debugIcon.breakpointDisabledForeground",
   Some {|
     dark := Some (CString "#848484");
     light := Some (CString "#848484");
     hcDark := Some (CString "#848484");
     hcLight := Some (CString "#848484") |});
  ("debugIcon.breakpointUnverifiedForeground",
   Some {|
     dark := Some (CString "#848484");
     light := Some (CString "#848484");
     hcDark := Some (CString "#848484");
     hcLight := Some (CString "#848484") |});
  ("debugIcon.breakpointCurrentStackframeForeground",
   Some {|
     dark := Some (CString "#FFCC00");
     light := Some (CString "#BE8700");
     hcDark := Some (CString "#FFCC00");
     hcLight := Some (CString "#BE8700") |});
  ("debugIcon.breakpointStackframeForeground",
   Some {|
     dark := Some (CString "#89D185");
     light := Some (CString "#89D185");
     hcDark := Some (CString "#89D185");
     hcLight := Some (CString "#89D185") |});
  ("tab.activeBackground",
   Some {|
     dark := Some (CString "editor.background");
     light := Some (CString "editor.background");
     hcDark := Some (CString "editor.background");
     hcLight := Some (CString "editor.background") |});
  ("tab.unfocusedActiveBackground",
   Some {|
     dark := Some (CString "tab.activeBackground");
     light := Some (CString "tab.activeBackground");
     hcDark := Some (CString "tab.activeBackground");
     hcLight := Some (CString "tab.activeBackground") |});
  ("tab.inactiveBackground",
   Some {|
     dark := Some (CString "#2D2D2D");
     light := Some (CString "#ECECEC");
     hcDark := None;
     hcLight := None |});
  ("tab.unfocusedInactiveBackground",
   Some {|
     dark := Some (CString "tab.inactiveBackground");
     light := Some (CString "tab.inactiveBackground");
     hcDark := Some (CString "tab.inactiveBackground");
     hcLight := Some (CString "tab.inactiveBackground") |});
  ("tab.activeForeground",
   Some {|
     dark := Some (CString "#ffffff");
     light := Some (CString "#333333");
     hcDark := Some (CString "#ffffff");
     hcLight := Some (CString "#292929") |});
  ("tab.inactiveForeground",
   Some {|
     dark := Some (CTransform (transparent (CString "tab.activeForeground")
         (5 # 10)));
     light := Some (CTransform (transparent (CString "tab.activeForeground")
         (7 # 10)));
     hcDark := Some (CString "#ffffff");
     hcLight := Some (CString "#292929") |});
  ("tab.unfocusedActiveForeground",
   Some {|
     dark := Some (CTransform (transparent (CString "tab.activeForeground")
         (5 # 10)));
     light := Some (CTransform (transparent (CString "tab.activeForeground")
         (7 # 10)));
     hcDark := Some (CString "#ffffff");
     hcLight := Some (CString "#292929") |});
  ("tab.unfocusedInactiveForeground",
   Some {|
     dark := Some (CTransform (transparent (CString "tab.inactiveForeground")
         (5 # 10)));
     light := Some (CTransform (transparent (CString "tab.inactiveForeground")
         (5 # 10)));
     hcDark := Some (CString "#ffffff");
     hcLight := Some (CString "#292929") |});
  ("tab.hoverBackground",
   Some {|
     dark := None;
     light := None;
     hcDark := None;
     hcLight := None |});
  ("tab.unfocusedHoverBackground",
   Some {|
     dark := Some (CTransform (transparent (CString "tab.hoverBackground")
         (5 # 10)));
     light := Some (CTransform (transparent (CString "tab.hoverBackground")
         (7 # 10)));
     hcDark := None;
     hcLight := None |});
  ("tab.hoverForeground",
   Some {|
     dark := None;
     light := None;
     hcDark := None;
     hcLight := None |});
  ("tab.unfocusedHoverForeground",
   Some {|
     dark := Some (CTransform (transparent (CString "tab.hoverForeground")
         (5 # 10)));
     light := Some (CTransform (transparent (CString "tab.hoverForeground")
         (5 # 10)));
     hcDark := None;
     hcLight := None |});
  ("tab.border",
   Some {|
     dark := Some (CString "#252526");
     light := Some (CString "#F3F3F3");
     hcDark := Some (CString "contrastBorder");
     hcLight := Some (CString "contrastBorder") |});
  ("tab.lastPinnedBorder",
   Some {|
     dark := Some (CString "tree.indentGuidesStroke");
     light := Some (CString "tree.indentGuidesStroke");
     hcDark := Some (CString "contrastBorder");
     hcLight := Some (CString "contrastBorder") |});
  ("tab.activeBorder",
   Some {|
     dark := None;
     light := None;
     hcDark := None;
     hcLight := None |});
  ("tab.unfocusedActiveBorder",
   Some {|
     dark := Some (CTransform (transparent (CString "tab.activeBorder")
         (5 # 10)));
     light := Some (CTransform (transparent (CString "tab.activeBorder")
         (7 # 10)));
     hcDark := None;
     hcLight := None |});
  ("tab.activeBorderTop",
   Some {|
     dark := None;
     light := None;
     hcDark := None;
     hcLight := Some (CString "#B5200D") |});
  ("tab.unfocusedActiveBorderTop",
   Some {|
     dark := Some (CTransform (transparent (CString "tab.activeBorderTop")
         (5 # 10)));
     light := Some (CTransform (transparent (CString "tab.activeBorderTop")
         (7 # 10)));
     hcDark := None;
     hcLight := Some (CString "#B5200D") |});
  ("tab.hoverBorder",
   Some {|
     dark := None;
     light := None;
     hcDark := None;
     hcLight := None |});
  ("tab.unfocusedHoverBorder",
   Some {|
     dark := Some (CTransform (transparent (CString "tab.hoverBorder")
         (5 # 10)));
     light := Some (CTransform (transparent (CString "tab.hoverBorder")
         (7 # 10)));
     hcDark := None;
     hcLight := Some (CString "contrastBorder") |});
  ("tab.activeModifiedBorder",
   Some {|
     dark := Some (CString "#3399CC");
     light := Some (CString "#33AAEE");
     hcDark := None;
     hcLight := Some (CString "contrastBorder") |});
  ("tab.inactiveModifiedBorder",
   Some {|
     dark := Some (CTransform (transparent
         (CString "tab.activeModifiedBorder") (5 # 10)));
     light := Some (CTransform (transparent
         (CString "tab.activeModifiedBorder") (5 # 10)));
     hcDark := Some (CString "#ffffff");
     hcLight := Some (CString "contrastBorder") |});
  ("tab.unfocusedActiveModifiedBorder",
   Some {|
     dark := Some (CTransform (transparent
         (CString "tab.activeModifiedBorder") (5 # 10)));
     light := Some (CTransform (transparent
         (CString "tab.activeModifiedBorder") (7 # 10)));
     hcDark := Some (CString "#ffffff");
     hcLight := Some (CString "contrastBorder") |});
  ("tab.unfocusedInactiveModifiedBorder",
   Some {|
     dark := Some (CTransform (transparent
         (CString "tab.inactiveModifiedBorder") (5 # 10)));
     light := Some (CTransform (transparent
         (CString "tab.inactiveModifiedBorder") (5 # 10)));
     hcDark := Some (CString "#ffffff");
     hcLight := Some (CString "contrastBorder") |});
  ("editorPane.background",
   Some {|
     dark := Some (CString "editor.background");
     light := Some (CString "editor.background");
     hcDark := Some (CString "editor.background");
     hcLight := Some (CString "editor.background") |});
  ("editorGroup.emptyBackground",
   Some {|
     dark := None;
     light := None;
     hcDark := None;
     hcLight := None |});
  ("editorGroup.focusedEmptyBorder",
   Some {|
     dark := None;
     light := None;
     hcDark := Some (CString "focusBorder");
     hcLight := Some (CString "focusBorder") |});
  ("editorGroupHeader.tabsBackground",
   Some {|
     dark := Some (CString "#252526");
     light := Some (CString "#F3F3F3");
     hcDark := None;
     hcLight := None |});
  ("editorGroupHeader.tabsBorder",
   Some {|
     dark := None;
     light := None;
     hcDark := None;
     hcLight := None |});
  ("editorGroupHeader.noTabsBackground",
   Some {|
     dark := Some (CString "editor.background");
     light := Some (CString "editor.background");
     hcDark := Some (CString "editor.background");
     hcLight := Some (CString "editor.background") |});
  ("editorGroupHeader.border",
   Some {|
     dark := None;
     light := None;
     hcDark := Some (CString "contrastBorder");
     hcLight := Some (CString "contrastBorder") |});
  ("editorGroup.border",
   Some {|
     dark := Some (CString "#444444");
     light := Some (CString "#E7E7E7");
     hcDark := Some (CString "contrastBorder");
     hcLight := Some (CString "contrastBorder") |});
  ("editorGroup.dropBackground",
   Some {|
     dark := Some (CString (Color_fromHex_transparent "#53595D" (5 # 10)));
     light := Some (CString (Color_fromHex_transparent "#2677CB" (18 # 100)));
     hcDark := None;
     hcLight := Some (CString (Color_fromHex_transparent "#0F4A85"
         (50 # 100))) |});
  ("editorGroup.dropIntoPromptForeground",
   Some {|
     dark := Some (CString "editorWidget.foreground");
     light := Some (CString "editorWidget.foreground");
     hcDark := Some (CString "editorWidget.foreground");
     hcLight := Some (CString "editorWidget.foreground") |});
  ("editorGroup.dropIntoPromptBackground",
   Some {|
     dark := Some (CString "editorWidget.background");
     light := Some (CString "editorWidget.background");
     hcDark := Some (CString "editorWidget.background");
     hcLight := Some (CString "editorWidget.background") |});
  ("editorGroup.dropIntoPromptBorder",
   Some {|
     dark := None;
     light := None;
     hcDark := Some (CString "contrastBorder");
     hcLight := Some (CString "contrastBorder") |});
  ("sideBySideEditor.horizontalBorder",
   Some {|
     dark := Some (CString "editorGroup.border");
     light := Some (CString "editorGroup.border");
     hcDark := Some (CString "editorGroup.border");
     hcLight := Some (CString "editorGroup.border") |});
  ("sideBySideEditor.verticalBorder",
   Some {|
     dark := Some (CString "editorGroup.border");
     light := Some (CString "editorGroup.border");
     hcDark := Some (CString "editorGroup.border");
     hcLight := Some (CString "editorGroup.border") |});
  ("panel.background",
   Some {|
     dark := Some (CString "editor.background");
     light := Some (CString "editor.background");
     hcDark := Some (CString "editor.background");
     hcLight := Some (CString "editor.background") |});
  ("panel.border",
   Some {|
     dark := Some (CString (Color_fromHex_transparent "#808080" (35 # 100)));
     light := Some (CString (Color_fromHex_transparent "#808080" (35 # 100)));
     hcDark := Some (CString "contrastBorder");
     hcLight := Some (CString "contrastBorder") |});
  ("panelTitle.activeForeground",
   Some {|
     dark := Some (CString "#E7E7E7");
     light := Some (CString "#424242");
     hcDark := Some (CString "#ffffff");
     hcLight := Some (CString "editor.foreground") |});
  ("panelTitle.inactiveForeground",
   Some {|
     dark := Some (CTransform (transparent
         (CString "panelTitle.activeForeground") (6 # 10)));
     light := Some (CTransform (transparent
         (CString "panelTitle.activeForeground") (75 # 100)));
     hcDark := Some (CString "#ffffff");
     hcLight := Some (CString "editor.foreground") |});
  ("panelTitle.activeBorder",
   Some {|
     dark := Some (CString "panelTitle.activeForeground");
     light := Some (CString "panelTitle.activeForeground");
     hcDark := Some (CString "contrastBorder");
     hcLight := Some (CString "#B5200D") |});
  ("panelInput.border",
   Some {|
     dark := Some (CString "input.border");
     light := Some (CString "#ddd");
     hcDark := Some (CString "input.border");
     hcLight := Some (CString "input.border") |});
  ("panel.dropBorder",
   Some {|
     dark := Some (CString "panelTitle.activeForeground");
     light := Some (CString "panelTitle.activeForeground");
     hcDark := Some (CString "panelTitle.activeForeground");
     hcLight := Some (CString "panelTitle.activeForeground") |});
  ("panelSection.dropBackground",
   Some {|
     dark := Some (CString "editorGroup.dropBackground");
     light := Some (CString "editorGroup.dropBackground");
     hcDark := Some (CString "editorGroup.dropBackground");
     hcLight := Some (CString "editorGroup.dropBackground") |});
  ("panelSectionHeader.background",
   Some {|
     dark := Some (CString (Color_fromHex_transparent "#808080" (2 # 10)));
     light := Some (CString (Color_fromHex_transparent "#808080" (2 # 10)));
     hcDark := None;
     hcLight := None |});
  ("panelSectionHeader.foreground",
   Some {|
     dark := None;
     light := None;
     hcDark := None;
     hcLight := None |});
  ("panelSectionHeader.border",
   Some {|
     dark := Some (CString "contrastBorder");
     light := Some (CString "contrastBorder");
     hcDark := Some (CString "contrastBorder");
     hcLight := Some (CString "contrastBorder") |});
  ("panelSection.border",
   Some {|
     dark := Some (CString "panel.border");
     light := Some (CString "panel.border");
     hcDark := Some (CString "panel.border");
     hcLight := Some (CString "panel.border") |});
  ("banner.background",
   Some {|
     dark := Some (CString "list.activeSelectionBackground");
     light := Some (CTransform (darken
         (CString "list.activeSelectionBackground") (3 # 10)));
     hcDark := Some (CString "list.activeSelectionBackground");
     hcLight := Some (CString "list.activeSelectionBackground") |});
  ("banner.foreground",
   Some {|
     dark := Some (CString "list.activeSelectionForeground");
     light := Some (CString "list.activeSelectionForeground");
     hcDark := Some (CString "list.activeSelectionForeground");
     hcLight := Some (CString "list.activeSelectionForeground") |});
  ("banner.iconForeground",
   Some {|
     dark := Some (CString "editorInfo.foreground");
     light := Some (CString "editorInfo.foreground");
     hcDark := Some (CString "editorInfo.foreground");
     hcLight := Some (CString "editorInfo.foreground") |});
  ("statusBar.foreground",
   Some {|
     dark := Some (CString "#FFFFFF");
     light := Some (CString "#FFFFFF");
     hcDark := Some (CString "#FFFFFF");
     hcLight := Some (CString "editor.foreground") |});
  ("statusBar.noFolderForeground",
   Some {|
     dark := Some (CString "statusBar.foreground");
     light := Some (CString "statusBar.foreground");
     hcDark := Some (CString "statusBar.foreground");
     hcLight := Some (CString "statusBar.foreground") |});
  ("statusBar.background",
   Some {|
     dark := Some (CString "#007ACC");
     light := Some (CString "#007ACC");
     hcDark := None;
     hcLight := None |});
  ("statusBar.noFolderBackground",
   Some {|
     dark := Some (CString "#68217A");
     light := Some (CString "#68217A");
     hcDark := None;
     hcLight := None |});
  ("statusBar.border",
   Some {|
     dark := None;
     light := None;
     hcDark := Some (CString "contrastBorder");
     hcLight := Some (CString "contrastBorder") |});
  ("statusBar.focusBorder",
   Some {|
     dark := Some (CString "statusBar.foreground");
     light := Some (CString "statusBar.foreground");
     hcDark := None;
     hcLight := Some (CString "statusBar.foreground") |});
  ("statusBar.noFolderBorder",
   Some {|
     dark := Some (CString "statusBar.border");
     light := Some (CString "statusBar.border");
     hcDark := Some (CString "statusBar.border");
     hcLight := Some (CString "statusBar.border") |});
  ("statusBarItem.activeBackground",
   Some {|
     dark := Some (CTransform (transparent (CString "#ffffff") (18 # 100)));
     light := Some (CTransform (transparent (CString "#ffffff") (18 # 100)));
     hcDark := Some (CTransform (transparent (CString "#ffffff") (18 # 100)));
     hcLight := Some (CTransform (transparent (CString "#000000") (18 # 100)))
         |});
  ("statusBarItem.focusBorder",
   Some {|
     dark := Some (CString "statusBar.foreground");
     light := Some (CString "statusBar.foreground");
     hcDark := None;
     hcLight := Some (CString "contrastActiveBorder") |});
  ("statusBarItem.hoverBackground",
   Some {|
     dark := Some (CTransform (transparent (CString "#ffffff") (12 # 100)));
     light := Some (CTransform (transparent (CString "#ffffff") (12 # 100)));
     hcDark := Some (CTransform (transparent (CString "#ffffff") (12 # 100)));
     hcLight := Some (CTransform (transparent (CString "#000000") (12 # 100)))
         |});
  ("statusBarItem.compactHoverBackground",
   Some {|
     dark := Some (CTransform (transparent (CString "#ffffff") (20 # 100)));
     light := Some (CTransform (transparent (CString "#ffffff") (20 # 100)));
     hcDark := Some (CTransform (transparent (CString "#ffffff") (20 # 100)));
     hcLight := Some (CTransform (transparent (CString "#000000") (20 # 100)))
         |});
  ("statusBarItem.prominentForeground",
   Some {|
     dark := Some (CString "statusBar.foreground");
     light := Some (CString "statusBar.foreground");
     hcDark := Some (CString "statusBar.foreground");
     hcLight := Some (CString "statusBar.foreground") |});
  ("statusBarItem.prominentBackground",
   Some {|
     dark := Some (CTransform (transparent (CString "#000000") (5 # 10)));
     light := Some (CTransform (transparent (CString "#000000") (5 # 10)));
     hcDark := Some (CTransform (transparent (CString "#000000") (5 # 10)));
     hcLight := Some (CTransform (transparent (CString "#000000") (5 # 10)))
         |});
  ("statusBarItem.prominentHoverBackground",
   Some {|
     dark := Some (CTransform (transparent (CString "#000000") (3 # 10)));
     light := Some (CTransform (transparent (CString "#000000") (3 # 10)));
     hcDark := Some (CTransform (transparent (CString "#000000") (3 # 10)));
     hcLight := None |});
  ("statusBarItem.errorBackground",
   Some {|
     dark := Some (CTransform (darken (CString "errorForeground") (4 # 10)));
     light := Some (CTransform (darken (CString "errorForeground") (4 # 10)));
     hcDark := None;
     hcLight := Some (CString "#B5200D") |});
  ("statusBarItem.errorForeground",
   Some {|
     dark := Some (CString "#ffffff");
     light := Some (CString "#ffffff");
     hcDark := Some (CString "#ffffff");
     hcLight := Some (CString "#ffffff") |});
  ("statusBarItem.warningBackground",
   Some {|
     dark := Some (CTransform (darken (CString "editorWarning.foreground")
         (4 # 10)));
     light := Some (CTransform (darken (CString "editorWarning.foreground")
         (4 # 10)));
     hcDark := None;
     hcLight := Some (CString "#895503") |});
  ("statusBarItem.warningForeground",
   Some {|
     dark := Some (CString "#ffffff");
     light := Some (CString "#ffffff");
     hcDark := Some (CString "#ffffff");
     hcLight := Some (CString "#ffffff") |});
  ("activityBar.background",
   Some {|
     dark := Some (CString "#333333");
     light := Some (CString "#2C2C2C");
     hcDark := Some (CString "#000000");
     hcLight := Some (CString "#FFFFFF") |});
  ("activityBar.foreground",
   Some {|
     dark := Some (CString "#ffffff");
     light := Some (CString "#ffffff");
     hcDark := Some (CString "#ffffff");
     hcLight := Some (CString "editor.foreground") |});
  ("activityBar.inactiveForeground",
   Some {|
     dark := Some (CTransform (transparent (CString "activityBar.foreground")
         (4 # 10)));
     light := Some (CTransform (transparent (CString "activityBar.foreground")
         (4 # 10)));
     hcDark := Some (CString "#ffffff");
     hcLight := Some (CString "editor.foreground") |});
  ("activityBar.border",
   Some {|
     dark := None;
     light := None;
     hcDark := Some (CString "contrastBorder");
     hcLight := Some (CString "contrastBorder") |});
  ("activityBar.activeBorder",
   Some {|
     dark := Some (CString "activityBar.foreground");
     light := Some (CString "activityBar.foreground");
     hcDark := None;
     hcLight := Some (CString "contrastBorder") |});
  ("activityBar.activeFocusBorder",
   Some {|
     dark := None;
     light := None;
     hcDark := None;
     hcLight := Some (CString "#B5200D") |});
  ("activityBar.activeBackground",
   Some {|
     dark := None;
     light := None;
     hcDark := None;
     hcLight := None |});
  ("activityBar.dropBorder",
   Some {|
     dark := Some (CString "activityBar.foreground");
     light := Some (CString "activityBar.foreground");
     hcDark := None;
     hcLight := None |});
  ("activityBarBadge.background",
   Some {|
     dark := Some (CString "#007ACC");
     light := Some (CString "#007ACC");
     hcDark := Some (CString "#000000");
     hcLight := Some (CString "#0F4A85") |});
  ("activityBarBadge.foreground",
   Some {|
     dark := Some (CString "#ffffff");
     light := Some (CString "#ffffff");
     hcDark := Some (CString "#ffffff");
     hcLight := Some (CString "#ffffff") |});
  ("activityBarItem.profilesForeground",
   Some {|
     dark := Some (CString "activityBar.inactiveForeground");
     light := Some (CString "activityBar.inactiveForeground");
     hcDark := Some (CString "activityBar.inactiveForeground");
     hcLight := Some (CString "activityBar.inactiveForeground") |});
  ("activityBarItem.profilesHoverForeground",
   Some {|
     dark := Some (CString "activityBar.foreground");
     light := Some (CString "activityBar.foreground");
     hcDark := Some (CString "activityBar.foreground");
     hcLight := Some (CString "activityBar.foreground") |});
  ("activityBarItem.profilesBackground",
   Some {|
     dark := Some (CTransform (lighten (CString "activityBar.background")
         (5 # 10)));
     light := Some (CTransform (darken (CString "activityBar.background")
         (12 # 100)));
     hcDark := None;
     hcLight := None |});
  ("statusBarItem.remoteBackground",
   Some {|
     dark := Some (CString "activityBarBadge.background");
     light := Some (CString "activityBarBadge.background");
     hcDark := Some (CString "activityBarBadge.background");
     hcLight := Some (CString "activityBarBadge.background") |});
  ("statusBarItem.remoteForeground",
   Some {|
     dark := Some (CString "activityBarBadge.foreground");
     light := Some (CString "activityBarBadge.foreground");
     hcDark := Some (CString "activityBarBadge.foreground");
     hcLight := Some (CString "activityBarBadge.foreground") |});
  ("extensionBadge.remoteBackground",
   Some {|
     dark := Some (CString "activityBarBadge.background");
     light := Some (CString "activityBarBadge.background");
     hcDark := Some (CString "activityBarBadge.background");
     hcLight := Some (CString "activityBarBadge.background") |});
  ("extensionBadge.remoteForeground",
   Some {|
     dark := Some (CString "activityBarBadge.foreground");
     light := Some (CString "activityBarBadge.foreground");
     hcDark := Some (CString "activityBarBadge.foreground");
     hcLight := Some (CString "activityBarBadge.foreground") |});
  ("sideBar.background",
   Some {|
     dark := Some (CString "#252526");
     light := Some (CString "#F3F3F3");
     hcDark := Some (CString "#000000");
     hcLight := Some (CString "#FFFFFF") |});
  ("sideBar.foreground",
   Some {|
     dark := None;
     light := None;
     hcDark := None;
     hcLight := None |});
  ("sideBar.border",
   Some {|
     dark := None;
     light := None;
     hcDark := Some (CString "contrastBorder");
     hcLight := Some (CString "contrastBorder") |});
  ("sideBarTitle.foreground",
   Some {|
     dark := Some (CString "sideBar.foreground");
     light := Some (CString "sideBar.foreground");
     hcDark := Some (CString "sideBar.foreground");
     hcLight := Some (CString "sideBar.foreground") |});
  ("sideBar.dropBackground",
   Some {|
     dark := Some (CString "editorGroup.dropBackground");
     light := Some (CString "editorGroup.dropBackground");
     hcDark := Some (CString "editorGroup.dropBackground");
     hcLight := Some (CString "editorGroup.dropBackground") |});
  ("sideBarSectionHeader.background",
   Some {|
     dark := Some (CString (Color_fromHex_transparent "#808080" (2 # 10)));
     light := Some (CString (Color_fromHex_transparent "#808080" (2 # 10)));
     hcDark := None;
     hcLight := None |});
  ("sideBarSectionHeader.foreground",
   Some {|
     dark := Some (CString "sideBar.foreground");
     light := Some (CString "sideBar.foreground");
     hcDark := Some (CString "sideBar.foreground");
     hcLight := Some (CString "sideBar.foreground") |});
  ("sideBarSectionHeader.border",
   Some {|
     dark := Some (CString "contrastBorder");
     light := Some (CString "contrastBorder");
     hcDark := Some (CString "contrastBorder");
     hcLight := Some (CString "contrastBorder") |});
  ("titleBar.activeForeground",
   Some {|
     dark := Some (CString "#CCCCCC");
     light := Some (CString "#333333");
     hcDark := Some (CString "#FFFFFF");
     hcLight := Some (CString "#292929") |});
  ("titleBar.inactiveForeground",
   Some {|
     dark := Some (CTransform (transparent
         (CString "titleBar.activeForeground") (6 # 10)));
     light := Some (CTransform (transparent
         (CString "titleBar.activeForeground") (6 # 10)));
     hcDark := None;
     hcLight := Some (CString "#292929") |});
  ("titleBar.activeBackground",
   Some {|
     dark := Some (CString "#3C3C3C");
     light := Some (CString "#DDDDDD");
     hcDark := Some (CString "#000000");
     hcLight := Some (CString "#FFFFFF") |});
  ("titleBar.inactiveBackground",
   Some {|
     dark := Some (CTransform (transparent
         (CString "titleBar.activeBackground") (6 # 10)));
     light := Some (CTransform (transparent
         (CString "titleBar.activeBackground") (6 # 10)));
     hcDark := None;
     hcLight := None |});
  ("titleBar.border",
   Some {|
     dark := None;
     light := None;
     hcDark := Some (CString "contrastBorder");
     hcLight := Some (CString "contrastBorder") |});
  ("menubar.selectionForeground",
   Some {|
     dark := Some (CString "titleBar.activeForeground");
     light := Some (CString "titleBar.activeForeground");
     hcDark := Some (CString "titleBar.activeForeground");
     hcLight := Some (CString "titleBar.activeForeground") |});
  ("menubar.selectionBackground",
   Some {|
     dark := Some (CString "toolbar.hoverBackground");
     light := Some (CString "toolbar.hoverBackground");
     hcDark := None;
     hcLight := None |});
  ("menubar.selectionBorder",
   Some {|
     dark := None;
     light := None;
     hcDark := Some (CString "contrastActiveBorder");
     hcLight := Some (CString "contrastActiveBorder") |});
  ("notificationCenter.border",
   Some {|
     dark := Some (CString "widget.border");
     light := Some (CString "widget.border");
     hcDark := Some (CString "contrastBorder");
     hcLight := Some (CString "contrastBorder") |});
  ("notificationToast.border",
   Some {|
     dark := Some (CString "widget.border");
     light := Some (CString "widget.border");
     hcDark := Some (CString "contrastBorder");
     hcLight := Some (CString "contrastBorder") |});
  ("notifications.foreground",
   Some {|
     dark := Some (CString "editorWidget.foreground");
     light := Some (CString "editorWidget.foreground");
     hcDark := Some (CString "editorWidget.foreground");
     hcLight := Some (CString "editorWidget.foreground") |});
  ("notifications.background",
   Some {|
     dark := Some (CString "editorWidget.background");
     light := Some (CString "editorWidget.background");
     hcDark := Some (CString "editorWidget.background");
     hcLight := Some (CString "editorWidget.background") |});
  ("notificationLink.foreground",
   Some {|
     dark := Some (CString "textLink.foreground");
     light := Some (CString "textLink.foreground");
     hcDark := Some (CString "textLink.foreground");
     hcLight := Some (CString "textLink.foreground") |});
  ("notificationCenterHeader.foreground",
   Some {|
     dark := None;
     light := None;
     hcDark := None;
     hcLight := None |});
  ("notificationCenterHeader.background",
   Some {|
     dark := Some (CTransform (lighten (CString "notifications.background")
         (3 # 10)));
     light := Some (CTransform (darken (CString "notifications.background")
         (5 # 100)));
     hcDark := Some (CString "notifications.background");
     hcLight := Some (CString "notifications.background") |});
  ("notifications.border",
   Some {|
     dark := Some (CString "notificationCenterHeader.background");
     light := Some (CString "notificationCenterHeader.background");
     hcDark := Some (CString "notificationCenterHeader.background");
     hcLight := Some (CString "notificationCenterHeader.background") |});
  ("notificationsErrorIcon.foreground",
   Some {|
     dark := Some (CString "editorError.foreground");
     light := Some (CString "editorError.foreground");
     hcDark := Some (CString "editorError.foreground");
     hcLight := Some (CString "editorError.foreground") |});
  ("notificationsWarningIcon.foreground",
   Some {|
     dark := Some (CString "editorWarning.foreground");
     light := Some (CString "editorWarning.foreground");
     hcDark := Some (CString "editorWarning.foreground");
     hcLight := Some (CString "editorWarning.foreground") |});
  ("notificationsInfoIcon.foreground",
   Some {|
     dark := Some (CString "editorInfo.foreground");
     light := Some (CString "editorInfo.foreground");
     hcDark := Some (CString "editorInfo.foreground");
     hcLight := Some (CString "editorInfo.foreground") |});
  ("window.activeBorder",
   Some {|
     dark := None;
     light := None;
     hcDark := Some (CString "contrastBorder");
     hcLight := Some (CString "contrastBorder") |});
  ("window.inactiveBorder",
   Some {|
     dark := None;
     light := None;
     hcDark := Some (CString "contrastBorder");
     hcLight := Some (CString "contrastBorder") |})
].

(** [schemes] once [base.ts] is loaded. *)
Definition schemes : Schemes :=
  foldl (fun schemes '(id, defaults) => (registerColor id defaults schemes).2)
    emptySchemes registrations.

End Registry.


(** ** Vocabulary of the properties *)

(** [resolves Math_pow theme arg o]: the call
    [resolveColorValue(arg, theme)] comes back with [o]. *)
Definition resolves (Math_pow : Q -> Q -> Q) (theme : Theme) (arg : Arg)
    (o : Outcome) : Prop :=
  exists fuel, resolveColorValue Math_pow fuel arg theme = Some o.

(** The identifiers a colour value refers to: its strings that do not
    start with [#]. *)
Fixpoint refsValue (v : ColorValue) : list string :=
  match v with
  | CString s => if startsWithHash s then [] else [s]
  | CTransform t => refsTransform t
  end
with refsTransform (t : ColorTransform) : list string :=
  match t with
  | Darken v _ => refsValue v
  | Lighten v _ => refsValue v
  | Transparent v _ => refsValue v
  | OneOf values =>
      (fix refsList (l : list ColorValue) : list string :=
         match l with
         | [] => []
         | c :: rest => refsValue c ++ refsList rest
         end) values
  | LessProminent v background _ _ => refsValue v ++ refsValue background
  | IfDefinedThenElse _ then_ else_ => refsValue then_ ++ refsValue else_
  end.

(** [rank] orders the identifiers of [theme]: every identifier that the
    value of an entry refers to ranks strictly below the entry's own.
    A context has such a ranking exactly when its references form no
    cycle. *)
Definition RankedBy (rank : string -> nat) (theme : Theme) : Prop :=
  map_Forall (fun id v => Forall (fun j => (rank j < rank id)%nat) (refsValue v))
    (entries theme).


(** [#] followed by exactly six lowercase hexadecimal digits. *)
Definition isLowerHexDigit (c : ascii) : bool :=
  let n := Z.of_nat (nat_of_ascii c) in
  ((48 <=? n)%Z && (n <=? 57)%Z) || ((97 <=? n)%Z && (n <=? 102)%Z).

Definition isRRGGBB (s : string) : bool :=
  match s with
  | String "#"%char digits =>
      (String.length digits =? 6)%nat
      && forallb isLowerHexDigit (list_ascii_of_string digits)
  | _ => false
  end.

(** [literalIn s v]: the string [s] is written in the colour value [v]. *)
Inductive literalIn (s : string) : ColorValue -> Prop :=
| lit_string : literalIn s (CString s)
| lit_darken v f : literalIn s v -> literalIn s (CTransform (Darken v f))
| lit_lighten v f : literalIn s v -> literalIn s (CTransform (Lighten v f))
| lit_transparent v f :
    literalIn s v -> literalIn s (CTransform (Transparent v f))
| lit_oneOf values c :
    c ∈ values -> literalIn s c -> literalIn s (CTransform (OneOf values))
| lit_value v b f t :
    literalIn s v -> literalIn s (CTransform (LessProminent v b f t))
| lit_background v b f t :
    literalIn s b -> literalIn s (CTransform (LessProminent v b f t))
| lit_then i t e :
    literalIn s t -> literalIn s (CTransform (IfDefinedThenElse i t e))
| lit_else i t e :
    literalIn s e -> literalIn s (CTransform (IfDefinedThenElse i t e)).

(** [s] is written in the value being resolved or in an entry of the
    context. *)
Definition writtenIn (theme : Theme) (arg : Arg) (s : string) : Prop :=
  (exists v, arg = value v /\ literalIn s v)
  \/ (exists id v, entries theme !! id = Some v /\ literalIn s v).

(** The channels of a [tinycolor2] instance lie in [0, 255]. *)
Definition inRange (c : TinyColor.Instance) : Prop :=
  (0 <= TinyColor._r c <= 255) /\ (0 <= TinyColor._g c <= 255)
  /\ (0 <= TinyColor._b c <= 255).


(** The scopes [matchScope] loops over. *)
Definition listedScopes (scopes : option Scope) : list string :=
  match scopes with
  | Some (ScopeString s) => [s]
  | Some (ScopeArray l) => l
  | None => []
  end.


(** [safeValue ok v]: [v] holds no [IfDefinedThenElse], and every
    identifier it refers to is [ok]. *)
Fixpoint safeValue (ok : string -> bool) (v : ColorValue) : bool :=
  match v with
  | CString s => startsWithHash s || ok s
  | CTransform t => safeTransform ok t
  end
with safeTransform (ok : string -> bool) (t : ColorTransform) : bool :=
  match t with
  | Darken v _ => safeValue ok v
  | Lighten v _ => safeValue ok v
  | Transparent v _ => safeValue ok v
  | OneOf values =>
      (fix safeList (l : list ColorValue) : bool :=
         match l with
         | [] => true
         | c :: rest => safeValue ok c && safeList rest
         end) values
  | LessProminent v background _ _ => safeValue ok v && safeValue ok background
  | IfDefinedThenElse _ _ _ => false
  end.

(** The entries of the [ok] identifiers are safe, and [__proto__], when
    it is [ok], is an own property of the theme. *)
Definition SafeTheme (ok : string -> bool) (theme : Theme) : Prop :=
  map_Forall (fun id v => ok id = true -> safeValue ok v = true) (entries theme)
  /\ (ok "__proto__" = true -> entries theme !! "__proto__" <> None).

Definition safeThemeb (ok : string -> bool) (table : gmap string ColorValue) : bool :=
  forallb (fun p : string * ColorValue => implb (ok p.1) (safeValue ok p.2))
    (map_to_list table).

Definition rankedByb (rank : string -> nat) (table : gmap string ColorValue) : bool :=
  forallb (fun p : string * ColorValue =>
             forallb (fun j => (rank j <? rank p.1)%nat) (refsValue p.2))
    (map_to_list table).

(** The position of an identifier in a list, counted from [n]; 0 when it
    is not in the list. *)
Fixpoint rankFrom (n : nat) (ids : list string) (id : string) : nat :=
  match ids with
  | [] => 0%nat
  | i :: rest => if String.eqb i id then n else rankFrom (S n) rest id
  end.

(** The rank of an identifier: the number of the call of [registerColor]
    that registers it, 0 when there is none. *)
Definition registrationRank (id : string) : nat :=
  rankFrom 1 (map fst Registry.registrations) id.

(** The one default that calls [theme.defines]. *)
Definition needsDefines (variant : Variant) (id : string) : bool :=
  match variant with
  | Light => String.eqb id "list.focusHighlightForeground"
  | _ => false
  end.

(** The identifiers whose default, when they have one, resolves within
    the colours of the table: all but the one that needs
    [theme.defines], and [__proto__], which names no colour. *)
Definition resolvable (variant : Variant) (id : string) : bool :=
  negb (needsDefines variant id) && negb (String.eqb id "__proto__").

(** Every override of the theme is a string starting with [#]. *)
Definition literalOverrides (theme : VSCodeTheme) : Prop :=
  map_Forall (fun (_ : string) s => startsWithHash s = true) (colors theme).

(** [#] followed by 3, 4, 6 or 8 hexadecimal digits. *)
Definition isHexDigit (c : ascii) : bool :=
  match TinyColor.hexDigit c with Some _ => true | None => false end.

Definition isHexColor (s : string) : bool :=
  match s with
  | String "#"%char digits =>
      forallb isHexDigit (list_ascii_of_string digits)
      && match String.length digits with
         | 3%nat | 4%nat | 6%nat | 8%nat => true
         | _ => false
         end
  | _ => false
  end.

(** The strings starting with [#] written in a colour value. *)
Fixpoint literalsOf (v : ColorValue) : list string :=
  match v with
  | CString s => if startsWithHash s then [s] else []
  | CTransform t => literalsOfTransform t
  end
with literalsOfTransform (t : ColorTransform) : list string :=
  match t with
  | Darken v _ => literalsOf v
  | Lighten v _ => literalsOf v
  | Transparent v _ => literalsOf v
  | OneOf values =>
      (fix literalsList (l : list ColorValue) : list string :=
         match l with
         | [] => []
         | c :: rest => literalsOf c ++ literalsList rest
         end) values
  | LessProminent v background _ _ => literalsOf v ++ literalsOf background
  | IfDefinedThenElse _ then_ else_ => literalsOf then_ ++ literalsOf else_
  end.


(** The identifiers the theme overrides. *)
Definition overridden (theme : VSCodeTheme) (id : string) : bool :=
  match colors theme !! id with Some _ => true | None => false end.

(** The exception [getColor(id)] ends with, for the table of [base.ts]
    and a theme whose overrides are literals: none for an identifier the
    theme overrides; otherwise the [TypeError] of [theme.defines] for the
    default that calls it, and the [Error] of [executeTransform] for
    [__proto__]. *)
Definition getColorThrows (theme : VSCodeTheme) (id : string) : option Exception :=
  if overridden theme id then None
  else if needsDefines (default Light (type_ theme)) id then Some TypeError
  else if String.eqb id "__proto__" then Some (Error "Invalid transform")
  else None.


(** The two registered literals that are no hexadecimal colour. *)
Definition knownTypo (key : Variant) (id s : string) : bool :=
  match key with
  | HcDark => String.eqb id "editorWarning.foreground" && String.eqb s "#FFD37"
  | HcLight => String.eqb id "editorWarning.border" && String.eqb s "#"
  | _ => false
  end.

Definition literalsOkb (key : Variant) (table : gmap string ColorValue) : bool :=
  forallb (fun p : string * ColorValue =>
             forallb (fun s => isHexColor s || knownTypo key p.1 s) (literalsOf p.2))
    (map_to_list table).



(** The lowercase form of a hexadecimal digit. *)
Definition lowerDigit (c : ascii) : ascii :=
  let n := nat_of_ascii c in
  if (65 <=? n)%nat && (n <=? 70)%nat then ascii_of_nat (n + 32) else c.

(** [opaqueForm color]: a hexadecimal colour without its alpha, as [#]
    and six lowercase hexadecimal digits.  The digits of [#rrggbb] and
    [#rrggbbaa] are put in lowercase, each channel digit of [#rgb] and
    [#rgba] is doubled.  (Any other string is given opaque black, the
    colour of an unparsable string in the model of [tinycolor2].) *)
Definition opaqueForm (color : string) : string :=
  match color with
  | String "#"%char digits =>
      let l := list_ascii_of_string digits in
      if forallb isHexDigit l then
        match map lowerDigit l with
        | [r; g; b] | [r; g; b; _] =>
            string_of_list_ascii ["#"%char; r; r; g; g; b; b]
        | [r1; r2; g1; g2; b1; b2] | [r1; r2; g1; g2; b1; b2; _; _] =>
            string_of_list_ascii ["#"%char; r1; r2; g1; g2; b1; b2]
        | _ => "#000000"
        end
      else "#000000"
  | _ => "#000000"
  end.


(** ** Closed examples

    The luminance calls [Math.pow] only for a channel above 10 (sRGB
    value above 0.03928).  The closed examples that compute a luminance
    keep every channel at or below 10, so no value of [Math.pow] enters
    them; where a function has to be supplied they use this one, and the
    lemmas they instantiate hold for every choice. *)
Definition Math_pow_unused (base exponent : Q) : Q := base.

(** [A -> "B"], [B -> "A"]: a cyclic chain of identifiers. *)
Definition cyclicTheme : Theme :=
  plainObject (<["A" := CString "B"]> (<["B" := CString "A"]> ∅)).

(** [A -> "#112233"], [B -> "A"]: a reference chain. *)
Definition chainTheme : Theme :=
  plainObject (<["A" := CString "#112233"]> (<["B" := CString "A"]> ∅)).

(** ** A fragment of the registry

    Four of the [registerColor] calls of [base.ts], in source order.  No
    identifier is registered twice in [base.ts], so the entries they write
    are those of the full registry. *)

Definition Color_white : string := "#ffffff".

Definition registrations : list (string * option ColorDefaults) :=
  [ ("foreground",
     Some (mkPerVariant (Some (CString "#616161")) (Some (CString "#CCCCCC"))
             (Some (CString "#FFFFFF")) (Some (CString "#292929"))));
    ("badge.foreground",
     Some (mkPerVariant (Some (CString "#333")) (Some (CString Color_white))
             (Some (CString Color_white)) (Some (CString Color_white))));
    ("editorWarning.foreground",
     Some (mkPerVariant (Some (CString "#BF8803")) (Some (CString "#CCA700"))
             (Some (CString "#FFD37")) (Some (CString "#895503"))));
    ("editorWarning.border",
     Some (mkPerVariant None None
             (Some (CString (Color_fromHex_transparent "#FFCC00" (8 # 10))))
             (Some (CString "#")))) ].

Definition registryFragment : Schemes :=
  foldl (fun schemes '(id, defaults) => (registerColor id defaults schemes).2)
    emptySchemes registrations.

(** A theme file that only selects a variant. *)
Definition bareTheme (variant : Variant) : VSCodeTheme :=
  mkVSCodeTheme (Some variant) "bare" ∅ None [].

(** A derived theme and the base theme it includes. *)
Definition ruleFor (s : string) : TokenColor :=
  mkTokenColor (ScopeString s) (mkSettings (Some "#000000") false false false None).

Definition includedExample : VSCodeTheme :=
  mkVSCodeTheme (Some Dark) "base"
    (<["editor.background" := "#222222"]> (<["foreground" := "#333333"]> ∅))
    None [ruleFor "X"; ruleFor "Y"].

Definition derivedExample : VSCodeTheme :=
  mkVSCodeTheme None "derived"
    (<["editor.background" := "#111111"]> ∅)
    (Some "./base.json") [ruleFor "Z"].


(** ** JavaScript strings

    A string is a sequence of code units; the strings at hand (colour
    literals, scope names) are ASCII, one character per code unit. *)

Module JsString.

(** [s.slice(start, end)], [end] left out when [None]: a negative index
    counts from the end, and both are clamped to the string. *)
Definition slice (s : string) (start : Z) (end_ : option Z) : string :=
  let len := Z.of_nat (String.length s) in
  let clamp (i : Z) := if (i <? 0)%Z then Z.max (len + i) 0 else Z.min i len in
  let from := clamp start in
  let to := match end_ with Some e => clamp e | None => len end in
  substring (Z.to_nat from) (Z.to_nat (Z.max (to - from) 0)) s.

(** [s.split(".*")[0]]: what precedes the first occurrence of [.*], the
    whole string when there is none. *)
Fixpoint beforeDotStar (s : string) : string :=
  match s with
  | String "."%char (String "*"%char _) => EmptyString
  | String c rest => String c (beforeDotStar rest)
  | EmptyString => EmptyString
  end.

(** [s.includes(".*")] *)
Fixpoint includesDotStar (s : string) : bool :=
  match s with
  | String "."%char (String "*"%char _) => true
  | String _ rest => includesDotStar rest
  | EmptyString => false
  end.

End JsString.

(** ** utils.ts *)

(** [matchScope(scopes, matchText)].  [scopes] may be missing
    ([arrayScopes || []]); the result, [true] or [undefined], is used as
    a condition only and is a [bool] here. *)
Definition matchScope (scopes : option Scope) (matchText : string) : bool :=
  let arrayScopes :=
    match scopes with
    | Some (ScopeString s) => [s]
    | Some (ScopeArray l) => l
    | None => []
    end in
  let isWildcard := JsString.includesDotStar matchText in
  let exceptWildcard :=
    if isWildcard then JsString.beforeDotStar matchText else matchText in
  existsb (fun scope => String.eqb scope matchText || String.eqb scope exceptWildcard)
    arrayScopes.

(** ** providers/kate.ts *)

Module Kate.

(** [getColor(id)] of [kate.ts]: a colour of nine code units has its last
    two (the alpha digits of [#RRGGBBAA]) moved to the front. *)
Definition getColor (Math_pow : Q -> Q -> Q) (fuel : nat) (schemes : Schemes)
    (theme : VSCodeTheme) (id : string) : option Outcome :=
  withColor
    (resolveColorValue Math_pow fuel (value (CString id))
       (plainObject (themeColors schemes theme)))
    (fun color =>
       if (String.length color =? 9)%nat then
         let alpha := JsString.slice color (-2) None in
         let nonAlpha := JsString.slice color 1 (Some (-2)%Z) in
         Some (Ret (Some ("#" +:+ alpha +:+ nonAlpha)))
       else Some (Ret (Some color))).

(** [type KateTextStyle], with the properties [toKateStyle] sets; a
    property holding [undefined] is [None]. *)
Record KateTextStyle := mkKateTextStyle {
  text_color : option string;
  selected_text_color : option string;
  kbold : option bool;
  kitalic : option bool;
  kunderline : option bool
}.

(** [flag || undefined] *)
Definition orUndefined (flag : bool) : option bool :=
  if flag then Some true else None.

Definition fontStyleIs (settings : Settings) (which : FontStyle) : bool :=
  match fontStyle settings, which with
  | Some Bold, Bold | Some Italic, Italic | Some Underline, Underline => true
  | _, _ => false
  end.

(** The object [toKateStyle] returns for the rule it found. *)
Definition styleOf (style : TokenColor) : KateTextStyle :=
  let isBold := bold (settings style) || fontStyleIs (settings style) Bold in
  let isItalic := italic (settings style) || fontStyleIs (settings style) Italic in
  let isUnderline :=
    underline (settings style) || fontStyleIs (settings style) Underline in
  mkKateTextStyle (foreground (settings style)) (foreground (settings style))
    (orUndefined isBold) (orUndefined isItalic) (orUndefined isUnderline).

(** [theme.tokenColors.find((a) => matchScope(a.scope, id))] *)
Definition findStyle (theme : VSCodeTheme) (id : string) : option TokenColor :=
  List.find (fun a => matchScope (Some (scope a)) id) (tokenColors theme).

(** [toKateStyle(id)].  The recursive call, made with ["variable"] when
    no rule matches another [id], cannot recurse again; it is written
    out. *)
Definition toKateStyle (theme : VSCodeTheme) (id : string) : option KateTextStyle :=
  match findStyle theme id with
  | Some style => Some (styleOf style)
  | None =>
      if negb (String.eqb id "variable") then
        match findStyle theme "variable" with
        | Some style => Some (styleOf style)
        | None => None
        end
      else None
  end.

(** [a || b], each a style object or [undefined]. *)
Definition orStyle (a b : option KateTextStyle) : option KateTextStyle :=
  match a with
  | Some style => Some style
  | None => b
  end.

(** An entry of ["text-styles"]: [toKateStyle(id)], or
    [toKateStyle(id) || toKateStyle(alternative)]. *)
Definition textStyle (theme : VSCodeTheme) (id : string)
    (alternative : option string) : option KateTextStyle :=
  match alternative with
  | None => toKateStyle theme id
  | Some other => orStyle (toKateStyle theme id) (toKateStyle theme other)
  end.

(** The entries of ["text-styles"] that [toKateStyle] computes, in the
    order of the object literal: the name, the scope asked for, and the
    scope of the alternative.  ([Information], [Alert] and
    [RegionMarker], written out in [convert], are not among them.) *)
Definition textStyleScopes : list (string * (string * option string)) := [
  ("Normal", ("variable", None));
  ("Others", ("variable", None));
  ("Comment", ("comment", None));
  ("Keyword", ("keyword", None));
  ("ControlFlow", ("keyword.control", Some "keyword"));
  ("Function", ("entity.name.function", None));
  ("String", ("string", None));
  ("VerbatimString", ("markup.raw", None));
  ("SpecialString", ("string.regexp", None));
  ("SpecialChar", ("constant.character.escape", Some "constant.character"));
  ("Char", ("constant.character", None));
  ("Import", ("keyword.control", Some "keyword"));
  ("Constant", ("variable.other.constant", None));
  ("Float", ("constant.numeric", None));
  ("DecVal", ("constant.numeric", None));
  ("BaseN", ("constant.numeric", None));
  ("DataType", ("support.type", None));
  ("Operator", ("keyword.operator.*", Some "keyword"));
  ("Variable", ("variable", None));
  ("BuiltIn", ("variable", None));
  ("Extension", ("support.class", None));
  ("Preprocessor", ("meta.preprocessor", None));
  ("Attribute", ("variable", None));
  ("Error", ("invalid", None));
  ("Annotation", ("keyword", None));
  ("Warning", ("keyword", None));
  ("CommentVar", ("variable", None));
  ("Documentation", ("comment.block.documentation", Some "comment.*"))
].

Definition textStyles (theme : VSCodeTheme)
    : list (string * option KateTextStyle) :=
  map (fun entry : string * (string * option string) =>
         (entry.1, textStyle theme entry.2.1 entry.2.2))
    textStyleScopes.

End Kate.


(** * Properties *)

Section Properties.

Variable Math_pow : Q -> Q -> Q.

Local Abbreviation resolves := (resolves Math_pow).

(** *** Unfolding equations *)

Lemma resolve_S fuel arg theme :
  resolveColorValue Math_pow (S fuel) arg theme =
  match arg with
  | null => Some (Ret None)
  | value (CString s) =>
      if startsWithHash s then Some (Ret (Some s))
      else resolveColorValue Math_pow fuel (themeGet theme s) theme
  | value (CTransform t) => executeTransform Math_pow fuel t theme
  | objectPrototype => executeTransform Math_pow fuel ObjectPrototype theme
  | undefined => Some (Ret None)
  | inheritedFunction => Some (Ret None)
  end.
Proof. reflexivity. Qed.

Lemma execute_S fuel transform theme :
  executeTransform Math_pow (S fuel) transform theme =
  match transform with
  | Transform (Darken v factor) =>
      withColor (resolveColorValue Math_pow fuel (value v) theme) (fun color =>
        Some (Ret (Some (TinyColor.toHexString
          (TinyColor.darken (TinyColor.tinycolor2 color) (Js.Fin factor))))))
  | Transform (Lighten v factor) =>
      withColor (resolveColorValue Math_pow fuel (value v) theme) (fun color =>
        Some (Ret (Some (TinyColor.toHexString
          (TinyColor.lighten (TinyColor.tinycolor2 color) (Js.Fin factor))))))
  | Transform (Transparent v factor) =>
      withColor (resolveColorValue Math_pow fuel (value v) theme) (fun color =>
        Some (Ret (Some (TinyColor.toHexString
          (TinyColor.setAlpha (TinyColor.tinycolor2 color) factor)))))
  | Transform (OneOf values) =>
      oneOfLoop
        (fun candidate => resolveColorValue Math_pow fuel (value candidate) theme)
        values
  | Transform (IfDefinedThenElse if_ then_ else_) =>
      match defines theme with
      | None => Some (Throw TypeError)
      | Some theme_defines =>
          resolveColorValue Math_pow fuel
            (value (if theme_defines if_ then then_ else else_)) theme
      end
  | Transform (LessProminent v background factor transparency) =>
      withColor (resolveColorValue Math_pow fuel (value v) theme) (fun from =>
        match resolveColorValue Math_pow fuel (value background) theme with
        | None => None
        | Some (Throw e) => Some (Throw e)
        | Some (Ret backgroundColor) =>
            match truthy backgroundColor with
            | None =>
                Some (Ret (Some (TinyColor.toHexString
                  (TinyColor.setAlpha (TinyColor.tinycolor2 from)
                     (factor * transparency)))))
            | Some backgroundColor =>
                let tFrom := TinyColor.tinycolor2 from in
                let tBg := TinyColor.tinycolor2 backgroundColor in
                if Js.ltb (TinyColor.getLuminance Math_pow tFrom)
                          (TinyColor.getLuminance Math_pow tBg)
                then Some (Ret (Some (TinyColor.toHexString
                       (TinyColor.setAlpha
                          (getLighterColor Math_pow tFrom tBg factor)
                          transparency))))
                else Some (Ret (Some (TinyColor.toHexString
                       (TinyColor.setAlpha
                          (getDarkerColor Math_pow tFrom tBg factor)
                          transparency))))
            end
        end)
  | ObjectPrototype => Some (Throw (Error "Invalid transform"))
  end.
Proof. reflexivity. Qed.

(** *** More fuel never changes an outcome *)

Lemma withColor_mono call call' k o :
  (forall o', call = Some o' -> call' = Some o') ->
  withColor call k = Some o -> withColor call' k = Some o.
Proof.
  intros Hc. unfold withColor.
  destruct call as [o'|]; [|discriminate].
  rewrite (Hc o' eq_refl). trivial.
Qed.

Lemma oneOfLoop_mono (f g : ColorValue -> option Outcome) values o :
  (forall v o', f v = Some o' -> g v = Some o') ->
  oneOfLoop f values = Some o -> oneOfLoop g values = Some o.
Proof.
  intros Hfg. induction values as [|c rest IH]; simpl; [trivial|].
  destruct (f c) as [o'|] eqn:Hf; [|discriminate].
  rewrite (Hfg c o' Hf).
  destruct o' as [color|e]; [|trivial].
  destruct (truthy color); auto.
Qed.

Lemma fuel_S fuel :
  (forall arg theme o, resolveColorValue Math_pow fuel arg theme = Some o ->
       resolveColorValue Math_pow (S fuel) arg theme = Some o) /\
  (forall t theme o, executeTransform Math_pow fuel t theme = Some o ->
                     executeTransform Math_pow (S fuel) t theme = Some o).
Proof.
  induction fuel as [|fuel [IHr IHe]]; [split; intros; discriminate|].
  split.
  - intros arg theme o. rewrite (resolve_S (S fuel)), (resolve_S fuel).
    destruct arg as [| |[s|t]| |]; auto.
    destruct (startsWithHash s); auto.
  - intros t theme o. rewrite (execute_S (S fuel)), (execute_S fuel).
    destruct t as [[v f|v f|v f|values|v b f tr|i t e]|]; [| | | | | |trivial].
    + apply withColor_mono; auto.
    + apply withColor_mono; auto.
    + apply withColor_mono; auto.
    + apply oneOfLoop_mono; auto.
    + unfold withColor.
      destruct (resolveColorValue Math_pow fuel (value v) theme) as [o1|] eqn:H1;
        [|discriminate].
      rewrite (IHr _ _ _ H1).
      destruct o1 as [color|]; [|trivial].
      destruct (truthy color); [|trivial].
      destruct (resolveColorValue Math_pow fuel (value b) theme) as [o2|] eqn:H2;
        [|discriminate].
      rewrite (IHr _ _ _ H2). trivial.
    + destruct (defines theme); auto.
Qed.

Lemma fuel_le n m arg theme o :
  (n <= m)%nat ->
  resolveColorValue Math_pow n arg theme = Some o ->
  resolveColorValue Math_pow m arg theme = Some o.
Proof.
  induction 1; [trivial|]. intros H1. apply fuel_S; auto.
Qed.


(** *** The cases of the resolver *)

(** C1 (the code departs from it at one identifier).  A [null] value
    resolves to [undefined]; a string whose first character is [#] is
    returned unchanged by the call itself, with no further resolution;
    any other string is looked up in the context: when present the
    resolver recurses on the value found, when absent the result is
    [undefined], but for [__proto__].  There [theme[colorValue]] is
    [Object.prototype], an object that is no colour transform, and the
    call throws [Error("Invalid transform")]. *)
Theorem resolveColorValue_cases fuel theme :
  resolveColorValue Math_pow (S fuel) null theme = Some (Ret None)
  /\ (forall s, startsWithHash s = true ->
        resolveColorValue Math_pow (S fuel) (value (CString s)) theme
        = Some (Ret (Some s)))
  /\ (forall s, startsWithHash s = false -> entries theme !! s = None ->
        s <> "__proto__" ->
        resolveColorValue Math_pow (S (S fuel)) (value (CString s)) theme
        = Some (Ret None))
  /\ (entries theme !! "__proto__" = None ->
        resolveColorValue Math_pow (S (S (S fuel)))
          (value (CString "__proto__")) theme
        = Some (Throw (Error "Invalid transform")))
  /\ (forall s v, startsWithHash s = false -> entries theme !! s = Some v ->
        resolveColorValue Math_pow (S fuel) (value (CString s)) theme
        = resolveColorValue Math_pow fuel (value v) theme).
Proof.
  repeat split.
  - intros s Hs. rewrite resolve_S, Hs. reflexivity.
  - intros s Hs Hget Hproto. rewrite resolve_S, Hs. unfold themeGet.
    rewrite Hget. apply String.eqb_neq in Hproto. rewrite Hproto.
    destruct (existsb (String.eqb s) prototypeFunctions); reflexivity.
  - intros Hget. rewrite resolve_S. cbn [startsWithHash]. unfold themeGet.
    rewrite Hget. reflexivity.
  - intros s v Hs Hget. rewrite resolve_S, Hs. unfold themeGet. rewrite Hget.
    reflexivity.
Qed.

(** *** IfDefinedThenElse on a plain object *)

(** C2 (the code departs from it).  On the plain object that both
    converters build, [theme.defines] is not a function: the transform
    throws a [TypeError] whatever the identifier and the branches, and
    neither branch is resolved. *)
Theorem ifDefinedThenElse_plain_object_throws fuel props if_ then_ else_ :
  resolveColorValue Math_pow (S (S fuel))
    (value (CTransform (IfDefinedThenElse if_ then_ else_)))
    (plainObject props)
  = Some (Throw TypeError).
Proof. reflexivity. Qed.

(** With a theme object that has the method, the branch is chosen by
    [defines] alone and only that branch is resolved. *)
Lemma ifDefinedThenElse_with_defines fuel props d if_ then_ else_ :
  resolveColorValue Math_pow (S (S fuel))
    (value (CTransform (IfDefinedThenElse if_ then_ else_)))
    (mkTheme props (Some d))
  = resolveColorValue Math_pow fuel (value (if d if_ then then_ else else_))
      (mkTheme props (Some d)).
Proof. reflexivity. Qed.

(** *** Transparent *)

(** [toHexString] prints the three colour channels only: the alpha set
    just before is not part of the string. *)
Lemma toHexString_setAlpha c factor :
  TinyColor.toHexString (TinyColor.setAlpha c factor) = TinyColor.toHexString c.
Proof. reflexivity. Qed.

(** An undefined nested colour is propagated. *)
Lemma transparent_undefined fuel theme v factor :
  resolveColorValue Math_pow fuel (value v) theme = Some (Ret None) ->
  resolveColorValue Math_pow (S (S fuel))
    (value (CTransform (Transparent v factor))) theme
  = Some (Ret None).
Proof.
  intros H. rewrite resolve_S, execute_S, H. reflexivity.
Qed.

Lemma transparent_defined fuel theme v factor c s :
  resolveColorValue Math_pow fuel (value v) theme = Some (Ret (Some (String c s))) ->
  resolveColorValue Math_pow (S (S fuel))
    (value (CTransform (Transparent v factor))) theme
  = Some (Ret (Some
      (TinyColor.toHexString (TinyColor.tinycolor2 (String c s))))).
Proof.
  intros H. rewrite resolve_S, execute_S, H. reflexivity.
Qed.

(** C3 (the code departs from it).  [Transparent("#000000", 0.5)]
    resolves to ["#000000"], the opaque black: the string has no alpha
    digits. *)
Theorem transparent_black_half fuel theme :
  resolveColorValue Math_pow (S (S (S fuel)))
    (value (CTransform (Transparent (CString "#000000") (1 # 2)))) theme
  = Some (Ret (Some "#000000")).
Proof.
  rewrite (transparent_defined (S fuel) theme _ _ "#"%char "000000").
  - vm_compute. reflexivity.
  - reflexivity.
Qed.

(** *** Resolved strings start with [#] *)

Lemma withColor_ret call k s :
  withColor call k = Some (Ret (Some s)) ->
  exists c, call = Some (Ret (Some c)) /\ truthy (Some c) = Some c
            /\ k c = Some (Ret (Some s)).
Proof.
  unfold withColor. destruct call as [[[[|a c]|]|]|]; simpl; try discriminate.
  intros H. exists (String a c). auto.
Qed.

Lemma oneOfLoop_ret f values s :
  oneOfLoop f values = Some (Ret (Some s)) ->
  exists c, c ∈ values /\ f c = Some (Ret (Some s)).
Proof.
  induction values as [|c rest IH]; simpl; [discriminate|].
  destruct (f c) as [[[[|a x]|]|]|] eqn:Hf; simpl; try discriminate.
  - intros H. destruct (IH H) as (c' & Hin & Hc'). exists c'. split; [|trivial].
    apply elem_of_cons; auto.
  - intros H. injection H as <-. exists c. split; [|trivial].
    apply elem_of_cons; auto.
  - intros H. destruct (IH H) as (c' & Hin & Hc'). exists c'. split; [|trivial].
    apply elem_of_cons; auto.
Qed.

Lemma resolved_startsWithHash fuel :
  (forall arg theme s,
      resolveColorValue Math_pow fuel arg theme = Some (Ret (Some s)) ->
                       startsWithHash s = true) /\
  (forall t theme s,
      executeTransform Math_pow fuel t theme = Some (Ret (Some s)) ->
                     startsWithHash s = true).
Proof.
  induction fuel as [|fuel [IHr IHe]]; [split; intros; discriminate|].
  split.
  - intros arg theme s. rewrite resolve_S.
    destruct arg as [| |[x|t]| |]; try discriminate; eauto.
    destruct (startsWithHash x) eqn:Hx; eauto.
    intros H. injection H as <-. trivial.
  - intros t theme s. rewrite execute_S.
    destruct t as [[v f|v f|v f|values|v b f tr|i t e]|]; [| | | | | |discriminate].
    + intros H. apply withColor_ret in H as (c & _ & _ & H).
      injection H as <-. reflexivity.
    + intros H. apply withColor_ret in H as (c & _ & _ & H).
      injection H as <-. reflexivity.
    + intros H. apply withColor_ret in H as (c & _ & _ & H).
      injection H as <-. reflexivity.
    + intros H. apply oneOfLoop_ret in H as (c & _ & H). eauto.
    + intros H. apply withColor_ret in H as (c & _ & _ & H).
      destruct (resolveColorValue Math_pow fuel (value b) theme) as [[bg|]|];
        try discriminate.
      destruct (truthy bg).
      * cbv zeta in H.
        destruct (Js.ltb (TinyColor.getLuminance _ _) _);
          injection H as <-; reflexivity.
      * injection H as <-. reflexivity.
    + destruct (defines theme); [eauto|discriminate].
Qed.

Lemma resolved_truthy fuel arg theme s :
  resolveColorValue Math_pow fuel arg theme = Some (Ret (Some s)) ->
  truthy (Some s) = Some s.
Proof.
  intros H. apply resolved_startsWithHash in H. destruct s; [discriminate|].
  reflexivity.
Qed.

(** *** OneOf *)

(** A list of terminating candidates has a budget that suits them all. *)
Lemma common_fuel theme (Q : ColorValue -> Outcome -> Prop) l :
  Forall (fun p => exists o, Q p o /\ resolves theme (value p) o) l ->
  exists n,
    Forall (fun p => exists o,
              Q p o /\ resolveColorValue Math_pow n (value p) theme = Some o) l.
Proof.
  induction 1 as [|p l (o & HQ & (n & Hn)) _ (m & Hm)].
  - exists 0%nat. constructor.
  - exists (n `max` m). constructor.
    + exists o. split; [trivial|]. apply (fuel_le n); [lia|trivial].
    + eapply Forall_impl; [exact Hm|]. cbv beta.
      intros q (o' & HQ' & Hq). exists o'. split; [trivial|].
      apply (fuel_le m); [lia|trivial].
Qed.

Lemma oneOfLoop_skip f pre rest :
  Forall (fun p => f p = Some (Ret None)) pre ->
  oneOfLoop f (pre ++ rest) = oneOfLoop f rest.
Proof.
  induction 1 as [|p pre Hp _ IH]; simpl; [trivial|]. rewrite Hp. exact IH.
Qed.

(** C5.  The candidates of [OneOf] are resolved in list order and the
    first defined result is returned: when the candidates before [c]
    resolve to [undefined] and [c] resolves to [s], the transform
    resolves to [s] within a budget fixed before the later candidates
    [post] are known, so whatever they are (undefined, throwing,
    diverging) they are not resolved.  When every candidate resolves to
    [undefined] so does the transform.  In particular, for [u] resolving
    to [undefined], [OneOf(u, "#ff0000")] resolves to ["#ff0000"] and
    [OneOf(u, u)] to [undefined]. *)
Theorem oneOf_first_defined theme :
  (forall pre c s,
      Forall (fun p => resolves theme (value p) (Ret None)) pre ->
      resolves theme (value c) (Ret (Some s)) ->
      exists fuel, forall post,
        resolveColorValue Math_pow fuel
          (value (CTransform (OneOf (pre ++ c :: post)))) theme
        = Some (Ret (Some s)))
  /\ (forall values,
      Forall (fun p => resolves theme (value p) (Ret None)) values ->
      resolves theme (value (CTransform (OneOf values))) (Ret None))
  /\ (forall u,
      resolves theme (value u) (Ret None) ->
      resolves theme (value (CTransform (OneOf [u; CString "#ff0000"])))
        (Ret (Some "#ff0000"))
      /\ resolves theme (value (CTransform (OneOf [u; u]))) (Ret None)).
Proof.
  assert (Hfirst : forall pre c s,
      Forall (fun p => resolves theme (value p) (Ret None)) pre ->
      resolves theme (value c) (Ret (Some s)) ->
      exists fuel, forall post,
        resolveColorValue Math_pow fuel
          (value (CTransform (OneOf (pre ++ c :: post)))) theme
        = Some (Ret (Some s))).
  { intros pre c s Hpre [n Hc].
    destruct (common_fuel theme (fun _ o => o = Ret None) pre) as [m Hm].
    { eapply Forall_impl; [exact Hpre|]. cbv beta. eauto. }
    exists (S (S (n `max` m))). intros post.
    rewrite resolve_S, execute_S, oneOfLoop_skip.
    - assert (Hc' := fuel_le n (n `max` m) _ _ _ ltac:(lia) Hc).
      cbn [oneOfLoop]. rewrite Hc', (resolved_truthy _ _ _ _ Hc). reflexivity.
    - eapply Forall_impl; [exact Hm|]. cbv beta.
      intros p (o & -> & Hp). apply (fuel_le m); [lia|trivial]. }
  assert (Hall : forall values,
      Forall (fun p => resolves theme (value p) (Ret None)) values ->
      resolves theme (value (CTransform (OneOf values))) (Ret None)).
  { intros values Hall.
    destruct (common_fuel theme (fun _ o => o = Ret None) values) as [m Hm].
    { eapply Forall_impl; [exact Hall|]. cbv beta. eauto. }
    exists (S (S m)).
    rewrite resolve_S, execute_S.
    rewrite <- (app_nil_r values), oneOfLoop_skip; [reflexivity|].
    eapply Forall_impl; [exact Hm|]. cbv beta.
    intros p (o & -> & Hp). trivial. }
  split; [exact Hfirst|]. split; [exact Hall|].
  intros u Hu. split.
  - destruct (Hfirst [u] (CString "#ff0000") "#ff0000") as [n Hn].
    + constructor; [trivial|constructor].
    + exists 1%nat. reflexivity.
    + exists n. apply (Hn []).
  - apply Hall. repeat constructor; trivial.
Qed.

(** *** Termination *)

Lemma ColorValue_mutind (P : ColorValue -> Prop) (Q : ColorTransform -> Prop) :
  (forall s, P (CString s)) ->
  (forall t, Q t -> P (CTransform t)) ->
  (forall v f, P v -> Q (Darken v f)) ->
  (forall v f, P v -> Q (Lighten v f)) ->
  (forall v f, P v -> Q (Transparent v f)) ->
  (forall values, Forall P values -> Q (OneOf values)) ->
  (forall v b f tr, P v -> P b -> Q (LessProminent v b f tr)) ->
  (forall i t e, P t -> P e -> Q (IfDefinedThenElse i t e)) ->
  forall v, P v.
Proof.
  intros Hs Ht Hd Hl Htr Ho Hlp Hi.
  fix IH 1. intros [s|t]; [apply Hs|apply Ht].
  destruct t as [v f|v f|v f|values|v b f tr|i t e].
  - apply Hd, IH.
  - apply Hl, IH.
  - apply Htr, IH.
  - apply Ho.
    induction values as [|c rest IHrest]; constructor; [apply IH|exact IHrest].
  - apply Hlp; apply IH.
  - apply Hi; apply IH.
Qed.

Lemma refs_OneOf (R : string -> Prop) values :
  Forall R (refsTransform (OneOf values)) ->
  Forall (fun c => Forall R (refsValue c)) values.
Proof.
  induction values as [|c rest IH]; [constructor|].
  cbn [refsTransform]. intros H. apply Forall_app in H as [Hc Hrest].
  constructor; [exact Hc|]. apply IH. exact Hrest.
Qed.

Lemma withColor_total call k :
  (exists o, call = Some o) -> (forall c, exists o, k c = Some o) ->
  exists o, withColor call k = Some o.
Proof.
  intros [o ->] Hk. unfold withColor.
  destruct o as [color|e]; [|eauto].
  destruct (truthy color); eauto.
Qed.

Lemma oneOfLoop_total f values :
  Forall (fun c => exists o, f c = Some o) values ->
  exists o, oneOfLoop f values = Some o.
Proof.
  induction 1 as [|c rest [o Hc] _ IH]; simpl; [eauto|].
  rewrite Hc. destruct o as [color|e]; [|eauto].
  destruct (truthy color); eauto.
Qed.

Lemma resolve_terminates_below rank theme :
  RankedBy rank theme ->
  forall k v, Forall (fun j => (rank j < k)%nat) (refsValue v) ->
              exists fuel o, resolveColorValue Math_pow fuel (value v) theme = Some o.
Proof.
  intros Hrank k. induction k as [k IHk] using lt_wf_ind.
  apply (ColorValue_mutind
    (fun v => Forall (fun j => (rank j < k)%nat) (refsValue v) ->
              exists fuel o, resolveColorValue Math_pow fuel (value v) theme = Some o)
    (fun t => Forall (fun j => (rank j < k)%nat) (refsTransform t) ->
              exists fuel o, executeTransform Math_pow fuel t theme = Some o)).
  - intros s Hrefs. cbn [refsValue] in Hrefs.
    destruct (startsWithHash s) eqn:Hs.
    + exists 1%nat, (Ret (Some s)). rewrite resolve_S, Hs. reflexivity.
    + apply Forall_cons in Hrefs as [Hlt _].
      destruct (entries theme !! s) as [v'|] eqn:Hget.
      * destruct (IHk (rank s) Hlt v') as (n & o & Hn).
        { apply (Hrank s v' Hget). }
        exists (S n), o. rewrite resolve_S, Hs. unfold themeGet. rewrite Hget.
        exact Hn.
      * exists 3%nat. rewrite resolve_S, Hs. unfold themeGet. rewrite Hget.
        destruct (String.eqb s "__proto__"); [eexists; reflexivity|].
        destruct (existsb (String.eqb s) prototypeFunctions);
          eexists; reflexivity.
  - intros t IHt Hrefs. destruct (IHt Hrefs) as (n & o & Hn).
    exists (S n), o. rewrite resolve_S. exact Hn.
  - intros v f IHv Hrefs. destruct (IHv Hrefs) as (n & o & Hn).
    exists (S n). rewrite execute_S. apply withColor_total; eauto.
  - intros v f IHv Hrefs. destruct (IHv Hrefs) as (n & o & Hn).
    exists (S n). rewrite execute_S. apply withColor_total; eauto.
  - intros v f IHv Hrefs. destruct (IHv Hrefs) as (n & o & Hn).
    exists (S n). rewrite execute_S. apply withColor_total; eauto.
  - intros values IHvalues Hrefs. apply refs_OneOf in Hrefs.
    destruct (common_fuel theme (fun _ _ => True) values) as [n Hn].
    { rewrite Forall_forall in IHvalues, Hrefs. apply Forall_forall.
      intros c Hc. destruct (IHvalues c Hc (Hrefs c Hc)) as (m & o & Hm).
      exists o. split; [trivial|]. exists m. exact Hm. }
    exists (S n). rewrite execute_S. apply oneOfLoop_total.
    eapply Forall_impl; [exact Hn|]. cbv beta. intros c (o & _ & Hc). eauto.
  - intros v b f tr IHv IHb Hrefs. cbn [refsTransform] in Hrefs.
    apply Forall_app in Hrefs as [Hv Hb].
    destruct (IHv Hv) as (n & o1 & Hn). destruct (IHb Hb) as (m & o2 & Hm).
    apply (fuel_le n (n `max` m)) in Hn; [|lia].
    apply (fuel_le m (n `max` m)) in Hm; [|lia].
    exists (S (n `max` m)). rewrite execute_S. apply withColor_total; [eauto|].
    intros c. rewrite Hm. destruct o2 as [bg|e]; [|eauto].
    destruct (truthy bg); [|eauto]. cbv zeta.
    destruct (Js.ltb (TinyColor.getLuminance _ _) _); eauto.
  - intros i t e IHt IHe Hrefs. cbn [refsTransform] in Hrefs.
    apply Forall_app in Hrefs as [Ht He].
    destruct (defines theme) as [d|] eqn:Hd.
    + destruct (d i) eqn:Hdi.
      * destruct (IHt Ht) as (n & o & Hn). exists (S n), o.
        rewrite execute_S, Hd, Hdi. exact Hn.
      * destruct (IHe He) as (n & o & Hn). exists (S n), o.
        rewrite execute_S, Hd, Hdi. exact Hn.
    + exists 1%nat, (Throw TypeError). rewrite execute_S, Hd. reflexivity.
Qed.

Lemma cyclicTheme_diverges fuel :
  resolveColorValue Math_pow fuel (value (CString "A")) cyclicTheme = None
  /\ resolveColorValue Math_pow fuel (value (CString "B")) cyclicTheme = None.
Proof.
  induction fuel as [|fuel [IHA IHB]]; [split; reflexivity|].
  split; rewrite resolve_S; cbn [startsWithHash]; [exact IHB|exact IHA].
Qed.

(** C6, amended.  The resolver has no cycle guard.  Resolution
    terminates, with a result or an exception, for every value whenever
    the identifiers of the context can be ranked so that each entry refers
    only to identifiers of lower rank (the references are acyclic).  On
    the cyclic chain [A -> "B"], [B -> "A"] the resolution of [A] never
    returns: no call budget suffices. *)
Theorem resolution_terminates_when_acyclic :
  (forall rank theme, RankedBy rank theme ->
     forall arg, exists fuel o, resolveColorValue Math_pow fuel arg theme = Some o)
  /\ (forall fuel,
        resolveColorValue Math_pow fuel (value (CString "A")) cyclicTheme = None).
Proof.
  split.
  - intros rank theme Hrank [| |v| |];
      [| | |exists 2%nat; eexists; reflexivity|exists 1%nat; eexists; reflexivity].
    + exists 1%nat, (Ret None). reflexivity.
    + exists 1%nat, (Ret None). reflexivity.
    + set (k := S (list_max (rank <$> refsValue v))).
      apply (resolve_terminates_below rank theme Hrank k).
      apply Forall_forall. intros j Hj. unfold k.
      assert (rank j <= list_max (rank <$> refsValue v))%nat; [|lia].
      assert (Hin : rank j ∈ rank <$> refsValue v).
      { apply list_elem_of_fmap. eauto. }
      pose proof (proj1 (list_max_le (rank <$> refsValue v) _) (Nat.le_refl _))
        as Hle.
      rewrite Forall_forall in Hle. apply Hle. exact Hin.
  - intros fuel. apply cyclicTheme_diverges.
Qed.

(** *** LessProminent *)



(** *** The shape of resolved strings *)

Lemma mathRound_range q : 0 <= q <= 255 -> (0 <= Js.mathRound q <= 255)%Z.
Proof.
  intros [H0 H1]. unfold Js.mathRound. split.
  - change 0%Z with (Qfloor (1 # 2)). apply Qfloor_resp_le. lra.
  - change 255%Z with (Qfloor (255 + (1 # 2))). apply Qfloor_resp_le. lra.
Qed.

Lemma toHexDigit_lower d :
  (0 <= d <= 15)%Z -> isLowerHexDigit (TinyColor.toHexDigit d) = true.
Proof.
  intros H.
  assert (d = 0 \/ d = 1 \/ d = 2 \/ d = 3 \/ d = 4 \/ d = 5 \/ d = 6 \/ d = 7
          \/ d = 8 \/ d = 9 \/ d = 10 \/ d = 11 \/ d = 12 \/ d = 13 \/ d = 14
          \/ d = 15)%Z as Hd by lia.
  repeat (destruct Hd as [->|Hd]; [reflexivity|]). subst d. reflexivity.
Qed.

Lemma pad2hex_digits n :
  (0 <= n <= 255)%Z ->
  exists a b, TinyColor.pad2hex n = String a (String b EmptyString)
              /\ isLowerHexDigit a = true /\ isLowerHexDigit b = true.
Proof.
  intros H. eexists _, _. split; [reflexivity|]. split.
  - apply toHexDigit_lower. split.
    + apply Z.div_pos; lia.
    + assert (n / 16 < 16)%Z; [|lia]. apply Z.div_lt_upper_bound; lia.
  - apply toHexDigit_lower. pose proof (Z.mod_pos_bound n 16). lia.
Qed.

Lemma toHexString_inRange c : inRange c -> isRRGGBB (TinyColor.toHexString c) = true.
Proof.
  intros (Hr & Hg & Hb). unfold TinyColor.toHexString, TinyColor.rgbToHex.
  destruct (pad2hex_digits _ (mathRound_range _ Hr)) as (r1 & r2 & -> & Hr1 & Hr2).
  destruct (pad2hex_digits _ (mathRound_range _ Hg)) as (g1 & g2 & -> & Hg1 & Hg2).
  destruct (pad2hex_digits _ (mathRound_range _ Hb)) as (b1 & b2 & -> & Hb1 & Hb2).
  simpl.
  rewrite Hr1, Hr2, Hg1, Hg2, Hb1, Hb2. reflexivity.
Qed.

Lemma construct_inRange ok rgb a : inRange (TinyColor.construct ok rgb a).
Proof.
  assert (Hch : forall c : Q,
    0 <= (let c := Qmin 255 (Qmax c 0) in
          if Js.ltb c 1 then inject_Z (Js.mathRound c) else c) <= 255).
  { intros c. cbv zeta.
    assert (Hc : 0 <= Qmin 255 (Qmax c 0) <= 255).
    { split.
      - apply Q.min_glb; [lra|]. apply Q.le_max_r.
      - apply Q.le_min_l. }
    destruct (Js.ltb _ 1); [|exact Hc].
    destruct (mathRound_range _ Hc) as [Hlo Hhi].
    split.
    - change 0 with (inject_Z 0). rewrite <- Zle_Qle. exact Hlo.
    - change 255 with (inject_Z 255). rewrite <- Zle_Qle. exact Hhi. }
  destruct rgb as [[r g] b]. unfold inRange, TinyColor.construct.
  cbn [TinyColor._r TinyColor._g TinyColor._b]. auto.
Qed.

Lemma tinycolor2_inRange s : inRange (TinyColor.tinycolor2 s).
Proof.
  unfold TinyColor.tinycolor2.
  destruct (TinyColor.stringInputToObject s) as [[[[r g] b] a]|];
    apply construct_inRange.
Qed.

Lemma setAlpha_inRange c a : inRange c -> inRange (TinyColor.setAlpha c a).
Proof. intros H. exact H. Qed.

Lemma lighten_inRange c amount : inRange (TinyColor.lighten c amount).
Proof.
  unfold TinyColor.lighten. destruct (TinyColor.toHsl c) as [[[h s] l] a].
  apply (construct_inRange true).
Qed.

Lemma darken_inRange c amount : inRange (TinyColor.darken c amount).
Proof.
  unfold TinyColor.darken. destruct (TinyColor.toHsl c) as [[[h s] l] a].
  apply (construct_inRange true).
Qed.

Lemma getLighterColor_inRange c relative factor :
  inRange c -> inRange (getLighterColor Math_pow c relative factor).
Proof.
  intros H. unfold getLighterColor.
  destruct (Js.ltb _ _); [exact H|apply lighten_inRange].
Qed.

Lemma getDarkerColor_inRange c relative factor :
  inRange c -> inRange (getDarkerColor Math_pow c relative factor).
Proof.
  intros H. unfold getDarkerColor.
  destruct (Js.ltb _ _); [exact H|apply darken_inRange].
Qed.

(** The luminance is non-negative as soon as [Math.pow] is on positive
    bases, as the real power function is. *)
Lemma resolved_shape fuel :
  (forall arg theme s,
      resolveColorValue Math_pow fuel arg theme = Some (Ret (Some s)) ->
      isRRGGBB s = true \/ writtenIn theme arg s) /\
  (forall (t : ColorTransform) theme s,
      executeTransform Math_pow fuel t theme = Some (Ret (Some s)) ->
      isRRGGBB s = true \/ writtenIn theme (value (CTransform t)) s).
Proof.
  induction fuel as [|fuel [IHr IHe]]; [split; intros; discriminate|].
  assert (Hsub : forall theme v s (w : ColorValue),
    (forall x, literalIn x v -> literalIn x w) ->
    isRRGGBB s = true \/ writtenIn theme (value v) s ->
    isRRGGBB s = true \/ writtenIn theme (value w) s).
  { intros theme v s w Hvw [H|[(v' & Hv' & Hlit)|H]];
      [auto| |right; right; exact H].
    injection Hv' as <-. right. left. exists w. auto. }
  split.
  - intros arg theme s. rewrite resolve_S.
    destruct arg as [| |[x|t]| |]; try discriminate.
    + destruct (startsWithHash x) eqn:Hx.
      * intros H. injection H as <-. right. left. exists (CString x).
        split; [reflexivity|constructor].
      * unfold themeGet. destruct (entries theme !! x) as [v'|] eqn:Hget.
        -- intros H. apply IHr in H as [H|[(v & Hv & Hlit)|H]];
             [auto| |right; right; exact H].
           injection Hv as <-. right. right. exists x, v'. auto.
        -- destruct (String.eqb x "__proto__");
             [|destruct (existsb (String.eqb x) prototypeFunctions)];
             intros H; apply IHr in H as [H|[(v & Hv & _)|H]];
             auto; try discriminate; right; right; exact H.
    + intros H. apply IHe in H. exact H.
    + destruct fuel; discriminate.
  - intros t theme s. rewrite execute_S.
    destruct t as [v f|v f|v f|values|v b f tr|i t e].
    + intros H. apply withColor_ret in H as (c & _ & _ & H).
      injection H as <-. left. apply toHexString_inRange, darken_inRange.
    + intros H. apply withColor_ret in H as (c & _ & _ & H).
      injection H as <-. left. apply toHexString_inRange, lighten_inRange.
    + intros H. apply withColor_ret in H as (c & _ & _ & H).
      injection H as <-. left.
      apply toHexString_inRange, setAlpha_inRange, tinycolor2_inRange.
    + intros H. apply oneOfLoop_ret in H as (c & Hin & H).
      apply IHr in H. apply (Hsub theme c); [|exact H].
      intros x Hx. exact (lit_oneOf x values c Hin Hx).
    + intros H. apply withColor_ret in H as (c & _ & _ & H).
      left.
      destruct (resolveColorValue Math_pow fuel (value b) theme) as [[bg|]|];
        try discriminate.
      destruct (truthy bg).
      * cbv zeta in H.
        destruct (Js.ltb (TinyColor.getLuminance _ _) _); injection H as <-;
          apply toHexString_inRange.
        -- apply setAlpha_inRange, getLighterColor_inRange, tinycolor2_inRange.
        -- apply setAlpha_inRange, getDarkerColor_inRange, tinycolor2_inRange.
      * injection H as <-.
        apply toHexString_inRange, setAlpha_inRange, tinycolor2_inRange.
    + destruct (defines theme) as [d|]; [|discriminate].
      intros H. apply IHr in H.
      destruct (d i).
      * apply (Hsub theme t); [|exact H]. intros x Hx. apply lit_then, Hx.
      * apply (Hsub theme e); [|exact H]. intros x Hx. apply lit_else, Hx.
Qed.

(** Every defined colour string the resolver returns starts with [#].
    It is either the output of a transform, which is [#] followed by
    exactly six lowercase hexadecimal digits, or a string written in the
    resolved value or in an entry of the context, which is returned
    verbatim. *)
Theorem resolved_string_shape fuel arg theme s :
  resolveColorValue Math_pow fuel arg theme = Some (Ret (Some s)) ->
  startsWithHash s = true /\ (isRRGGBB s = true \/ writtenIn theme arg s).
Proof.
  intros H. split.
  - exact (proj1 (resolved_startsWithHash fuel) arg theme s H).
  - exact (proj1 (resolved_shape fuel) arg theme s H).
Qed.

(** *** Determinism *)

(** Resolving the same value against the same context yields the same
    outcome, whatever the call budgets of the two runs: the resolver is a
    function of its two arguments. *)
Theorem resolution_deterministic theme arg o1 o2 :
  resolves theme arg o1 -> resolves theme arg o2 -> o1 = o2.
Proof.
  intros [n Hn] [m Hm].
  apply (fuel_le n (n `max` m)) in Hn; [|lia].
  apply (fuel_le m (n `max` m)) in Hm; [|lia].
  congruence.
Qed.


End Properties.

(** ** The theme overlay *)

(** C7.  The lookup context of a conversion is the table of the chosen
    variant ([theme.type], or [light] when it is missing) overwritten by
    the override map: an identifier of the override map holds the override
    (a string), any other identifier holds what the registry table holds.
    The context is the only map with these lookups. *)
Theorem themeColors_lookup (schemes : Schemes) (theme : VSCodeTheme) :
  (forall id : string,
      entries (plainObject (themeColors schemes theme)) !! id =
      match colors theme !! id with
      | Some s => Some (CString s)
      | None => getKey (default Light (type_ theme)) schemes !! id
      end)
  /\ (forall m : gmap string ColorValue,
      (forall id : string,
          m !! id = match colors theme !! id with
                    | Some s => Some (CString s)
                    | None => getKey (default Light (type_ theme)) schemes !! id
                    end) ->
      m = themeColors schemes theme).
Proof.
  assert (Hlookup : forall id : string,
      themeColors schemes theme !! id =
      match colors theme !! id with
      | Some s => Some (CString s)
      | None => getKey (default Light (type_ theme)) schemes !! id
      end).
  { intros id. unfold themeColors, spread, baseTheme.
    rewrite lookup_union, lookup_fmap.
    destruct (colors theme !! id) as [s|]; simpl.
    - destruct (getKey _ schemes !! id); reflexivity.
    - destruct (getKey _ schemes !! id); reflexivity. }
  split; [exact Hlookup|].
  intros m Hm. apply map_eq. intros id. rewrite Hm, Hlookup. reflexivity.
Qed.

(** ** The include merge *)

Lemma collectTheme_included readTheme uiTheme vscodeTheme c path :
  include vscodeTheme = Some (String c path) ->
  tokenColors (collectTheme readTheme uiTheme vscodeTheme)
  = tokenColors vscodeTheme ++ tokenColors (readTheme (String c path))
  /\ colors (collectTheme readTheme uiTheme vscodeTheme)
     = spread (colors (readTheme (String c path))) (colors vscodeTheme).
Proof.
  intros Hinc. unfold collectTheme.
  destruct (type_ vscodeTheme), uiTheme; cbn [include]; rewrite Hinc;
    split; reflexivity.
Qed.

(** C8.  For a theme that declares an included base theme, after the
    merge the colour overrides are those of the derived theme where it has
    one and those of the base theme elsewhere, and the token rules are the
    derived theme's followed by the base theme's: base rules [X; Y] and
    derived rules [Z] give [Z; X; Y]. *)
Theorem include_merge readTheme uiTheme vscodeTheme c path :
  include vscodeTheme = Some (String c path) ->
  let merged := collectTheme readTheme uiTheme vscodeTheme in
  let included := readTheme (String c path) in
  (forall id : string,
      colors merged !! id =
      match colors vscodeTheme !! id with
      | Some s => Some s
      | None => colors included !! id
      end)
  /\ tokenColors merged = tokenColors vscodeTheme ++ tokenColors included
  /\ (forall X Y Z,
        tokenColors included = [X; Y] -> tokenColors vscodeTheme = [Z] ->
        tokenColors merged = [Z; X; Y]).
Proof.
  intros Hinc merged included.
  destruct (collectTheme_included readTheme uiTheme vscodeTheme c path Hinc)
    as [Htok Hcol].
  fold merged included in Htok, Hcol.
  split; [|split].
  - intros id. rewrite Hcol. unfold spread. rewrite lookup_union.
    destruct (colors vscodeTheme !! id), (colors included !! id); reflexivity.
  - exact Htok.
  - intros X Y Z HX HZ. rewrite Htok, HX, HZ. reflexivity.
Qed.

(** ** Registration *)

Lemma getKey_setKey {A} (key key' : Variant) (a : A) (o : PerVariant A) :
  getKey key (setKey key' a o) = if decide (key = key') then a else getKey key o.
Proof. destruct key, key'; reflexivity. Qed.

Lemma registerKey_other id defaults schemes key key' (j : string) :
  j ≠ id ->
  getKey key (registerKey id defaults schemes key') !! j = getKey key schemes !! j.
Proof.
  intros Hj. unfold registerKey.
  destruct (getKey key' defaults) as [v|]; [|reflexivity].
  destruct (falsyValue (Some v)); [reflexivity|].
  rewrite getKey_setKey. destruct (decide (key = key')) as [->|]; [|reflexivity].
  apply lookup_insert_ne. congruence.
Qed.

Lemma registerKey_falsy id defaults schemes key key' :
  falsyValue (getKey key defaults) = true ->
  getKey key (registerKey id defaults schemes key') = getKey key schemes.
Proof.
  intros Hf. unfold registerKey.
  destruct (getKey key' defaults) as [v|] eqn:Hv; [|reflexivity].
  destruct (falsyValue (Some v)) eqn:Hfv; [reflexivity|].
  rewrite getKey_setKey. destruct (decide (key = key')) as [->|]; [|reflexivity].
  rewrite Hv in Hf. congruence.
Qed.

(** C10.  [registerColor(id, defaults, description)] returns [id] and
    writes at most the entries for [id]: in every variant the mapping of
    any other identifier is unchanged.  A variant whose default is falsy
    ([null], left out, or the empty string), as every variant is when
    [defaults] itself is [null], keeps its table unchanged, the entry for
    [id] included. *)
Theorem registerColor_frame id defaults schemes key :
  (registerColor id defaults schemes).1 = id
  /\ (forall j : string, j ≠ id ->
        getKey key (registerColor id defaults schemes).2 !! j
        = getKey key schemes !! j)
  /\ (forall d, defaults = Some d -> falsyValue (getKey key d) = true ->
        getKey key (registerColor id defaults schemes).2 = getKey key schemes)
  /\ (forall d, defaults = Some d -> getKey key d = Some (CString "") ->
        getKey key (registerColor id defaults schemes).2 !! id
        = getKey key schemes !! id)
  /\ (defaults = None -> (registerColor id defaults schemes).2 = schemes).
Proof.
  assert (Hfalsy : forall d, defaults = Some d ->
            falsyValue (getKey key d) = true ->
            getKey key (registerColor id defaults schemes).2 = getKey key schemes).
  { intros d -> Hf. unfold registerColor. cbn [snd foldl].
    rewrite !registerKey_falsy by exact Hf. reflexivity. }
  split; [destruct defaults; reflexivity|].
  split; [|split; [exact Hfalsy|split]].
  - intros j Hj. destruct defaults as [d|]; [|reflexivity].
    unfold registerColor. cbn [snd foldl].
    rewrite !registerKey_other by exact Hj. reflexivity.
  - intros d Hd Hempty. rewrite (Hfalsy d Hd); [reflexivity|].
    rewrite Hempty. reflexivity.
  - intros ->. reflexivity.
Qed.

Lemma registerKey_keeps id defaults schemes key key' :
  key ≠ key' ->
  getKey key (registerKey id defaults schemes key') = getKey key schemes.
Proof.
  intros Hne. unfold registerKey.
  destruct (getKey key' defaults) as [v|]; [|reflexivity].
  destruct (falsyValue (Some v)); [reflexivity|].
  rewrite getKey_setKey. destruct (decide (key = key')); [contradiction|reflexivity].
Qed.

Lemma registerKey_writes id defaults schemes key v :
  getKey key defaults = Some v -> falsyValue (Some v) = false ->
  getKey key (registerKey id defaults schemes key) !! id = Some v.
Proof.
  intros Hv Hf. unfold registerKey. rewrite Hv, Hf, getKey_setKey.
  destruct (decide (key = key)); [|contradiction].
  apply lookup_insert_eq.
Qed.

Lemma registerColor_writes id defaults schemes key v :
  getKey key defaults = Some v -> falsyValue (Some v) = false ->
  getKey key (registerColor id (Some defaults) schemes).2 !! id = Some v.
Proof.
  intros Hv Hf. unfold registerColor. cbn [snd foldl].
  destruct key;
    repeat (rewrite registerKey_keeps by discriminate);
    apply registerKey_writes; assumption.
Qed.


(** * Closed instances *)

Lemma resolveColorValue_cases_witness :
  resolveColorValue Math_pow_unused 1 (value (CString "#112233")) chainTheme
  = Some (Ret (Some "#112233"))
  /\ resolveColorValue Math_pow_unused 2 (value (CString "C")) chainTheme
     = Some (Ret None)
  /\ resolveColorValue Math_pow_unused 3 (value (CString "__proto__")) chainTheme
     = Some (Throw (Error "Invalid transform"))
  /\ resolveColorValue Math_pow_unused 3 (value (CString "B")) chainTheme
     = resolveColorValue Math_pow_unused 2 (value (CString "A")) chainTheme.
Proof.
  destruct (resolveColorValue_cases Math_pow_unused 0 chainTheme)
    as (_ & Hlit & Habsent & Hproto & _).
  destruct (resolveColorValue_cases Math_pow_unused 2 chainTheme)
    as (_ & _ & _ & _ & Hpresent).
  split; [|split; [|split]].
  - apply Hlit. reflexivity.
  - apply Habsent; [reflexivity|reflexivity|discriminate].
  - apply Hproto. reflexivity.
  - apply (Hpresent "B" (CString "A")); reflexivity.
Defined.



Lemma oneOf_first_defined_witness :
  resolves Math_pow_unused cyclicTheme
    (value (CTransform (OneOf [CString "missing"; CString "#ff0000"; CString "A"])))
    (Ret (Some "#ff0000")).
Proof.
  destruct (oneOf_first_defined Math_pow_unused cyclicTheme) as (Hfirst & _ & _).
  destruct (Hfirst [CString "missing"] (CString "#ff0000") "#ff0000") as [fuel H].
  - constructor; [|constructor]. exists 2%nat. reflexivity.
  - exists 1%nat. reflexivity.
  - exists fuel. apply (H [CString "A"]).
Defined.

(** C6: on the cyclic chain the resolution of [A] neither returns
    [undefined] nor anything else. *)
Lemma cyclic_chain_never_returns :
  ~ (exists fuel o,
        resolveColorValue Math_pow_unused fuel (value (CString "A")) cyclicTheme
        = Some o).
Proof.
  intros (fuel & o & H).
  rewrite (proj1 (cyclicTheme_diverges Math_pow_unused fuel)) in H. discriminate.
Qed.

Lemma resolution_terminates_when_acyclic_witness :
  exists fuel o,
    resolveColorValue Math_pow_unused fuel (value (CString "B")) chainTheme = Some o.
Proof.
  apply (proj1 (resolution_terminates_when_acyclic Math_pow_unused)
           (fun id => if String.eqb id "B" then 1%nat else 0%nat)).
  unfold RankedBy, chainTheme, plainObject. cbn [entries].
  apply map_Forall_insert_2; [constructor|].
  apply map_Forall_insert_2; [|apply map_Forall_empty].
  repeat constructor.
Defined.

Lemma themeColors_lookup_witness :
  entries (plainObject (themeColors registryFragment derivedExample))
    !! "editor.background" = Some (CString "#111111")
  /\ entries (plainObject (themeColors registryFragment derivedExample))
       !! "badge.foreground" = Some (CString "#333").
Proof.
  split;
    rewrite (proj1 (themeColors_lookup registryFragment derivedExample));
    vm_compute; reflexivity.
Defined.

Lemma include_merge_witness :
  let merged := collectTheme (fun _ => includedExample) "vs-dark" derivedExample in
  tokenColors merged = [ruleFor "Z"; ruleFor "X"; ruleFor "Y"]
  /\ colors merged !! "editor.background" = Some "#111111"
  /\ colors merged !! "foreground" = Some "#333333".
Proof.
  destruct (include_merge (fun _ => includedExample) "vs-dark" derivedExample
              "."%char "/base.json" eq_refl) as (Hcol & _ & Hrules).
  split; [|split].
  - apply (Hrules (ruleFor "X") (ruleFor "Y") (ruleFor "Z")); reflexivity.
  - rewrite Hcol. vm_compute. reflexivity.
  - rewrite Hcol. vm_compute. reflexivity.
Defined.

(** C9: [badge.foreground] is registered for the light variant with the
    three-digit literal [#333], which the resolver returns as it is. *)
Lemma badge_foreground_three_digits :
  getColor Math_pow_unused 2 registryFragment (bareTheme Light) "badge.foreground"
  = Some (Ret (Some "#333"))
  /\ String.length "#333" <> 7%nat /\ String.length "#333" <> 9%nat.
Proof.
  split; [vm_compute; reflexivity|]. split; discriminate.
Qed.

Lemma resolved_string_shape_witness :
  startsWithHash "#333" = true
  /\ (isRRGGBB "#333" = true
      \/ writtenIn (plainObject (themeColors registryFragment (bareTheme Light)))
           (value (CString "badge.foreground")) "#333").
Proof.
  apply (resolved_string_shape Math_pow_unused 2).
  vm_compute. reflexivity.
Defined.

Lemma registerColor_frame_witness :
  let border :=
    mkPerVariant None None (Some (CString "#ffcc00")) (Some (CString "#")) in
  let after := (registerColor "editorWarning.border" (Some border) registryFragment).2 in
  getKey HcDark after !! "foreground" = getKey HcDark registryFragment !! "foreground"
  /\ getKey Dark after = getKey Dark registryFragment.
Proof.
  intros border after.
  destruct (registerColor_frame "editorWarning.border" (Some border)
              registryFragment HcDark) as (_ & Hother & _).
  destruct (registerColor_frame "editorWarning.border" (Some border)
              registryFragment Dark) as (_ & _ & Hfalsy & _).
  split.
  - apply Hother. discriminate.
  - apply (Hfalsy border); reflexivity.
Defined.

Lemma resolution_deterministic_witness :
  Ret (Some "#112233") = Ret (Some "#112233").
Proof.
  apply (resolution_deterministic Math_pow_unused chainTheme (value (CString "B"))).
  - exists 3%nat. reflexivity.
  - exists 5%nat. reflexivity.
Defined.


(** * Further properties *)

(** ** kate.ts: the alpha digits first *)

Lemma startsWithHash_inv (s : string) :
  startsWithHash s = true -> exists rest, s = String "#"%char rest.
Proof.
  destruct s as [|a rest]; [discriminate|].
  destruct a as [[] [] [] [] [] [] [] []]; try discriminate.
  intros _. exists rest. reflexivity.
Qed.

Lemma length_nine_inv (c : string) :
  String.length c = 9%nat ->
  exists c0 c1 c2 c3 c4 c5 c6 c7 c8,
    c = String c0 (String c1 (String c2 (String c3 (String c4 (String c5
          (String c6 (String c7 (String c8 EmptyString)))))))).
Proof.
  intros H.
  do 9 (destruct c as [|? c]; [discriminate|]).
  destruct c; [|discriminate]. repeat eexists.
Qed.

Lemma alpha_first c0 c1 c2 c3 c4 c5 c6 c7 c8 :
  let color := String c0 (String c1 (String c2 (String c3 (String c4 (String c5
                 (String c6 (String c7 (String c8 EmptyString)))))))) in
  "#" +:+ JsString.slice color (-2) None +:+ JsString.slice color 1 (Some (-2)%Z)
  = String "#" (String c7 (String c8 (String c1 (String c2 (String c3 (String c4
      (String c5 (String c6 EmptyString)))))))).
Proof. reflexivity. Qed.

(** What [getColor] of [kate.ts] does to a resolved colour [c].  An
    undefined colour stays undefined.  A colour [#RRGGBBAA] (nine code
    units) comes out as [#AARRGGBB]: the last two characters are moved
    right after the [#], the six in between follow in order.  Any other
    colour is returned as it is; this includes every output of a
    transform, which has seven characters.  The result always has the
    length of [c] and starts with [#]. *)
Theorem kate_getColor_alpha_first Math_pow fuel schemes theme id :
  let resolved :=
    resolveColorValue Math_pow fuel (value (CString id))
      (plainObject (themeColors schemes theme)) in
  let result := Kate.getColor Math_pow fuel schemes theme id in
  (resolved = Some (Ret None) -> result = Some (Ret None))
  /\ (forall r1 r2 g1 g2 b1 b2 a1 a2,
        resolved = Some (Ret (Some
          (String "#" (String r1 (String r2 (String g1 (String g2 (String b1
             (String b2 (String a1 (String a2 EmptyString))))))))))) ->
        result = Some (Ret (Some
          (String "#" (String a1 (String a2 (String r1 (String r2 (String g1
             (String g2 (String b1 (String b2 EmptyString))))))))))))
  /\ (forall c, resolved = Some (Ret (Some c)) ->
        (String.length c <> 9%nat -> result = Some (Ret (Some c)))
        /\ (isRRGGBB c = true -> result = Some (Ret (Some c)))
        /\ exists s, result = Some (Ret (Some s))
                     /\ String.length s = String.length c
                     /\ startsWithHash s = true).
Proof.
  intros resolved result. unfold result, Kate.getColor. fold resolved.
  split; [|split].
  - intros ->. reflexivity.
  - intros r1 r2 g1 g2 b1 b2 a1 a2 ->. reflexivity.
  - intros c Hc.
    assert (Hhash : startsWithHash c = true).
    { exact (proj1 (resolved_startsWithHash Math_pow fuel) _ _ _ Hc). }
    assert (Hkeep : String.length c <> 9%nat ->
              withColor (Some (Ret (Some c)))
                (fun color =>
                   if (String.length color =? 9)%nat then
                     Some (Ret (Some ("#" +:+ JsString.slice color (-2) None
                                        +:+ JsString.slice color 1 (Some (-2)%Z))))
                   else Some (Ret (Some color)))
              = Some (Ret (Some c))).
    { intros Hlen. unfold withColor.
      rewrite (resolved_truthy Math_pow _ _ _ _ Hc).
      apply Nat.eqb_neq in Hlen. rewrite Hlen. reflexivity. }
    rewrite Hc. split; [exact Hkeep|]. split.
    + intros Hrgb. apply Hkeep.
      destruct (startsWithHash_inv c Hhash) as [digits ->].
      cbn [isRRGGBB] in Hrgb.
      apply andb_true_iff in Hrgb as [Hlen _]. apply Nat.eqb_eq in Hlen.
      cbn [String.length]. rewrite Hlen. discriminate.
    + destruct (Nat.eq_dec (String.length c) 9%nat) as [Hnine|Hother].
      * destruct (length_nine_inv c Hnine)
          as (c0 & c1 & c2 & c3 & c4 & c5 & c6 & c7 & c8 & ->).
        eexists. split; [reflexivity|]. split; reflexivity.
      * exists c. split; [exact (Hkeep Hother)|]. split; [reflexivity|exact Hhash].
Qed.

Lemma kate_getColor_alpha_first_witness :
  Kate.getColor Math_pow_unused 2 emptySchemes
    (mkVSCodeTheme (Some Dark) "t" (<["editor.background" := "#11223380"]> ∅)
       None [])
    "editor.background"
  = Some (Ret (Some "#80112233")).
Proof.
  apply (proj1 (proj2 (kate_getColor_alpha_first Math_pow_unused 2 emptySchemes
           (mkVSCodeTheme (Some Dark) "t"
              (<["editor.background" := "#11223380"]> ∅) None [])
           "editor.background"))).
  vm_compute. reflexivity.
Defined.

(** ** utils.ts: scope matching *)

Lemma beforeDotStar_cons c rest :
  JsString.beforeDotStar (String c rest) =
  if Ascii.eqb c "."
     && match rest with String d _ => Ascii.eqb d "*" | EmptyString => false end
  then EmptyString else String c (JsString.beforeDotStar rest).
Proof.
  destruct c as [[] [] [] [] [] [] [] []]; try reflexivity.
  destruct rest as [|d r]; [reflexivity|].
  destruct d as [[] [] [] [] [] [] [] []]; reflexivity.
Qed.

Lemma includesDotStar_cons c rest :
  JsString.includesDotStar (String c rest) =
  (Ascii.eqb c "."
   && match rest with String d _ => Ascii.eqb d "*" | EmptyString => false end)
  || JsString.includesDotStar rest.
Proof.
  destruct c as [[] [] [] [] [] [] [] []]; try reflexivity.
  destruct rest as [|d r]; [reflexivity|].
  destruct d as [[] [] [] [] [] [] [] []]; reflexivity.
Qed.

(** For a stem without [.*], the text [stem.*] is a wildcard whose part
    before the wildcard is the stem. *)
Lemma wildcard_stem stem :
  JsString.includesDotStar stem = false ->
  JsString.includesDotStar (stem +:+ ".*") = true
  /\ JsString.beforeDotStar (stem +:+ ".*") = stem.
Proof.
  induction stem as [|c rest IH]; [split; reflexivity|].
  rewrite includesDotStar_cons. intros H.
  apply orb_false_iff in H as [Hhere Hrest]. destruct (IH Hrest) as [IHi IHb].
  change (String c rest +:+ ".*") with (String c (rest +:+ ".*")).
  rewrite includesDotStar_cons, beforeDotStar_cons, IHi, IHb.
  split; [apply orb_true_r|].
  destruct (Ascii.eqb c "."); [|reflexivity].
  destruct rest as [|d r]; [reflexivity|].
  cbn [andb] in Hhere.
  change (String d r +:+ ".*") with (String d (r +:+ ".*")).
  cbn [andb]. rewrite Hhere. reflexivity.
Qed.

Lemma length_append (a b : string) :
  String.length (a +:+ b) = (String.length a + String.length b)%nat.
Proof.
  induction a as [|c rest IH]; [reflexivity|].
  change (String c rest +:+ b) with (String c (rest +:+ b)).
  cbn [String.length]. rewrite IH. reflexivity.
Qed.

Lemma append_inv_head (p a b : string) : p +:+ a = p +:+ b -> a = b.
Proof.
  induction p as [|c rest IH]; [trivial|].
  intros H. injection H as H. exact (IH H).
Qed.

Lemma matchScope_iff scopes matchText :
  matchScope scopes matchText = true <->
  exists scope, In scope (listedScopes scopes)
    /\ (scope = matchText
        \/ scope = if JsString.includesDotStar matchText
                   then JsString.beforeDotStar matchText else matchText).
Proof.
  unfold matchScope. fold (listedScopes scopes). rewrite existsb_exists.
  split; intros (scope & Hin & H); exists scope; (split; [exact Hin|]).
  - apply orb_true_iff in H as [H|H]; apply String.eqb_eq in H; auto.
  - apply orb_true_iff. destruct H as [H|H]; [left|right]; apply String.eqb_eq, H.
Qed.

(** [matchScope] compares whole scope names.  A text without [.*]
    matches exactly when it is one of the scopes.  A wildcard text
    [stem.*] matches exactly when the scopes hold [stem.*] itself or the
    bare [stem]: a scope that extends the stem, such as [stem.more], is
    not matched.  Missing scopes match nothing. *)
Theorem matchScope_whole_names (scopes : option Scope) :
  (forall text, JsString.includesDotStar text = false ->
      (matchScope scopes text = true <-> In text (listedScopes scopes)))
  /\ (forall stem, JsString.includesDotStar stem = false ->
      (matchScope scopes (stem +:+ ".*") = true <->
       In (stem +:+ ".*") (listedScopes scopes) \/ In stem (listedScopes scopes)))
  /\ (forall stem more, JsString.includesDotStar stem = false ->
      more <> "*" ->
      matchScope (Some (ScopeString (stem +:+ "." +:+ more))) (stem +:+ ".*") = false)
  /\ (scopes = None -> forall text, matchScope scopes text = false).
Proof.
  assert (Hwild : forall sc stem, JsString.includesDotStar stem = false ->
      (matchScope sc (stem +:+ ".*") = true <->
       In (stem +:+ ".*") (listedScopes sc) \/ In stem (listedScopes sc))).
  { intros sc stem Hstem. rewrite matchScope_iff.
    destruct (wildcard_stem stem Hstem) as [-> ->].
    split.
    - intros (scope & Hin & [->| ->]); auto.
    - intros [H|H]; eexists; split; eauto. }
  split; [|split; [exact (Hwild scopes)|split]].
  - intros text Htext. rewrite matchScope_iff, Htext.
    split.
    + intros (scope & Hin & [->| ->]); exact Hin.
    + intros H. exists text. auto.
  - intros stem more Hstem Hmore.
    destruct (matchScope _ _) eqn:E; [|reflexivity]. exfalso.
    apply (Hwild _ stem Hstem) in E. cbn [listedScopes In] in E.
    destruct E as [[E|[]]|[E|[]]].
    + apply append_inv_head in E. cbn in E. injection E as E.
      apply Hmore. exact E.
    + apply (f_equal String.length) in E. rewrite !length_append in E.
      cbn in E. lia.
  - intros -> text. reflexivity.
Qed.

Lemma matchScope_whole_names_witness :
  matchScope (Some (ScopeArray ["comment"; "keyword.operator"])) "keyword.operator.*"
  = true
  /\ matchScope (Some (ScopeString "keyword.operator.arithmetic"))
       "keyword.operator.*" = false.
Proof.
  destruct (matchScope_whole_names (Some (ScopeArray ["comment"; "keyword.operator"])))
    as (_ & Hwild & _).
  destruct (matchScope_whole_names None) as (_ & _ & Hmore & _).
  split.
  - apply (Hwild "keyword.operator"); [reflexivity|]. right. right. left. reflexivity.
  - apply (Hmore "keyword.operator" "arithmetic"); [reflexivity|discriminate].
Defined.

(** ** kate.ts: text styles *)

Lemma find_app_first {A} (f : A -> bool) l1 l2 :
  List.find f (l1 ++ l2) =
  match List.find f l1 with
  | Some x => Some x
  | None => List.find f l2
  end.
Proof.
  induction l1 as [|a l1 IH]; [reflexivity|]. cbn. destruct (f a); [reflexivity|exact IH].
Qed.

Lemma find_none_Forall {A} (f : A -> bool) l :
  List.find f l = None <-> Forall (fun a => f a = false) l.
Proof.
  induction l as [|a l IH]; cbn.
  - split; [constructor|reflexivity].
  - destruct (f a) eqn:E.
    + split; [discriminate|]. intros H. apply Forall_cons in H as [H _]. congruence.
    + rewrite IH. split; [intros H; constructor; assumption|].
      intros H. apply Forall_cons in H as [_ H]. exact H.
Qed.

Lemma find_some_Exists {A} (f : A -> bool) l :
  (exists x, List.find f l = Some x) <-> Exists (fun a => f a = true) l.
Proof.
  induction l as [|a l IH]; cbn.
  - split; [intros [x H]; discriminate|intros H; inversion H].
  - destruct (f a) eqn:E.
    + split; [intros _; left; exact E|eauto].
    + rewrite IH. split; [intros H; right; exact H|].
      intros H. apply Exists_cons in H as [H|H]; [congruence|exact H].
Qed.

(** [toKateStyle] takes the first rule, in list order, whose scopes
    match the identifier, and builds the style from that rule alone.
    When no rule matches, the identifier is replaced by ["variable"]:
    the result is that of [toKateStyle("variable")], undefined when no
    rule matches ["variable"] either. *)
Theorem toKateStyle_first_match (theme : VSCodeTheme) (id : string) :
  (forall pre r post,
      tokenColors theme = pre ++ r :: post ->
      Forall (fun a => matchScope (Some (scope a)) id = false) pre ->
      matchScope (Some (scope r)) id = true ->
      Kate.toKateStyle theme id = Some (Kate.styleOf r))
  /\ (Forall (fun a => matchScope (Some (scope a)) id = false) (tokenColors theme) ->
      Kate.toKateStyle theme id = Kate.toKateStyle theme "variable")
  /\ (Forall (fun a => matchScope (Some (scope a)) id = false) (tokenColors theme) ->
      Forall (fun a => matchScope (Some (scope a)) "variable" = false)
        (tokenColors theme) ->
      Kate.toKateStyle theme id = None).
Proof.
  split; [|split].
  - intros pre r post Hrules Hpre Hr. unfold Kate.toKateStyle, Kate.findStyle.
    rewrite Hrules, find_app_first.
    apply find_none_Forall in Hpre. rewrite Hpre. cbn [List.find]. rewrite Hr.
    reflexivity.
  - intros Hnone. unfold Kate.toKateStyle, Kate.findStyle.
    apply find_none_Forall in Hnone. rewrite Hnone.
    destruct (String.eqb id "variable") eqn:E.
    + apply String.eqb_eq in E. subst id. rewrite Hnone. reflexivity.
    + cbn. destruct (List.find _ (tokenColors theme)); reflexivity.
  - intros Hnone Hvar. unfold Kate.toKateStyle, Kate.findStyle.
    apply find_none_Forall in Hnone, Hvar. rewrite Hnone, Hvar.
    destruct (negb _); reflexivity.
Qed.

Lemma toKateStyle_first_match_witness :
  Kate.toKateStyle
    (mkVSCodeTheme (Some Dark) "t" ∅ None
       [mkTokenColor (ScopeString "comment")
          (mkSettings (Some "#6a9955") false true false None);
        mkTokenColor (ScopeArray ["variable"; "keyword"])
          (mkSettings (Some "#9cdcfe") false false false (Some Bold));
        mkTokenColor (ScopeString "keyword")
          (mkSettings (Some "#c586c0") false false false None)])
    "keyword"
  = Some (Kate.mkKateTextStyle (Some "#9cdcfe") (Some "#9cdcfe") (Some true) None None).
Proof.
  apply (proj1 (toKateStyle_first_match _ "keyword")
           [mkTokenColor (ScopeString "comment")
              (mkSettings (Some "#6a9955") false true false None)]
           (mkTokenColor (ScopeArray ["variable"; "keyword"])
              (mkSettings (Some "#9cdcfe") false false false (Some Bold)))
           [mkTokenColor (ScopeString "keyword")
              (mkSettings (Some "#c586c0") false false false None)]).
  - reflexivity.
  - repeat constructor.
  - reflexivity.
Defined.

(** After the include merge the derived theme's rules take precedence in
    Kate's text styles: when a rule of the derived theme matches the
    identifier, the style is the one the derived theme gives alone,
    whatever the base theme holds.  When none does and a rule of the base
    theme matches, the style is the one of the base theme alone: a rule
    of the base for the identifier comes before the derived theme's
    fallback on ["variable"]. *)
Theorem toKateStyle_after_include (derived base : VSCodeTheme) (id : string) :
  let merged := mergeIncluded derived base in
  (Exists (fun a => matchScope (Some (scope a)) id = true) (tokenColors derived) ->
     Kate.toKateStyle merged id = Kate.toKateStyle derived id)
  /\ (Forall (fun a => matchScope (Some (scope a)) id = false) (tokenColors derived) ->
      Exists (fun a => matchScope (Some (scope a)) id = true) (tokenColors base) ->
      Kate.toKateStyle merged id = Kate.toKateStyle base id).
Proof.
  intros merged. unfold merged, Kate.toKateStyle, Kate.findStyle, mergeIncluded.
  cbn [tokenColors]. rewrite find_app_first. split.
  - intros H. apply find_some_Exists in H as [x Hx]. rewrite Hx. reflexivity.
  - intros Hd Hb. apply find_none_Forall in Hd. apply find_some_Exists in Hb as [x Hx].
    rewrite Hd, Hx. reflexivity.
Qed.

Lemma toKateStyle_after_include_witness :
  Kate.toKateStyle (mergeIncluded derivedExample includedExample) "Z"
  = Kate.toKateStyle derivedExample "Z"
  /\ Kate.toKateStyle (mergeIncluded derivedExample includedExample) "X"
     = Kate.toKateStyle includedExample "X".
Proof.
  split.
  - apply (proj1 (toKateStyle_after_include derivedExample includedExample "Z")).
    left. reflexivity.
  - apply (proj2 (toKateStyle_after_include derivedExample includedExample "X")).
    + repeat constructor.
    + left. reflexivity.
Defined.

(** ** base.ts: registrations compose *)

(** The table of a variant after one registration. *)
Lemma registerColor_lookup id defaults schemes key (j : string) :
  getKey key (registerColor id defaults schemes).2 !! j =
  match defaults with
  | Some d =>
      if decide (j = id) then
        if falsyValue (getKey key d) then getKey key schemes !! id
        else getKey key d
      else getKey key schemes !! j
  | None => getKey key schemes !! j
  end.
Proof.
  destruct defaults as [d|]; [|reflexivity].
  destruct (decide (j = id)) as [->|Hne].
  - destruct (falsyValue (getKey key d)) eqn:Hf.
    + unfold registerColor. cbn [snd foldl].
      rewrite !registerKey_falsy by exact Hf. reflexivity.
    + destruct (getKey key d) as [v|] eqn:Hv; [|discriminate].
      apply registerColor_writes; assumption.
  - unfold registerColor. cbn [snd foldl].
    rewrite !registerKey_other by exact Hne. reflexivity.
Qed.

Lemma PerVariant_eq {A} (a b : PerVariant A) :
  (forall key, getKey key a = getKey key b) -> a = b.
Proof.
  intros H. destruct a, b.
  pose proof (H Light) as Hl. pose proof (H Dark) as Hd.
  pose proof (H HcDark) as Hhd. pose proof (H HcLight) as Hhl.
  cbn in Hl, Hd, Hhd, Hhl. congruence.
Qed.


(** Registrations of distinct identifiers commute: the registry does not
    depend on the order in which they are made. *)
Theorem registerColor_commute id1 id2 defaults1 defaults2 schemes :
  id1 <> id2 ->
  (registerColor id2 defaults2 (registerColor id1 defaults1 schemes).2).2
  = (registerColor id1 defaults1 (registerColor id2 defaults2 schemes).2).2.
Proof.
  intros Hne. apply PerVariant_eq. intros key. apply map_eq. intros j.
  rewrite !registerColor_lookup.
  destruct defaults1 as [d1|], defaults2 as [d2|]; try reflexivity.
  repeat case_decide; subst; try congruence;
    destruct (falsyValue (getKey key d1)), (falsyValue (getKey key d2));
    reflexivity.
Qed.

Lemma registerColor_commute_witness :
  (registerColor "badge.foreground"
     (Some (mkPerVariant (Some (CString "#333")) None None None))
     (registerColor "foreground"
        (Some (mkPerVariant (Some (CString "#616161")) None None None))
        emptySchemes).2).2
  = (registerColor "foreground"
       (Some (mkPerVariant (Some (CString "#616161")) None None None))
       (registerColor "badge.foreground"
          (Some (mkPerVariant (Some (CString "#333")) None None None))
          emptySchemes).2).2.
Proof.
  apply (registerColor_commute "foreground" "badge.foreground"). discriminate.
Defined.

(** ** The converters' [getColor]: overrides *)

Lemma themeColors_get (schemes : Schemes) (theme : VSCodeTheme) (id : string) :
  themeColors schemes theme !! id =
  match colors theme !! id with
  | Some s => Some (CString s)
  | None => baseTheme schemes theme !! id
  end.
Proof.
  unfold themeColors, spread. rewrite lookup_union, lookup_fmap.
  destruct (colors theme !! id); cbn;
    destruct (baseTheme schemes theme !! id); reflexivity.
Qed.

(** An override of the theme decides the colour of its identifier (an
    identifier is a name: it does not start with [#]).  When the override
    starts with [#] it is the result, whatever the registry holds for the
    identifier.  Any other override is read as the name of another colour:
    when neither the theme nor the registry table has a colour of that
    name (a CSS colour name such as [red], say), the result is
    [undefined]; but for the name [__proto__], which is read as
    [Object.prototype]: [getColor] throws [Error("Invalid transform")]. *)
Theorem override_decides Math_pow schemes theme id s :
  startsWithHash id = false ->
  colors theme !! id = Some s ->
  (startsWithHash s = true ->
     forall fuel,
       getColor Math_pow (S (S fuel)) schemes theme id = Some (Ret (Some s)))
  /\ (startsWithHash s = false ->
      colors theme !! s = None -> baseTheme schemes theme !! s = None ->
      forall fuel,
        (s <> "__proto__" ->
           getColor Math_pow (S (S (S fuel))) schemes theme id = Some (Ret None))
        /\ (s = "__proto__" ->
            getColor Math_pow (S (S (S (S fuel)))) schemes theme id
            = Some (Throw (Error "Invalid transform")))).
Proof.
  intros Hid Hs. unfold getColor. split.
  - intros Hhash fuel. rewrite resolve_S, Hid. unfold themeGet, plainObject.
    cbn [entries]. rewrite themeColors_get, Hs, resolve_S, Hhash. reflexivity.
  - intros Hname Hc Hb fuel. split.
    + intros Hproto. rewrite resolve_S, Hid. unfold themeGet, plainObject.
      cbn [entries]. rewrite themeColors_get, Hs, resolve_S, Hname.
      unfold themeGet. cbn [entries]. rewrite themeColors_get, Hc, Hb.
      apply String.eqb_neq in Hproto. rewrite Hproto.
      destruct (existsb (String.eqb s) prototypeFunctions); reflexivity.
    + intros ->. rewrite resolve_S, Hid. unfold themeGet, plainObject.
      cbn [entries]. rewrite themeColors_get, Hs, resolve_S, Hname.
      unfold themeGet. cbn [entries]. rewrite themeColors_get, Hc, Hb.
      reflexivity.
Qed.

Lemma override_decides_witness :
  getColor Math_pow_unused 2 registryFragment
    (mkVSCodeTheme (Some Light) "t" (<["badge.foreground" := "#abcdef"]> ∅) None [])
    "badge.foreground" = Some (Ret (Some "#abcdef"))
  /\ getColor Math_pow_unused 3 registryFragment
       (mkVSCodeTheme (Some Light) "t" (<["badge.foreground" := "red"]> ∅) None [])
       "badge.foreground" = Some (Ret None)
  /\ getColor Math_pow_unused 4 registryFragment
       (mkVSCodeTheme (Some Light) "t"
          (<["badge.foreground" := "__proto__"]> ∅) None [])
       "badge.foreground" = Some (Throw (Error "Invalid transform")).
Proof.
  split; [|split].
  - destruct (override_decides Math_pow_unused registryFragment
                (mkVSCodeTheme (Some Light) "t"
                   (<["badge.foreground" := "#abcdef"]> ∅) None [])
                "badge.foreground" "#abcdef") as [H _].
    + reflexivity.
    + vm_compute. reflexivity.
    + apply H. reflexivity.
  - destruct (override_decides Math_pow_unused registryFragment
                (mkVSCodeTheme (Some Light) "t"
                   (<["badge.foreground" := "red"]> ∅) None [])
                "badge.foreground" "red") as [_ H].
    + reflexivity.
    + vm_compute. reflexivity.
    + apply (H eq_refl); [vm_compute; reflexivity|vm_compute; reflexivity|].
      discriminate.
  - destruct (override_decides Math_pow_unused registryFragment
                (mkVSCodeTheme (Some Light) "t"
                   (<["badge.foreground" := "__proto__"]> ∅) None [])
                "badge.foreground" "__proto__") as [_ H].
    + reflexivity.
    + vm_compute. reflexivity.
    + apply (H eq_refl); [vm_compute; reflexivity|vm_compute; reflexivity|].
      reflexivity.
Defined.

(** An override that names its own identifier makes the conversion of
    that colour recurse without bound: no call budget lets [getColor]
    return, in either converter. *)
Theorem self_reference_never_returns Math_pow schemes theme id :
  startsWithHash id = false ->
  colors theme !! id = Some id ->
  forall fuel,
    getColor Math_pow fuel schemes theme id = None
    /\ Kate.getColor Math_pow fuel schemes theme id = None.
Proof.
  intros Hid Hs fuel.
  assert (H : resolveColorValue Math_pow fuel (value (CString id))
                (plainObject (themeColors schemes theme)) = None).
  { induction fuel as [|fuel IH]; [reflexivity|].
    rewrite resolve_S, Hid. unfold themeGet, plainObject. cbn [entries].
    rewrite themeColors_get, Hs. exact IH. }
  unfold getColor, Kate.getColor. rewrite H. split; reflexivity.
Qed.

Lemma self_reference_never_returns_witness :
  getColor Math_pow_unused 1000 registryFragment
    (mkVSCodeTheme (Some Dark) "t" (<["foreground" := "foreground"]> ∅) None [])
    "foreground" = None.
Proof.
  apply (self_reference_never_returns Math_pow_unused registryFragment
           (mkVSCodeTheme (Some Dark) "t" (<["foreground" := "foreground"]> ∅)
              None [])
           "foreground"); vm_compute; reflexivity.
Defined.

(** ** base.ts: the other branches of LessProminent *)



(** ** base.ts: [rgba] prints the channels only *)

Lemma channel_roundtrip_all :
  forallb (fun n =>
             (Js.mathRound
                (TinyColor._r
                   (TinyColor.construct true
                      (TinyColor.rgbToRgb (inject_Z (Z.of_nat n)) 0 0) 1))
              =? Z.of_nat n)%Z)
    (seq 0 256) = true.
Proof. vm_compute. reflexivity. Qed.

Lemma channel_roundtrip (r : Z) :
  (0 <= r <= 255)%Z ->
  Js.mathRound
    (TinyColor._r (TinyColor.construct true (TinyColor.rgbToRgb (inject_Z r) 0 0) 1))
  = r.
Proof.
  intros Hr. pose proof channel_roundtrip_all as Hall.
  rewrite forallb_forall in Hall.
  specialize (Hall (Z.to_nat r)). rewrite Z2Nat.id in Hall by lia.
  apply Z.eqb_eq, Hall. apply in_seq. lia.
Qed.

Lemma construct_r ok (x y z a y' z' a' : Q) :
  TinyColor._r (TinyColor.construct ok (x, y, z) a)
  = TinyColor._r (TinyColor.construct ok (x, y', z') a').
Proof. reflexivity. Qed.

Lemma construct_g ok (x y z a y' z' a' : Q) :
  TinyColor._g (TinyColor.construct ok (x, y, z) a)
  = TinyColor._r (TinyColor.construct ok (y, y', z') a').
Proof. reflexivity. Qed.

Lemma construct_b ok (x y z a y' z' a' : Q) :
  TinyColor._b (TinyColor.construct ok (x, y, z) a)
  = TinyColor._r (TinyColor.construct ok (z, y', z') a').
Proof. reflexivity. Qed.

Lemma toHexString_channels (r g b : Z) (a : Q) :
  (0 <= r <= 255)%Z -> (0 <= g <= 255)%Z -> (0 <= b <= 255)%Z ->
  TinyColor.toHexString
    (TinyColor.construct true
       (TinyColor.rgbToRgb (inject_Z r) (inject_Z g) (inject_Z b)) a)
  = String "#"
      (TinyColor.pad2hex r +:+ TinyColor.pad2hex g +:+ TinyColor.pad2hex b).
Proof.
  intros Hr Hg Hb.
  pose proof (channel_roundtrip r Hr) as Er.
  pose proof (channel_roundtrip g Hg) as Eg.
  pose proof (channel_roundtrip b Hb) as Eb.
  unfold TinyColor.toHexString, TinyColor.rgbToHex, TinyColor.rgbToRgb in *.
  rewrite (construct_r true _ _ _ a
             (TinyColor.bound01 (TinyColor.Number 0) 255 * 255)
             (TinyColor.bound01 (TinyColor.Number 0) 255 * 255) 1), Er.
  rewrite (construct_g true _ _ _ a
             (TinyColor.bound01 (TinyColor.Number 0) 255 * 255)
             (TinyColor.bound01 (TinyColor.Number 0) 255 * 255) 1), Eg.
  rewrite (construct_b true _ _ _ a
             (TinyColor.bound01 (TinyColor.Number 0) 255 * 255)
             (TinyColor.bound01 (TinyColor.Number 0) 255 * 255) 1), Eb.
  reflexivity.
Qed.

(** For integer channels between 0 and 255, [rgba(r, g, b, a)] is [#]
    followed by the two hexadecimal digits of each channel: the alpha
    [a] has no part in the string, so a default built with [rgba] is
    opaque whatever alpha it is given. *)
Theorem rgba_prints_channels (r g b : Z) (a : Q) :
  (0 <= r <= 255)%Z -> (0 <= g <= 255)%Z -> (0 <= b <= 255)%Z ->
  rgba (inject_Z r) (inject_Z g) (inject_Z b) a
  = String "#"
      (TinyColor.pad2hex r +:+ TinyColor.pad2hex g +:+ TinyColor.pad2hex b)
  /\ isRRGGBB (rgba (inject_Z r) (inject_Z g) (inject_Z b) a) = true.
Proof.
  intros Hr Hg Hb.
  assert (E : rgba (inject_Z r) (inject_Z g) (inject_Z b) a
              = String "#"
                  (TinyColor.pad2hex r +:+ TinyColor.pad2hex g
                     +:+ TinyColor.pad2hex b)).
  { unfold rgba. apply toHexString_channels; assumption. }
  split; [exact E|].
  unfold rgba. apply toHexString_inRange, construct_inRange.
Qed.

Lemma rgba_prints_channels_witness :
  rgba 0 122 204 (6 # 10) = "#007acc".
Proof.
  destruct (rgba_prints_channels 0 122 204 (6 # 10)) as [H _]; try lia.
  exact H.
Defined.

(** ** docgen.ts: scope names in selectors *)

Lemma startsWithDigit_replaceDotDigits s :
  startsWithDigit (replaceDotDigits s) = startsWithDigit s.
Proof.
  destruct s as [|c rest]; [reflexivity|]. cbn [replaceDotDigits startsWithDigit].
  destruct (Ascii.eqb c ".") eqn:E; [|reflexivity].
  apply Ascii.eqb_eq in E. subst c.
  destruct (startsWithDigit rest); reflexivity.
Qed.

(** The rewriting of a scope name for a CSS selector keeps its length,
    leaves no dot directly followed by a digit, changes nothing in a name
    that has none, and changes nothing when applied again. *)
Theorem replaceDotDigits_spec (scope : string) :
  String.length (replaceDotDigits scope) = String.length scope
  /\ hasDotDigit (replaceDotDigits scope) = false
  /\ (hasDotDigit scope = false -> replaceDotDigits scope = scope)
  /\ replaceDotDigits (replaceDotDigits scope) = replaceDotDigits scope.
Proof.
  assert (Hnone : forall s, hasDotDigit (replaceDotDigits s) = false).
  { induction s as [|c rest IH]; [reflexivity|].
    cbn [replaceDotDigits hasDotDigit].
    rewrite IH, startsWithDigit_replaceDotDigits, orb_false_r.
    destruct (Ascii.eqb c "." && startsWithDigit rest) eqn:E; [reflexivity|].
    exact E. }
  assert (Hsame : forall s, hasDotDigit s = false -> replaceDotDigits s = s).
  { induction s as [|c rest IH]; [reflexivity|].
    cbn [replaceDotDigits hasDotDigit]. intros H.
    apply orb_false_iff in H as [Hhere Hrest].
    rewrite Hhere, (IH Hrest). reflexivity. }
  split; [|split; [apply Hnone|split; [apply Hsame|apply Hsame, Hnone]]].
  induction scope as [|c rest IH]; [reflexivity|].
  cbn [replaceDotDigits String.length]. rewrite IH. reflexivity.
Qed.

Lemma replaceDotDigits_spec_witness :
  replaceDotDigits "entity.name.function" = "entity.name.function".
Proof.
  apply (proj1 (proj2 (proj2 (replaceDotDigits_spec "entity.name.function")))).
  reflexivity.
Defined.

(** ** theme-finder.ts: the type of a collected theme *)

(** The type a theme is converted with.  A type given in the theme file
    is kept.  A file without one takes [dark] when the manifest says
    [vs-dark] and [light] for any other non-empty [uiTheme], the
    high-contrast ones included; with an empty [uiTheme] it stays without
    a type.  The type of the included theme is never used.  So the
    registry table both converters start from is the file's own type when
    it has one, the dark table for [vs-dark], and the light table in
    every other case. *)
Theorem collectTheme_type readTheme uiTheme vscodeTheme schemes :
  type_ (collectTheme readTheme uiTheme vscodeTheme) =
    match type_ vscodeTheme with
    | Some t => Some t
    | None =>
        match uiTheme with
        | EmptyString => None
        | String _ _ => Some (if String.eqb uiTheme "vs-dark" then Dark else Light)
        end
    end
  /\ baseTheme schemes (collectTheme readTheme uiTheme vscodeTheme) =
       match type_ vscodeTheme with
       | Some t => getKey t schemes
       | None => if String.eqb uiTheme "vs-dark" then dark schemes else light schemes
       end.
Proof.
  assert (Htype : type_ (collectTheme readTheme uiTheme vscodeTheme) =
    match type_ vscodeTheme with
    | Some t => Some t
    | None =>
        match uiTheme with
        | EmptyString => None
        | String _ _ => Some (if String.eqb uiTheme "vs-dark" then Dark else Light)
        end
    end).
  { unfold collectTheme.
    destruct (type_ vscodeTheme) as [t|] eqn:Ht.
    - destruct (include vscodeTheme) as [[|c p]|]; cbn [type_ mergeIncluded];
        exact Ht.
    - destruct uiTheme as [|u ui].
      + destruct (include vscodeTheme) as [[|c p]|]; cbn [type_ mergeIncluded];
          exact Ht.
      + cbn [include].
        destruct (include vscodeTheme) as [[|c p]|]; reflexivity. }
  split; [exact Htype|].
  unfold baseTheme. rewrite Htype.
  destruct (type_ vscodeTheme) as [t|]; [reflexivity|].
  destruct uiTheme as [|u ui]; [reflexivity|].
  destruct (String.eqb (String u ui) "vs-dark"); reflexivity.
Qed.

(** ** base.ts: the registered defaults *)

Lemma ranked_terminates Math_pow rank theme :
  RankedBy rank theme ->
  forall arg, exists fuel o, resolveColorValue Math_pow fuel arg theme = Some o.
Proof.
  intros Hrank [| |v| |];
    [| | |exists 2%nat; eexists; reflexivity|exists 1%nat; eexists; reflexivity].
  - exists 1%nat, (Ret None). reflexivity.
  - exists 1%nat, (Ret None). reflexivity.
  - set (k := S (list_max (rank <$> refsValue v))).
    apply (resolve_terminates_below Math_pow rank theme Hrank k).
    apply Forall_forall. intros j Hj. unfold k.
    assert (rank j <= list_max (rank <$> refsValue v))%nat; [|lia].
    assert (Hin : rank j ∈ rank <$> refsValue v).
    { apply list_elem_of_fmap. eauto. }
    pose proof (proj1 (list_max_le (rank <$> refsValue v) _) (Nat.le_refl _))
      as Hle.
    rewrite Forall_forall in Hle. apply Hle. exact Hin.
Qed.

Lemma safeTransform_OneOf ok values :
  safeTransform ok (OneOf values) = true ->
  Forall (fun c => safeValue ok c = true) values.
Proof.
  induction values as [|c rest IH]; [constructor|].
  cbn [safeTransform]. intros H. apply andb_true_iff in H as [Hc Hrest].
  constructor; [exact Hc|]. apply IH. exact Hrest.
Qed.

Lemma OneOf_safeTransform ok values :
  Forall (fun c => safeValue ok c = true) values ->
  safeTransform ok (OneOf values) = true.
Proof.
  induction 1 as [|c rest Hc _ IH]; [reflexivity|].
  cbn [safeTransform] in *. rewrite Hc. exact IH.
Qed.

Lemma safeValue_mono (ok ok' : string -> bool) :
  (forall s, ok s = true -> ok' s = true) ->
  forall v, safeValue ok v = true -> safeValue ok' v = true.
Proof.
  intros Hle.
  apply (ColorValue_mutind
    (fun v => safeValue ok v = true -> safeValue ok' v = true)
    (fun t => safeTransform ok t = true -> safeTransform ok' t = true)).
  - intros s. cbn [safeValue]. intros H. apply orb_true_iff in H as [H|H].
    + rewrite H. reflexivity.
    + rewrite (Hle s H). apply orb_true_r.
  - intros t IH. exact IH.
  - intros v f IH. exact IH.
  - intros v f IH. exact IH.
  - intros v f IH. exact IH.
  - intros values IH H. apply OneOf_safeTransform.
    apply safeTransform_OneOf in H. rewrite Forall_forall in IH, H.
    apply Forall_forall. intros c Hc. apply (IH c Hc), (H c Hc).
  - intros v b f tr IHv IHb. cbn [safeTransform]. intros H.
    apply andb_true_iff in H as [Hv Hb]. rewrite (IHv Hv), (IHb Hb). reflexivity.
  - intros i t e _ _. cbn [safeTransform]. discriminate.
Qed.

Lemma withColor_throw call k e :
  withColor call k = Some (Throw e) ->
  call = Some (Throw e) \/ exists c, k c = Some (Throw e).
Proof.
  unfold withColor. destruct call as [[color|e']|]; [|auto|discriminate].
  destruct (truthy color) as [c|]; [eauto|discriminate].
Qed.

Lemma oneOfLoop_throw f values e :
  oneOfLoop f values = Some (Throw e) ->
  exists c, c ∈ values /\ f c = Some (Throw e).
Proof.
  induction values as [|c rest IH]; simpl; [discriminate|].
  destruct (f c) as [[color|e']|] eqn:Hf; [| |discriminate].
  - destruct (truthy color); [discriminate|].
    intros H. destruct (IH H) as (c' & Hin & Hc'). exists c'. split; [|trivial].
    apply elem_of_cons; auto.
  - intros H. exists c. split; [apply elem_of_cons; auto|]. rewrite <- H. exact Hf.
Qed.

(** A safe value never throws: neither [theme.defines] nor the
    [default] case of [executeTransform] is reached. *)
Lemma safe_never_throws Math_pow ok theme :
  SafeTheme ok theme ->
  forall fuel,
    (forall arg e,
       (forall v, arg = value v -> safeValue ok v = true) ->
       arg <> objectPrototype ->
       resolveColorValue Math_pow fuel arg theme <> Some (Throw e))
    /\ (forall (t : ColorTransform) e, safeTransform ok t = true ->
          executeTransform Math_pow fuel t theme <> Some (Throw e)).
Proof.
  intros [Hsafe Hproto].
  induction fuel as [|fuel [IHr IHe]]; [split; intros; discriminate|].
  split.
  - intros arg e Harg Hobj. rewrite resolve_S.
    destruct arg as [| |[s|t]| |]; try discriminate; [| |contradiction].
    + specialize (Harg _ eq_refl). cbn [safeValue] in Harg.
      destruct (startsWithHash s); [discriminate|]. cbn [orb] in Harg.
      unfold themeGet. destruct (entries theme !! s) as [v'|] eqn:Hget.
      * apply IHr; [|discriminate]. intros v [= <-].
        exact (Hsafe s v' Hget Harg).
      * destruct (String.eqb s "__proto__") eqn:E.
        -- apply String.eqb_eq in E. subst s. destruct (Hproto Harg Hget).
        -- destruct (existsb (String.eqb s) prototypeFunctions);
             destruct fuel; discriminate.
    + apply IHe. exact (Harg _ eq_refl).
  - intros t e Ht. rewrite execute_S.
    destruct t as [v f|v f|v f|values|v b f tr|i th el].
    + intros H. apply withColor_throw in H as [H|[c H]]; [|discriminate].
      revert H. apply IHr; [|discriminate]. intros v' [= <-]. exact Ht.
    + intros H. apply withColor_throw in H as [H|[c H]]; [|discriminate].
      revert H. apply IHr; [|discriminate]. intros v' [= <-]. exact Ht.
    + intros H. apply withColor_throw in H as [H|[c H]]; [|discriminate].
      revert H. apply IHr; [|discriminate]. intros v' [= <-]. exact Ht.
    + intros H. apply oneOfLoop_throw in H as (c & Hin & H).
      revert H. apply IHr; [|discriminate]. intros v' [= <-].
      apply safeTransform_OneOf in Ht. rewrite Forall_forall in Ht. auto.
    + cbn [safeTransform] in Ht. apply andb_true_iff in Ht as [Hv Hb].
      intros H. apply withColor_throw in H as [H|[c H]].
      * revert H. apply IHr; [|discriminate]. intros v' [= <-]. exact Hv.
      * cbv beta in H. revert H.
        destruct (resolveColorValue Math_pow fuel (value b) theme)
          as [[color|e']|] eqn:Hbg; [| |discriminate].
        -- destruct (truthy color); [|discriminate].
           cbv zeta.
           destruct (Js.ltb (TinyColor.getLuminance Math_pow _) _); discriminate.
        -- intros _. revert Hbg. apply IHr; [|discriminate].
           intros v' [= <-]. exact Hb.
    + discriminate.
Qed.

Lemma rankedByb_sound rank table :
  rankedByb rank table = true -> RankedBy rank (plainObject table).
Proof.
  unfold rankedByb, RankedBy, plainObject. cbn [entries]. intros H.
  apply map_Forall_to_list, Forall_forall. intros [id v] Hin.
  rewrite forallb_forall in H. apply list_elem_of_In in Hin.
  specialize (H _ Hin). cbn in *. rewrite forallb_forall in H.
  apply Forall_forall. intros j Hj. apply Nat.ltb_lt, H, list_elem_of_In, Hj.
Qed.

Lemma safeThemeb_sound ok table :
  ok "__proto__" = false ->
  safeThemeb ok table = true -> SafeTheme ok (plainObject table).
Proof.
  unfold safeThemeb, SafeTheme, plainObject. cbn [entries]. intros Hproto H.
  split; [|rewrite Hproto; discriminate].
  apply map_Forall_to_list, Forall_forall. intros [id v] Hin.
  rewrite forallb_forall in H. apply list_elem_of_In in Hin.
  specialize (H _ Hin). cbn in *. intros Hok. rewrite Hok in H. exact H.
Qed.

Lemma overlay_ranked rank schemes theme :
  literalOverrides theme ->
  RankedBy rank (plainObject (baseTheme schemes theme)) ->
  RankedBy rank (plainObject (themeColors schemes theme)).
Proof.
  unfold RankedBy, plainObject. cbn [entries]. intros Hlit Hbase id v.
  rewrite themeColors_get. destruct (colors theme !! id) as [s|] eqn:Hs.
  - intros [= <-]. cbn [refsValue]. rewrite (Hlit id s Hs). constructor.
  - apply Hbase.
Qed.

Lemma overlay_safe ok schemes theme :
  literalOverrides theme ->
  ok "__proto__" = false ->
  SafeTheme ok (plainObject (baseTheme schemes theme)) ->
  SafeTheme (fun id => ok id || overridden theme id)
    (plainObject (themeColors schemes theme)).
Proof.
  unfold SafeTheme, plainObject. cbn [entries].
  intros Hlit Hproto [Hbase _]. split.
  - intros id v. rewrite themeColors_get. unfold overridden at 1.
    destruct (colors theme !! id) as [s|] eqn:Hs.
    + intros [= <-] _. cbn [safeValue]. rewrite (Hlit id s Hs). reflexivity.
    + intros Hv Hok. rewrite orb_false_r in Hok.
      apply (safeValue_mono ok); [|exact (Hbase id v Hv Hok)].
      intros s' ->. reflexivity.
  - rewrite Hproto, themeColors_get. unfold overridden. cbn [orb].
    destruct (colors theme !! "__proto__"); discriminate.
Qed.

Lemma registry_ranked key :
  RankedBy registrationRank (plainObject (getKey key Registry.schemes)).
Proof. apply rankedByb_sound. destruct key; vm_compute; reflexivity. Qed.

Lemma registry_safe key :
  SafeTheme (resolvable key) (plainObject (getKey key Registry.schemes)).
Proof.
  apply safeThemeb_sound; [destruct key; reflexivity|].
  destruct key; vm_compute; reflexivity.
Qed.

Lemma registry_no_proto key : getKey key Registry.schemes !! "__proto__" = None.
Proof. destruct key; vm_compute; reflexivity. Qed.

Lemma kate_getColor_ret Math_pow fuel schemes theme id color :
  getColor Math_pow fuel schemes theme id = Some (Ret color) ->
  exists kateColor, Kate.getColor Math_pow fuel schemes theme id = Some (Ret kateColor).
Proof.
  unfold getColor, Kate.getColor. intros ->. unfold withColor.
  destruct (truthy color) as [c|]; [|eauto].
  destruct (String.length c =? 9)%nat; eauto.
Qed.

Lemma getColor_throws Math_pow schemes theme id e :
  getColor Math_pow 3 schemes theme id = Some (Throw e) ->
  forall fuel, (3 <= fuel)%nat ->
    getColor Math_pow fuel schemes theme id = Some (Throw e)
    /\ Kate.getColor Math_pow fuel schemes theme id = Some (Throw e).
Proof.
  intros Hget fuel Hfuel.
  assert (Hfuel' : getColor Math_pow fuel schemes theme id = Some (Throw e)).
  { unfold getColor in *. apply (fuel_le Math_pow 3); assumption. }
  split; [exact Hfuel'|]. unfold getColor in Hfuel'. unfold Kate.getColor.
  rewrite Hfuel'. reflexivity.
Qed.

(** With the table of [base.ts] loaded, and a theme whose overrides are
    all strings starting with [#]: every resolution against the theme's
    colours terminates, and [getColor] of either converter returns (a
    colour or [undefined]) for every identifier the theme overrides and
    for every other identifier but two.  For
    [list.focusHighlightForeground] in a theme of type light (or of no
    type) both throw the [TypeError] of [theme.defines]; for [__proto__],
    which [theme[id]] reads as [Object.prototype], both throw
    [Error("Invalid transform")]. *)
Theorem registered_defaults_resolve Math_pow theme :
  literalOverrides theme ->
  (forall arg, exists fuel o,
     resolveColorValue Math_pow fuel arg
       (plainObject (themeColors Registry.schemes theme)) = Some o)
  /\ (forall id,
        match getColorThrows theme id with
        | Some e =>
            forall fuel, (3 <= fuel)%nat ->
              getColor Math_pow fuel Registry.schemes theme id = Some (Throw e)
              /\ Kate.getColor Math_pow fuel Registry.schemes theme id
                 = Some (Throw e)
        | None =>
            exists fuel color kateColor,
              getColor Math_pow fuel Registry.schemes theme id
                = Some (Ret color)
              /\ Kate.getColor Math_pow fuel Registry.schemes theme id
                 = Some (Ret kateColor)
        end).
Proof.
  intros Hlit.
  assert (Hterm : forall arg, exists fuel o,
            resolveColorValue Math_pow fuel arg
              (plainObject (themeColors Registry.schemes theme)) = Some o).
  { apply (ranked_terminates Math_pow registrationRank).
    apply overlay_ranked; [exact Hlit|]. apply registry_ranked. }
  assert (Hret : forall id,
            resolvable (default Light (type_ theme)) id || overridden theme id
            = true ->
            exists fuel color kateColor,
              getColor Math_pow fuel Registry.schemes theme id
                = Some (Ret color)
              /\ Kate.getColor Math_pow fuel Registry.schemes theme id
                 = Some (Ret kateColor)).
  { intros id Hok. destruct (Hterm (value (CString id))) as (fuel & o & Ho).
    destruct o as [color|e].
    - exists fuel, color. unfold getColor at 1.
      destruct (kate_getColor_ret Math_pow fuel Registry.schemes theme id color Ho)
        as [kateColor Hk].
      exists kateColor. split; assumption.
    - exfalso. revert Ho.
      apply (safe_never_throws Math_pow
               (fun id => resolvable (default Light (type_ theme)) id
                          || overridden theme id)); [| |discriminate].
      + apply overlay_safe; [exact Hlit| |apply registry_safe].
        unfold resolvable. apply andb_false_r.
      + intros v [= <-]. cbn [safeValue]. rewrite Hok. apply orb_true_r. }
  split; [exact Hterm|]. intros id. unfold getColorThrows.
  destruct (overridden theme id) eqn:Hover.
  { apply Hret. rewrite Hover. apply orb_true_r. }
  destruct (needsDefines (default Light (type_ theme)) id) eqn:Hneeds.
  { apply getColor_throws. unfold getColor. rewrite resolve_S.
    destruct (default Light (type_ theme)) eqn:Hkey; try discriminate.
    cbn [needsDefines] in Hneeds. apply String.eqb_eq in Hneeds. subst id.
    cbn [startsWithHash]. unfold themeGet, plainObject. cbn [entries].
    rewrite themeColors_get. unfold overridden in Hover.
    destruct (colors theme !! "list.focusHighlightForeground"); [discriminate|].
    unfold baseTheme. rewrite Hkey.
    replace (getKey Light Registry.schemes !! "list.focusHighlightForeground")
      with (Some (CTransform (IfDefinedThenElse "list.activeSelectionBackground"
              (CString "list.highlightForeground") (CString "#BBE7FF"))))
      by (vm_compute; reflexivity).
    reflexivity. }
  destruct (String.eqb id "__proto__") eqn:Hproto.
  { apply String.eqb_eq in Hproto. subst id.
    apply getColor_throws. unfold getColor. rewrite resolve_S.
    cbn [startsWithHash]. unfold themeGet, plainObject. cbn [entries].
    rewrite themeColors_get. unfold overridden in Hover.
    destruct (colors theme !! "__proto__"); [discriminate|].
    unfold baseTheme. rewrite registry_no_proto. reflexivity. }
  apply Hret. unfold resolvable. rewrite Hneeds, Hproto. reflexivity.
Qed.

Lemma registered_defaults_resolve_witness :
  exists fuel color kateColor,
    getColor Math_pow_unused fuel Registry.schemes derivedExample
      "editorInlayHint.foreground" = Some (Ret color)
    /\ Kate.getColor Math_pow_unused fuel Registry.schemes derivedExample
         "editorInlayHint.foreground" = Some (Ret kateColor).
Proof.
  assert (Hlit : literalOverrides derivedExample).
  { unfold literalOverrides, derivedExample. cbn [colors].
    apply map_Forall_insert_2; [reflexivity|]. apply map_Forall_empty. }
  pose proof (proj2 (registered_defaults_resolve Math_pow_unused derivedExample
                       Hlit) "editorInlayHint.foreground") as H.
  replace (getColorThrows derivedExample "editorInlayHint.foreground")
    with (@None Exception) in H by (vm_compute; reflexivity).
  exact H.
Defined.

(** ** base.ts: the table of registrations *)


Lemma literalsOf_OneOf s values c :
  c ∈ values -> In s (literalsOf c) -> In s (literalsOfTransform (OneOf values)).
Proof.
  induction values as [|c' rest IH]; intros Hin Hs.
  - inversion Hin.
  - cbn [literalsOfTransform]. apply in_or_app.
    apply elem_of_cons in Hin as [->|Hin]; [left; exact Hs|right].
    apply IH; assumption.
Qed.

Lemma literalIn_literalsOf s v :
  literalIn s v -> startsWithHash s = true -> In s (literalsOf v).
Proof.
  intros Hlit Hs. induction Hlit; cbn [literalsOf literalsOfTransform];
    try assumption.
  - rewrite Hs. left. reflexivity.
  - eapply literalsOf_OneOf; eauto.
  - apply in_or_app. left. assumption.
  - apply in_or_app. right. assumption.
  - apply in_or_app. left. assumption.
  - apply in_or_app. right. assumption.
Qed.




(** Every string starting with [#] written in a registered default is a
    hexadecimal colour ([#] and 3, 4, 6 or 8 hexadecimal digits), but
    for two: [#FFD37], the hcDark default of [editorWarning.foreground],
    and [#], the hcLight default of [editorWarning.border]. *)
Theorem registry_literals :
  (forall key id v s,
     getKey key Registry.schemes !! id = Some v ->
     literalIn s v -> startsWithHash s = true ->
     isHexColor s = true \/ knownTypo key id s = true)
  /\ getKey HcDark Registry.schemes !! "editorWarning.foreground"
     = Some (CString "#FFD37")
  /\ getKey HcLight Registry.schemes !! "editorWarning.border"
     = Some (CString "#").
Proof.
  split; [|split; vm_compute; reflexivity].
  intros key id v s Hget Hlit Hs.
  assert (Hcheck : literalsOkb key (getKey key Registry.schemes) = true)
    by (destruct key; vm_compute; reflexivity).
  unfold literalsOkb in Hcheck. rewrite forallb_forall in Hcheck.
  apply elem_of_map_to_list, list_elem_of_In in Hget.
  specialize (Hcheck _ Hget). cbn [fst snd] in Hcheck.
  rewrite forallb_forall in Hcheck.
  specialize (Hcheck s (literalIn_literalsOf s v Hlit Hs)).
  apply orb_true_iff in Hcheck. exact Hcheck.
Qed.

Lemma registry_literals_witness :
  isHexColor "#0064001a" = true
  \/ knownTypo Light "editorBracketMatch.background" "#0064001a" = true.
Proof.
  apply (proj1 registry_literals Light "editorBracketMatch.background"
           (CString "#0064001a") "#0064001a").
  - vm_compute. reflexivity.
  - constructor.
  - reflexivity.
Defined.

(** ** kate.ts: the text styles and their alternatives *)

(** An entry of ["text-styles"] is the style of the first rule matching
    its scope; failing that, of the first rule matching ["variable"];
    the alternative written after [||] is consulted only when the theme
    has no rule for ["variable"] either.  A theme with a rule for
    ["variable"] has every computed text style defined. *)
Theorem kate_text_styles (theme : VSCodeTheme) :
  (forall id alternative,
     Kate.textStyle theme id alternative =
     match Kate.findStyle theme id with
     | Some rule => Some (Kate.styleOf rule)
     | None =>
         match Kate.findStyle theme "variable" with
         | Some rule => Some (Kate.styleOf rule)
         | None =>
             match alternative with
             | Some other => Kate.styleOf <$> Kate.findStyle theme other
             | None => None
             end
         end
     end)
  /\ (forall rule, Kate.findStyle theme "variable" = Some rule ->
        Forall (fun entry : string * option Kate.KateTextStyle => is_Some entry.2)
          (Kate.textStyles theme)).
Proof.
  assert (Hto : forall id, Kate.toKateStyle theme id =
            match Kate.findStyle theme id with
            | Some rule => Some (Kate.styleOf rule)
            | None => Kate.styleOf <$> Kate.findStyle theme "variable"
            end).
  { intros id. unfold Kate.toKateStyle.
    destruct (Kate.findStyle theme id) eqn:Hid; [reflexivity|].
    destruct (String.eqb id "variable") eqn:E.
    - apply String.eqb_eq in E. subst id. rewrite Hid. reflexivity.
    - cbn [negb]. destruct (Kate.findStyle theme "variable"); reflexivity. }
  assert (Hstyle : forall id alternative,
     Kate.textStyle theme id alternative =
     match Kate.findStyle theme id with
     | Some rule => Some (Kate.styleOf rule)
     | None =>
         match Kate.findStyle theme "variable" with
         | Some rule => Some (Kate.styleOf rule)
         | None =>
             match alternative with
             | Some other => Kate.styleOf <$> Kate.findStyle theme other
             | None => None
             end
         end
     end).
  { intros id [other|]; unfold Kate.textStyle; rewrite ?Hto.
    - destruct (Kate.findStyle theme id); [reflexivity|].
      destruct (Kate.findStyle theme "variable"); cbn; [reflexivity|].
      destruct (Kate.findStyle theme other); reflexivity.
    - destruct (Kate.findStyle theme id); [reflexivity|].
      destruct (Kate.findStyle theme "variable"); reflexivity. }
  split; [exact Hstyle|].
  intros rule Hvar. unfold Kate.textStyles. apply Forall_forall.
  intros entry Hin. apply list_elem_of_fmap in Hin as (e & -> & _).
  cbn [snd]. rewrite Hstyle, Hvar.
  destruct (Kate.findStyle theme e.2.1); eauto.
Qed.

Lemma kate_text_styles_witness :
  let theme :=
    mkVSCodeTheme (Some Dark) "t" ∅ None
      [mkTokenColor (ScopeString "variable")
         (mkSettings (Some "#9cdcfe") false false false None);
       mkTokenColor (ScopeString "keyword")
         (mkSettings (Some "#c586c0") false false false None)] in
  Kate.textStyle theme "keyword.control" (Some "keyword")
  = Some (Kate.mkKateTextStyle (Some "#9cdcfe") (Some "#9cdcfe") None None None)
  /\ Forall (fun entry : string * option Kate.KateTextStyle => is_Some entry.2)
       (Kate.textStyles theme).
Proof.
  intros theme. split.
  - rewrite (proj1 (kate_text_styles theme)). reflexivity.
  - apply (proj2 (kate_text_styles theme)
             (mkTokenColor (ScopeString "variable")
                (mkSettings (Some "#9cdcfe") false false false None))).
    reflexivity.
Defined.

(** ** base.ts: what [Transparent] returns *)

Lemma hexDigit_all :
  forallb (fun n =>
             let c := ascii_of_nat n in
             match TinyColor.hexDigit c with
             | Some h =>
                 (0 <=? h)%Z && (h <=? 15)%Z
                 && Ascii.eqb (TinyColor.toHexDigit h) (lowerDigit c)
             | None => true
             end)
    (seq 0 256) = true.
Proof. vm_compute. reflexivity. Qed.

Lemma hexDigit_lower c h :
  TinyColor.hexDigit c = Some h ->
  (0 <= h <= 15)%Z /\ TinyColor.toHexDigit h = lowerDigit c.
Proof.
  intros Hc. pose proof hexDigit_all as Hall. rewrite forallb_forall in Hall.
  specialize (Hall (nat_of_ascii c)). cbv zeta in Hall.
  rewrite ascii_nat_embedding, Hc in Hall.
  assert (Hin : In (nat_of_ascii c) (seq 0 256)).
  { apply in_seq. pose proof (nat_ascii_bounded c). lia. }
  specialize (Hall Hin).
  apply andb_true_iff in Hall as [Hall Heq].
  apply andb_true_iff in Hall as [H0 H15].
  apply Z.leb_le in H0, H15. apply Ascii.eqb_eq in Heq. auto.
Qed.

Lemma parseIntFromHex_print hi lo n :
  TinyColor.parseIntFromHex hi lo = Some n ->
  (0 <= n <= 255)%Z
  /\ TinyColor.pad2hex n = String (lowerDigit hi) (String (lowerDigit lo) EmptyString)
  /\ isHexDigit hi = true /\ isHexDigit lo = true.
Proof.
  unfold TinyColor.parseIntFromHex, isHexDigit.
  destruct (TinyColor.hexDigit hi) as [h|] eqn:Hhi; [|discriminate].
  destruct (TinyColor.hexDigit lo) as [l|] eqn:Hlo; [|discriminate].
  intros [= <-].
  destruct (hexDigit_lower hi h Hhi) as [Hh <-].
  destruct (hexDigit_lower lo l Hlo) as [Hl <-].
  split; [lia|]. split; [|auto]. unfold TinyColor.pad2hex.
  replace ((16 * h + l) / 16)%Z with h
    by (apply (Z.div_unique_pos _ _ h l); lia).
  replace ((16 * h + l) mod 16)%Z with l
    by (apply (Z.mod_unique_pos _ _ h l); lia).
  reflexivity.
Qed.

Lemma parseIntFromHex_hex hi lo :
  isHexDigit hi = true -> isHexDigit lo = true ->
  exists n, TinyColor.parseIntFromHex hi lo = Some n.
Proof.
  unfold TinyColor.parseIntFromHex, isHexDigit.
  destruct (TinyColor.hexDigit hi); [|discriminate].
  destruct (TinyColor.hexDigit lo); [|discriminate]. eauto.
Qed.

Lemma toHexString_parsed r1 r2 g1 g2 b1 b2 r g b a :
  TinyColor.parseIntFromHex r1 r2 = Some r ->
  TinyColor.parseIntFromHex g1 g2 = Some g ->
  TinyColor.parseIntFromHex b1 b2 = Some b ->
  TinyColor.toHexString
    (TinyColor.construct true
       (TinyColor.rgbToRgb (inject_Z r) (inject_Z g) (inject_Z b)) a)
  = string_of_list_ascii
      ["#"%char; lowerDigit r1; lowerDigit r2; lowerDigit g1; lowerDigit g2;
       lowerDigit b1; lowerDigit b2].
Proof.
  intros Hr Hg Hb.
  apply parseIntFromHex_print in Hr as (Hr & Er & _).
  apply parseIntFromHex_print in Hg as (Hg & Eg & _).
  apply parseIntFromHex_print in Hb as (Hb & Eb & _).
  rewrite toHexString_channels by assumption. rewrite Er, Eg, Eb. reflexivity.
Qed.

Lemma unparsable_black :
  TinyColor.toHexString (TinyColor.construct false (0, 0, 0) 1) = "#000000".
Proof. vm_compute. reflexivity. Qed.

Ltac parse_digits :=
  repeat match goal with
  | H : TinyColor.parseIntFromHex ?x ?y = Some _ |- _ =>
      apply parseIntFromHex_print in H as (_ & _ & ? & ?)
  end.

(** [tinycolor2(color).toHexString()] on a string starting with [#]. *)
Lemma toHexString_tinycolor2 (color : string) :
  startsWithHash color = true ->
  TinyColor.toHexString (TinyColor.tinycolor2 color) = opaqueForm color.
Proof.
  intros Hhash. apply startsWithHash_inv in Hhash as [digits ->].
  unfold opaqueForm, TinyColor.tinycolor2, TinyColor.stringInputToObject.
  cbv zeta.
  destruct digits as [|c1 [|c2 [|c3 [|c4 [|c5 [|c6 [|c7 [|c8 [|c9 rest]]]]]]]]];
    cbn [list_ascii_of_string map].
  1-3, 6, 8, 10: destruct (forallb isHexDigit _); exact unparsable_black.
  - (* #rgb *)
    destruct (TinyColor.parseIntFromHex c1 c1) as [r|] eqn:Hr;
      [destruct (TinyColor.parseIntFromHex c2 c2) as [g|] eqn:Hg;
       [destruct (TinyColor.parseIntFromHex c3 c3) as [b|] eqn:Hb|]|].
    + rewrite (toHexString_parsed _ _ _ _ _ _ _ _ _ _ Hr Hg Hb).
      parse_digits. cbn [forallb].
      repeat match goal with H : isHexDigit _ = true |- _ => rewrite H; clear H end.
      reflexivity.
    + destruct (forallb isHexDigit [c1; c2; c3]) eqn:Hall; [|exact unparsable_black].
      cbn [forallb] in Hall. repeat (apply andb_true_iff in Hall as [? Hall]).
      destruct (parseIntFromHex_hex c3 c3) as [n Hn]; congruence.
    + destruct (forallb isHexDigit [c1; c2; c3]) eqn:Hall; [|exact unparsable_black].
      cbn [forallb] in Hall. repeat (apply andb_true_iff in Hall as [? Hall]).
      destruct (parseIntFromHex_hex c2 c2) as [n Hn]; congruence.
    + destruct (forallb isHexDigit [c1; c2; c3]) eqn:Hall; [|exact unparsable_black].
      cbn [forallb] in Hall. repeat (apply andb_true_iff in Hall as [? Hall]).
      destruct (parseIntFromHex_hex c1 c1) as [n Hn]; congruence.
  - (* #rgba *)
    unfold TinyColor.convertHexToDecimal.
    destruct (TinyColor.parseIntFromHex c1 c1) as [r|] eqn:Hr;
      [destruct (TinyColor.parseIntFromHex c2 c2) as [g|] eqn:Hg;
       [destruct (TinyColor.parseIntFromHex c3 c3) as [b|] eqn:Hb;
        [destruct (TinyColor.parseIntFromHex c4 c4) as [a|] eqn:Ha|]|]|].
    + rewrite (toHexString_parsed _ _ _ _ _ _ _ _ _ _ Hr Hg Hb).
      parse_digits. cbn [forallb].
      repeat match goal with H : isHexDigit _ = true |- _ => rewrite H; clear H end.
      reflexivity.
    + destruct (forallb isHexDigit [c1; c2; c3; c4]) eqn:Hall; [|exact unparsable_black].
      cbn [forallb] in Hall. repeat (apply andb_true_iff in Hall as [? Hall]).
      destruct (parseIntFromHex_hex c4 c4) as [n Hn]; congruence.
    + destruct (forallb isHexDigit [c1; c2; c3; c4]) eqn:Hall; [|exact unparsable_black].
      cbn [forallb] in Hall. repeat (apply andb_true_iff in Hall as [? Hall]).
      destruct (parseIntFromHex_hex c3 c3) as [n Hn]; congruence.
    + destruct (forallb isHexDigit [c1; c2; c3; c4]) eqn:Hall; [|exact unparsable_black].
      cbn [forallb] in Hall. repeat (apply andb_true_iff in Hall as [? Hall]).
      destruct (parseIntFromHex_hex c2 c2) as [n Hn]; congruence.
    + destruct (forallb isHexDigit [c1; c2; c3; c4]) eqn:Hall; [|exact unparsable_black].
      cbn [forallb] in Hall. repeat (apply andb_true_iff in Hall as [? Hall]).
      destruct (parseIntFromHex_hex c1 c1) as [n Hn]; congruence.
  - (* #rrggbb *)
    destruct (TinyColor.parseIntFromHex c1 c2) as [r|] eqn:Hr;
      [destruct (TinyColor.parseIntFromHex c3 c4) as [g|] eqn:Hg;
       [destruct (TinyColor.parseIntFromHex c5 c6) as [b|] eqn:Hb|]|].
    + rewrite (toHexString_parsed _ _ _ _ _ _ _ _ _ _ Hr Hg Hb).
      parse_digits. cbn [forallb].
      repeat match goal with H : isHexDigit _ = true |- _ => rewrite H; clear H end.
      reflexivity.
    + destruct (forallb isHexDigit [c1; c2; c3; c4; c5; c6]) eqn:Hall; [|exact unparsable_black].
      cbn [forallb] in Hall. repeat (apply andb_true_iff in Hall as [? Hall]).
      destruct (parseIntFromHex_hex c5 c6) as [n Hn]; congruence.
    + destruct (forallb isHexDigit [c1; c2; c3; c4; c5; c6]) eqn:Hall; [|exact unparsable_black].
      cbn [forallb] in Hall. repeat (apply andb_true_iff in Hall as [? Hall]).
      destruct (parseIntFromHex_hex c3 c4) as [n Hn]; congruence.
    + destruct (forallb isHexDigit [c1; c2; c3; c4; c5; c6]) eqn:Hall; [|exact unparsable_black].
      cbn [forallb] in Hall. repeat (apply andb_true_iff in Hall as [? Hall]).
      destruct (parseIntFromHex_hex c1 c2) as [n Hn]; congruence.
  - (* #rrggbbaa *)
    unfold TinyColor.convertHexToDecimal.
    destruct (TinyColor.parseIntFromHex c1 c2) as [r|] eqn:Hr;
      [destruct (TinyColor.parseIntFromHex c3 c4) as [g|] eqn:Hg;
       [destruct (TinyColor.parseIntFromHex c5 c6) as [b|] eqn:Hb;
        [destruct (TinyColor.parseIntFromHex c7 c8) as [a|] eqn:Ha|]|]|].
    + rewrite (toHexString_parsed _ _ _ _ _ _ _ _ _ _ Hr Hg Hb).
      parse_digits. cbn [forallb].
      repeat match goal with H : isHexDigit _ = true |- _ => rewrite H; clear H end.
      reflexivity.
    + destruct (forallb isHexDigit [c1; c2; c3; c4; c5; c6; c7; c8]) eqn:Hall;
        [|exact unparsable_black].
      cbn [forallb] in Hall. repeat (apply andb_true_iff in Hall as [? Hall]).
      destruct (parseIntFromHex_hex c7 c8) as [n Hn]; congruence.
    + destruct (forallb isHexDigit [c1; c2; c3; c4; c5; c6; c7; c8]) eqn:Hall;
        [|exact unparsable_black].
      cbn [forallb] in Hall. repeat (apply andb_true_iff in Hall as [? Hall]).
      destruct (parseIntFromHex_hex c5 c6) as [n Hn]; congruence.
    + destruct (forallb isHexDigit [c1; c2; c3; c4; c5; c6; c7; c8]) eqn:Hall;
        [|exact unparsable_black].
      cbn [forallb] in Hall. repeat (apply andb_true_iff in Hall as [? Hall]).
      destruct (parseIntFromHex_hex c3 c4) as [n Hn]; congruence.
    + destruct (forallb isHexDigit [c1; c2; c3; c4; c5; c6; c7; c8]) eqn:Hall;
        [|exact unparsable_black].
      cbn [forallb] in Hall. repeat (apply andb_true_iff in Hall as [? Hall]).
      destruct (parseIntFromHex_hex c1 c2) as [n Hn]; congruence.
Qed.

Lemma lowerDigit_lower c : isLowerHexDigit c = true -> lowerDigit c = c.
Proof.
  unfold isLowerHexDigit, lowerDigit. cbv zeta.
  pose proof (nat_ascii_bounded c) as Hb.
  destruct ((65 <=? nat_of_ascii c)%nat && (nat_of_ascii c <=? 70)%nat) eqn:E;
    [|reflexivity].
  apply andb_true_iff in E as [E1 E2]. apply Nat.leb_le in E1, E2.
  intros H. apply orb_true_iff in H as [H|H];
    apply andb_true_iff in H as [H1 H2]; apply Z.leb_le in H1, H2; lia.
Qed.

Lemma isLowerHexDigit_isHexDigit c : isLowerHexDigit c = true -> isHexDigit c = true.
Proof.
  unfold isLowerHexDigit, isHexDigit, TinyColor.hexDigit. cbv zeta.
  intros H.
  destruct ((48 <=? Z.of_nat (nat_of_ascii c))%Z
            && (Z.of_nat (nat_of_ascii c) <=? 57)%Z); [reflexivity|].
  cbn [orb] in H. rewrite H. reflexivity.
Qed.

Lemma opaqueForm_fixed (color : string) :
  isRRGGBB color = true -> opaqueForm color = color.
Proof.
  unfold isRRGGBB, opaqueForm. destruct color as [|h digits]; [discriminate|].
  destruct (Ascii.eqb h "#") eqn:Eh.
  2:{ destruct h as [[] [] [] [] [] [] [] []]; try discriminate. }
  apply Ascii.eqb_eq in Eh. subst h. intros H.
  apply andb_true_iff in H as [Hlen Hall]. apply Nat.eqb_eq in Hlen.
  destruct digits as [|c1 [|c2 [|c3 [|c4 [|c5 [|c6 [|c7 rest]]]]]]];
    try discriminate.
  cbn [list_ascii_of_string forallb] in *.
  repeat (apply andb_true_iff in Hall as [? Hall]).
  repeat match goal with
  | H : isLowerHexDigit ?c = true |- _ =>
      rewrite (isLowerHexDigit_isHexDigit c H); cbn [map];
      rewrite ?(lowerDigit_lower c H); clear H
  end.
  reflexivity.
Qed.

(** On a nested colour that is a hexadecimal colour, [Transparent]
    returns its opaque form: the factor has no part in the result, and
    the alpha digits of the nested colour, when it has any, are dropped.
    So does [Color.fromHex(c).transparent(factor)].  A nested colour
    already of the form [#rrggbb] in lowercase, such as the output of
    another transform, is returned as it is. *)
Theorem transparent_opaque_form Math_pow fuel theme v factor c :
  resolveColorValue Math_pow fuel (value v) theme = Some (Ret (Some c)) ->
  isHexColor c = true ->
  resolveColorValue Math_pow (S (S fuel))
    (value (CTransform (Transparent v factor))) theme
  = Some (Ret (Some (opaqueForm c)))
  /\ Color_fromHex_transparent c factor = opaqueForm c
  /\ isRRGGBB (opaqueForm c) = true
  /\ (isRRGGBB c = true -> opaqueForm c = c).
Proof.
  intros Hc _.
  assert (Hhash : startsWithHash c = true)
    by exact (proj1 (resolved_startsWithHash Math_pow fuel) _ theme c Hc).
  assert (E : TinyColor.toHexString (TinyColor.tinycolor2 c) = opaqueForm c)
    by (apply toHexString_tinycolor2; exact Hhash).
  split; [|split; [|split]].
  - destruct c as [|a s]; [discriminate|].
    rewrite (transparent_defined Math_pow fuel theme v factor a s Hc), E.
    reflexivity.
  - unfold Color_fromHex_transparent. rewrite toHexString_setAlpha. exact E.
  - rewrite <- E. apply toHexString_inRange, tinycolor2_inRange.
  - apply opaqueForm_fixed.
Qed.

Lemma transparent_opaque_form_witness :
  resolveColorValue Math_pow_unused 3
    (value (CTransform (Transparent (CString "#0064001A") (1 # 2))))
    (plainObject ∅)
  = Some (Ret (Some "#006400")).
Proof.
  destruct (transparent_opaque_form Math_pow_unused 1 (plainObject ∅)
              (CString "#0064001A") (1 # 2) "#0064001A" eq_refl eq_refl)
    as [H _].
  exact H.
Defined.

(** ** base.ts: the colours of the registry *)

Lemma isRRGGBB_isHexColor s : isRRGGBB s = true -> isHexColor s = true.
Proof.
  unfold isRRGGBB, isHexColor. destruct s as [|h digits]; [discriminate|].
  destruct (Ascii.eqb h "#") eqn:Eh.
  2:{ destruct h as [[] [] [] [] [] [] [] []]; try discriminate. }
  apply Ascii.eqb_eq in Eh. subst h. intros H.
  apply andb_true_iff in H as [Hlen Hall]. apply Nat.eqb_eq in Hlen.
  rewrite Hlen, andb_true_r. rewrite forallb_forall in Hall.
  apply forallb_forall. intros c Hc.
  apply isLowerHexDigit_isHexDigit, Hall, Hc.
Qed.

Lemma registry_literals_checked key id v s :
  getKey key Registry.schemes !! id = Some v ->
  literalIn s v -> startsWithHash s = true ->
  isHexColor s = true \/ knownTypo key id s = true.
Proof.
  intros Hget Hlit Hs.
  assert (Hcheck : literalsOkb key (getKey key Registry.schemes) = true)
    by (destruct key; vm_compute; reflexivity).
  unfold literalsOkb in Hcheck. rewrite forallb_forall in Hcheck.
  apply elem_of_map_to_list, list_elem_of_In in Hget.
  specialize (Hcheck _ Hget). cbn [fst snd] in Hcheck.
  rewrite forallb_forall in Hcheck.
  specialize (Hcheck s (literalIn_literalsOf s v Hlit Hs)).
  apply orb_true_iff in Hcheck. exact Hcheck.
Qed.

Lemma knownTypo_inv key id s :
  knownTypo key id s = true ->
  (key = HcDark /\ s = "#FFD37") \/ (key = HcLight /\ s = "#").
Proof.
  unfold knownTypo. destruct key; try discriminate; intros H;
    apply andb_true_iff in H as [_ H]; apply String.eqb_eq in H; auto.
Qed.

(** C9, amended.  Every defined colour string the resolver returns for
    an identifier resolved against a variant's registry context is [#]
    followed by 3, 4, 6 or 8 hexadecimal digits, in lowercase or
    uppercase, unless it is one of the two malformed literals of the
    table: [#FFD37] in the hcDark context and [#] in the hcLight
    context. *)
Theorem registry_colors_hex Math_pow key id fuel s :
  startsWithHash id = false ->
  resolveColorValue Math_pow fuel (value (CString id))
    (plainObject (getKey key Registry.schemes)) = Some (Ret (Some s)) ->
  isHexColor s = true
  \/ (key = HcDark /\ s = "#FFD37")
  \/ (key = HcLight /\ s = "#").
Proof.
  intros Hid Hres.
  pose proof (proj1 (resolved_startsWithHash Math_pow fuel) _ _ _ Hres) as Hs.
  destruct (proj1 (resolved_shape Math_pow fuel) _ _ _ Hres)
    as [Hhex|[(v & Hv & Hlit)|(id' & v & Hget & Hlit)]].
  - left. apply isRRGGBB_isHexColor, Hhex.
  - injection Hv as <-. inversion Hlit; subst. congruence.
  - unfold plainObject in Hget. cbn [entries] in Hget.
    destruct (registry_literals_checked key id' v s Hget Hlit Hs) as [H|H];
      [left; exact H|right].
    exact (knownTypo_inv key id' s H).
Qed.

Lemma registry_colors_hex_witness :
  isHexColor "#333" = true
  \/ (Light = HcDark /\ "#333" = "#FFD37")
  \/ (Light = HcLight /\ "#333" = "#").
Proof.
  apply (registry_colors_hex Math_pow_unused Light "badge.foreground" 2 "#333").
  - reflexivity.
  - vm_compute. reflexivity.
Defined.
